(** * Kimchi [model.py]: a shallow embedding and its checked properties

    The development follows [src/kimchi/model.py] (Python 2).  Python
    exceptions become values of [exn]; code that mutates [self] becomes a
    state-and-exception computation in which the state survives a raise, as
    it does in Python.  Dictionaries are [gmap]s.  Python floats are modelled
    by exact rationals ([Q]); a float division by zero raises
    [ZeroDivisionError] as the interpreter does. *)

From Stdlib Require Import ZArith QArith Qround Lia String List DecimalString.
From Stdlib Require Import Floats Lqa.
From stdpp Require Import base option gmap strings list fin_maps.

Local Open Scope Z_scope.
Local Open Scope string_scope.

(** ** Exceptions

    [kimchi.exception] and the [libvirt.libvirtError] class, plus the builtin
    exceptions the modelled paths can raise. *)

Inductive exn : Type :=
| InvalidOperation (msg : string)
| InvalidParameter (msg : string)
| MissingParameter (key : string)
| NotFoundError (msg : string)
| OperationFailed (msg : string)
| libvirtError (edom ecode : Z) (msg : string)
| ZeroDivisionError
| KeyError (key : string)
| UnboundLocalError (var : string).

Definition get_error_domain (e : exn) : Z :=
  match e with libvirtError d _ _ => d | _ => 0 end.
Definition get_error_code (e : exn) : Z :=
  match e with libvirtError _ c _ => c | _ => 0 end.
Definition get_error_message (e : exn) : string :=
  match e with libvirtError _ _ m => m | _ => "" end.

(** ** State-and-exception computations *)

Definition M (S A : Type) : Type := S -> S * (exn + A).

Definition ret {S A} (a : A) : M S A := fun s => (s, inr a).
Definition raise {S A} (e : exn) : M S A := fun s => (s, inl e).
Definition bind {S A B} (c : M S A) (k : A -> M S B) : M S B :=
  fun s => match c s with
           | (s', inr a) => k a s'
           | (s', inl e) => (s', inl e)
           end.
Definition gets {S A} (f : S -> A) : M S A := fun s => (s, inr (f s)).
Definition modify {S} (f : S -> S) : M S unit := fun s => (f s, inr tt).
Definition lift {S A} (r : exn + A) : M S A := fun s => (s, r).

(** [try: c except h]: run [c]; on a raise, run the handler on the exception
    in the state [c] left behind. *)
Definition try_except {S A} (c : M S A) (h : exn -> M S A) : M S A :=
  fun s => match c s with
           | (s', inl e) => h e s'
           | r => r
           end.

Notation "'let*' x ':=' c 'in' k" := (bind c (fun x => k))
  (at level 10, x pattern, c at level 100, k at level 200).
Notation "c ';;' k" := (bind c (fun _ => k))
  (at level 100, k at level 200, right associativity).

(** [for x in l: body x] *)
Fixpoint for_each {S A} (l : list A) (body : A -> M S unit) : M S unit :=
  match l with
  | [] => ret tt
  | x :: l' => body x ;; for_each l' body
  end.

(** ** Module-level helpers *)

Definition ISO_POOL_NAME : string := "kimchi_isos".

(** ["%i" % i] for a non-negative [i]. *)
Definition fmt_i (i : nat) : string := NilEmpty.string_of_uint (Nat.to_uint i).

(** ["%s-vm-%i" % (t_name, i)] *)
Definition vm_name_fmt (t_name : string) (i : nat) : string :=
  t_name +:+ "-vm-" +:+ fmt_i i.

(** The [for i in xrange(...)] loop of [get_vm_name] over the remaining
    indices: the first free candidate is returned, running off the end
    raises. *)
Fixpoint get_vm_name_loop (t_name : string) (name_list : list string)
    (range : list nat) : exn + string :=
  match range with
  | [] => inl (OperationFailed "Unable to choose a VM name")
  | i :: range' =>
      let vm_name := vm_name_fmt t_name i in
      if bool_decide (vm_name ∈ name_list)
      then get_vm_name_loop t_name name_list range'
      else inr vm_name
  end.

(** [get_vm_name(vm_name, t_name, name_list)]; [None] and the empty string
    are the falsy values of the first argument. *)
Definition get_vm_name (vm_name : option string) (t_name : string)
    (name_list : list string) : exn + string :=
  match vm_name with
  | Some n => if bool_decide (n = "") then
                get_vm_name_loop t_name name_list (seq 1 999)
              else inr n
  | None => get_vm_name_loop t_name name_list (seq 1 999)
  end.

(** [_uri_to_name(collection, uri)]: the regular expression
    ['/%s/(.*?)/?$'] anchors ["/collection/"] at the start and lets one
    trailing slash go. *)
Definition strip_trailing_slash (s : string) : string :=
  let n := String.length s in
  if bool_decide (String.substring (n - 1) 1 s = "/")
  then String.substring 0 (n - 1) s else s.

Definition _uri_to_name (collection uri : string) : exn + string :=
  let pre := "/" +:+ collection +:+ "/" in
  if String.prefix pre uri
  then inr (strip_trailing_slash
              (String.substring (String.length pre)
                 (String.length uri - String.length pre) uri))
  else inl (InvalidParameter uri).

Definition template_name_from_uri (uri : string) : exn + string :=
  _uri_to_name "templates" uri.
Definition pool_name_from_uri (uri : string) : exn + string :=
  _uri_to_name "storagepools" uri.

(** [sorted(names)] and [sorted(names, key=unicode.lower)]: a stable
    insertion sort; [lower] folds the ASCII capitals. *)
Definition lower_ascii (c : Ascii.ascii) : Ascii.ascii :=
  let n := Ascii.nat_of_ascii c in
  if ((65 <=? n)%nat && (n <=? 90)%nat)%bool
  then Ascii.ascii_of_nat (n + 32) else c.

Fixpoint lower (s : string) : string :=
  match s with
  | EmptyString => EmptyString
  | String c s' => String (lower_ascii c) (lower s')
  end.

Fixpoint insert_by (key : string -> string) (x : string) (l : list string)
    : list string :=
  match l with
  | [] => [x]
  | y :: l' => if String.leb (key x) (key y) then x :: y :: l'
               else y :: insert_by key x l'
  end.

Definition sorted_by (key : string -> string) (l : list string) : list string :=
  foldr (insert_by key) [] l.

Definition sorted (l : list string) : list string := sorted_by (fun s => s) l.

(** ** The virtualization control plane

    libvirt is an external collaborator.  What follows is the part of its
    behaviour the modelled paths of [model.py] observe: domains, storage
    volumes, pools and networks, the numeric error domains and codes of
    [libvirt.h], and, as fields of the world, the decisions libvirt takes on
    its own (refusing a descriptor, failing to open a session). *)

Definition VIR_FROM_RPC : Z := 7.
Definition VIR_FROM_QEMU : Z := 10.
Definition VIR_FROM_REMOTE : Z := 13.
Definition VIR_FROM_STORAGE : Z := 18.
Definition VIR_FROM_NETWORK : Z := 19.

Definition VIR_ERR_INTERNAL_ERROR : Z := 1.
Definition VIR_ERR_NO_CONNECT : Z := 5.
Definition VIR_ERR_INVALID_CONN : Z := 6.
Definition VIR_ERR_OPERATION_FAILED : Z := 9.
Definition VIR_ERR_SYSTEM_ERROR : Z := 38.
Definition VIR_ERR_NO_DOMAIN : Z := 42.
Definition VIR_ERR_NO_NETWORK : Z := 43.
Definition VIR_ERR_NO_STORAGE_POOL : Z := 49.
Definition VIR_ERR_NO_STORAGE_VOL : Z := 50.
Definition VIR_ERR_OPERATION_INVALID : Z := 55.
Definition VIR_ERR_STORAGE_VOL_EXIST : Z := 90.

(** A [<disk>] element of a domain descriptor. *)
Record disk : Type := {
  disk_device : string;          (* @device: "disk", "cdrom" *)
  disk_target : string;          (* target/@dev *)
  disk_file : option string      (* source/@file *)
}.

(** The domain descriptor ([XMLDesc], [defineXML]), as the fields the code
    reads or rewrites. *)
Record domain_xml : Type := {
  x_name : string;
  x_uuid : string;
  x_memory : Z;
  x_vcpus : Z;
  x_disks : list disk;
  x_ifaces : list string;               (* devices/interface/target/@dev *)
  x_graphics : option (string * Z)      (* graphics/@type, @port *)
}.

Definition set_x_name (n : string) (x : domain_xml) : domain_xml :=
  {| x_name := n; x_uuid := x_uuid x; x_memory := x_memory x;
     x_vcpus := x_vcpus x; x_disks := x_disks x; x_ifaces := x_ifaces x;
     x_graphics := x_graphics x |}.

(** A domain known to libvirt: its descriptor and what [info()],
    [interfaceStats] and [blockStats] report. *)
Record domain : Type := {
  d_xml : domain_xml;
  d_state : nat;                        (* info()[0] *)
  d_cputime : Z;                        (* info()[4], nanoseconds *)
  d_ifstats : gmap string (Z * Z);      (* dev -> rx_bytes, tx_bytes *)
  d_blkstats : gmap string (Z * Z)      (* dev -> rd_bytes, wr_bytes *)
}.

Definition set_d_state (st : nat) (d : domain) : domain :=
  {| d_xml := d_xml d; d_state := st; d_cputime := d_cputime d;
     d_ifstats := d_ifstats d; d_blkstats := d_blkstats d |}.

(** [info()] as a record: state, memory, virtual CPUs, CPU time. *)
Record dominfo : Type := {
  i_state : nat; i_memory : Z; i_vcpus : Z; i_cputime : Z
}.

Record pool : Type := {
  pl_type : string;
  pl_path : string;
  pl_active : bool;
  pl_persistent : bool;
  pl_autostart : bool
}.

Definition set_pl_autostart (b : bool) (p : pool) : pool :=
  {| pl_type := pl_type p; pl_path := pl_path p; pl_active := pl_active p;
     pl_persistent := pl_persistent p; pl_autostart := b |}.

(** The pool descriptor [_get_pool_xml] builds. *)
Record pool_xml : Type := {
  px_type : string;
  px_name : string;
  px_path : string;
  px_source : list string       (* host and dir of netfs, devices of logical *)
}.

(** The network descriptor [to_network_xml] builds and
    [_get_network_from_xml] reads back. *)
Record network_xml : Type := {
  nx_name : string;
  nx_forward_mode : string;             (* "" when there is no <forward> *)
  nx_forward_interface : list string;   (* forward/interface/@dev *)
  nx_forward_pf : list string;          (* forward/pf/@dev *)
  nx_subnet : string;
  nx_dhcp : string * string;
  nx_bridge : string
}.

Record network : Type := {
  nw_xml : network_xml;
  nw_active : bool;
  nw_autostart : bool
}.

Definition set_nw_autostart (b : bool) (n : network) : network :=
  {| nw_xml := nw_xml n; nw_active := nw_active n; nw_autostart := b |}.

Record libvirt_world : Type := {
  lv_domains : gmap string domain;      (* by name *)
  lv_volumes : gset string;             (* by path *)
  lv_pools : gmap string pool;          (* by name *)
  lv_networks : gmap string network;    (* by name *)
  (* decisions of libvirt the model does not derive *)
  lv_refuse_domain : domain_xml -> option (Z * Z * string);
  lv_refuse_network : network_xml -> option (Z * Z * string);
  lv_refuse_pool : pool_xml -> option (Z * Z * string);
  lv_open_failures : nat;               (* failing [libvirt.open] calls ahead *)
  lv_sessions : nat                     (* sessions opened so far *)
}.

Definition set_lv_domains (f : gmap string domain -> gmap string domain)
    (w : libvirt_world) : libvirt_world :=
  {| lv_domains := f (lv_domains w); lv_volumes := lv_volumes w;
     lv_pools := lv_pools w; lv_networks := lv_networks w;
     lv_refuse_domain := lv_refuse_domain w;
     lv_refuse_network := lv_refuse_network w;
     lv_refuse_pool := lv_refuse_pool w;
     lv_open_failures := lv_open_failures w; lv_sessions := lv_sessions w |}.

Definition set_lv_volumes (f : gset string -> gset string)
    (w : libvirt_world) : libvirt_world :=
  {| lv_domains := lv_domains w; lv_volumes := f (lv_volumes w);
     lv_pools := lv_pools w; lv_networks := lv_networks w;
     lv_refuse_domain := lv_refuse_domain w;
     lv_refuse_network := lv_refuse_network w;
     lv_refuse_pool := lv_refuse_pool w;
     lv_open_failures := lv_open_failures w; lv_sessions := lv_sessions w |}.

Definition set_lv_pools (f : gmap string pool -> gmap string pool)
    (w : libvirt_world) : libvirt_world :=
  {| lv_domains := lv_domains w; lv_volumes := lv_volumes w;
     lv_pools := f (lv_pools w); lv_networks := lv_networks w;
     lv_refuse_domain := lv_refuse_domain w;
     lv_refuse_network := lv_refuse_network w;
     lv_refuse_pool := lv_refuse_pool w;
     lv_open_failures := lv_open_failures w; lv_sessions := lv_sessions w |}.

Definition set_lv_networks (f : gmap string network -> gmap string network)
    (w : libvirt_world) : libvirt_world :=
  {| lv_domains := lv_domains w; lv_volumes := lv_volumes w;
     lv_pools := lv_pools w; lv_networks := f (lv_networks w);
     lv_refuse_domain := lv_refuse_domain w;
     lv_refuse_network := lv_refuse_network w;
     lv_refuse_pool := lv_refuse_pool w;
     lv_open_failures := lv_open_failures w; lv_sessions := lv_sessions w |}.

Definition set_lv_open (failures sessions : nat)
    (w : libvirt_world) : libvirt_world :=
  {| lv_domains := lv_domains w; lv_volumes := lv_volumes w;
     lv_pools := lv_pools w; lv_networks := lv_networks w;
     lv_refuse_domain := lv_refuse_domain w;
     lv_refuse_network := lv_refuse_network w;
     lv_refuse_pool := lv_refuse_pool w;
     lv_open_failures := failures; lv_sessions := sessions |}.

(** Handles.  A [virDomain] carries the name and UUID it was looked up
    with; the other handles are the names (or path) of what they denote. *)
Record virDomain : Type := { h_name : string; h_uuid : string }.
Abbreviation virConnect := nat (only parsing).
Abbreviation virStorageVol := string (only parsing).
Abbreviation virStoragePool := string (only parsing).
Abbreviation virNetwork := string (only parsing).

Definition virt_error {A} (e : Z * Z * string) : M libvirt_world A :=
  raise (libvirtError e.1.1 e.1.2 e.2).

Definition no_domain (name : string) : Z * Z * string :=
  (VIR_FROM_QEMU, VIR_ERR_NO_DOMAIN, "Domain not found: " +:+ name).
Definition no_volume (path : string) : Z * Z * string :=
  (VIR_FROM_STORAGE, VIR_ERR_NO_STORAGE_VOL,
   "Storage volume not found: " +:+ path).
Definition no_pool (name : string) : Z * Z * string :=
  (VIR_FROM_STORAGE, VIR_ERR_NO_STORAGE_POOL,
   "Storage pool not found: " +:+ name).
Definition no_network (name : string) : Z * Z * string :=
  (VIR_FROM_NETWORK, VIR_ERR_NO_NETWORK, "Network not found: " +:+ name).

(** [libvirt.open(uri)] *)
Definition libvirt_open : M libvirt_world virConnect :=
  fun w => match lv_open_failures w with
           | S n => virt_error (VIR_FROM_RPC, VIR_ERR_SYSTEM_ERROR,
                                "Failed to connect socket")
                      (set_lv_open n (lv_sessions w) w)
           | O => (set_lv_open 0 (S (lv_sessions w)) w,
                   inr (S (lv_sessions w)))
           end.

(** The names under which a listing call reports the entries that satisfy
    [P]. *)
Definition names_where {A} (P : A -> bool) (m : gmap string A) : list string :=
  (List.filter (fun kv => P kv.2) (map_to_list m)).*1.

(** *** Domains *)

(** Shut-off domains are the defined, inactive ones. *)
Definition is_active (d : domain) : bool := negb (d_state d =? 5)%nat.

(** [conn.listDomainsID()] mapped through [lookupByID(x).name()] *)
Definition listDomains : M libvirt_world (list string) :=
  gets (fun w => names_where (fun d => is_active d) (lv_domains w)).

Definition listDefinedDomains : M libvirt_world (list string) :=
  gets (fun w => names_where (fun d => negb (is_active d)) (lv_domains w)).

Definition lookupByName (name : string) : M libvirt_world virDomain :=
  fun w => match lv_domains w !! name with
           | Some d => ret {| h_name := name; h_uuid := x_uuid (d_xml d) |} w
           | None => virt_error (no_domain name) w
           end.

(** A method of a domain handle reaches the domain of that name. *)
Definition on_domain {A} (dom : virDomain) (k : domain -> M libvirt_world A)
    : M libvirt_world A :=
  fun w => match lv_domains w !! h_name dom with
           | Some d => k d w
           | None => virt_error (no_domain (h_name dom)) w
           end.

Definition dom_info (dom : virDomain) : M libvirt_world dominfo :=
  on_domain dom (fun d =>
    ret {| i_state := d_state d; i_memory := x_memory (d_xml d);
           i_vcpus := x_vcpus (d_xml d); i_cputime := d_cputime d |}).

Definition dom_XMLDesc (dom : virDomain) : M libvirt_world domain_xml :=
  on_domain dom (fun d => ret (d_xml d)).

Definition dom_undefine (dom : virDomain) : M libvirt_world unit :=
  on_domain dom (fun _ => modify (set_lv_domains (delete (h_name dom)))).

Definition dom_destroy (dom : virDomain) : M libvirt_world unit :=
  on_domain dom (fun d =>
    if is_active d
    then modify (set_lv_domains (<[h_name dom := set_d_state 5 d]>))
    else virt_error (VIR_FROM_QEMU, VIR_ERR_OPERATION_INVALID,
                     "domain is not running")).

Definition dom_create (dom : virDomain) : M libvirt_world unit :=
  on_domain dom (fun d =>
    if is_active d
    then virt_error (VIR_FROM_QEMU, VIR_ERR_OPERATION_INVALID,
                     "domain is already running")
    else modify (set_lv_domains (<[h_name dom := set_d_state 1 d]>))).

Definition dom_interfaceStats (dom : virDomain) (dev : string)
    : M libvirt_world (Z * Z) :=
  on_domain dom (fun d =>
    match d_ifstats d !! dev with
    | Some io => ret io
    | None => virt_error (VIR_FROM_QEMU, VIR_ERR_OPERATION_INVALID,
                          "invalid interface " +:+ dev)
    end).

Definition dom_blockStats (dev_dom : virDomain) (dev : string)
    : M libvirt_world (Z * Z) :=
  on_domain dev_dom (fun d =>
    match d_blkstats d !! dev with
    | Some io => ret io
    | None => virt_error (VIR_FROM_QEMU, VIR_ERR_OPERATION_INVALID,
                          "invalid block device " +:+ dev)
    end).

(** The domain [defineXML] creates from a descriptor under a free name. *)
Definition fresh_domain (xml : domain_xml) : domain :=
  {| d_xml := xml; d_state := 5; d_cputime := 0;
     d_ifstats := ∅; d_blkstats := ∅ |}.

(** [conn.defineXML(xml)]: unless libvirt refuses the descriptor, the domain
    of that name is defined, shut off, or, if it is there already with the
    same UUID, redefined, keeping its run-time figures; a name taken by a
    domain of another UUID is an error. *)
Definition defineXML (xml : domain_xml) : M libvirt_world virDomain :=
  fun w =>
    match lv_refuse_domain w xml with
    | Some e => virt_error e w
    | None =>
        match lv_domains w !! x_name xml with
        | Some d0 =>
            if bool_decide (x_uuid (d_xml d0) = x_uuid xml) then
              (set_lv_domains
                 (<[x_name xml := {| d_xml := xml; d_state := d_state d0;
                                     d_cputime := d_cputime d0;
                                     d_ifstats := d_ifstats d0;
                                     d_blkstats := d_blkstats d0 |}]>) w,
               inr {| h_name := x_name xml; h_uuid := x_uuid xml |})
            else
              virt_error (VIR_FROM_QEMU, VIR_ERR_OPERATION_FAILED,
                          "domain already exists with another uuid: "
                          +:+ x_name xml) w
        | None =>
            (set_lv_domains (<[x_name xml := fresh_domain xml]>) w,
             inr {| h_name := x_name xml; h_uuid := x_uuid xml |})
        end
    end.

(** *** Storage volumes and pools *)

Definition storageVolLookupByPath (path : string)
    : M libvirt_world virStorageVol :=
  fun w => if bool_decide (path ∈ lv_volumes w) then ret path w
           else virt_error (no_volume path) w.

Definition vol_delete (vol : virStorageVol) : M libvirt_world unit :=
  fun w => if bool_decide (vol ∈ lv_volumes w)
           then modify (set_lv_volumes (fun v => v ∖ {[vol]})) w
           else virt_error (no_volume vol) w.

Definition storagePoolLookupByName (name : string)
    : M libvirt_world virStoragePool :=
  fun w => match lv_pools w !! name with
           | Some _ => ret name w
           | None => virt_error (no_pool name) w
           end.

Definition on_pool {A} (p : virStoragePool) (k : pool -> M libvirt_world A)
    : M libvirt_world A :=
  fun w => match lv_pools w !! p with
           | Some pl => k pl w
           | None => virt_error (no_pool p) w
           end.

Definition pool_isActive (p : virStoragePool) : M libvirt_world bool :=
  on_pool p (fun pl => ret (pl_active pl)).

(** [pool.XMLDesc(0)], for its [/pool/target/path]. *)
Definition pool_target_path (p : virStoragePool) : M libvirt_world string :=
  on_pool p (fun pl => ret (pl_path pl)).

(** [pool.createXML(xml, 0)]: a volume of the given name appears under the
    pool's target path; libvirt refuses a path already taken. *)
Definition pool_createXML (p : virStoragePool) (vol_name : string)
    : M libvirt_world virStorageVol :=
  on_pool p (fun pl =>
    let path := pl_path pl +:+ "/" +:+ vol_name in
    fun w => if bool_decide (path ∈ lv_volumes w)
             then virt_error (VIR_FROM_STORAGE, VIR_ERR_STORAGE_VOL_EXIST,
                              "storage vol already exists: " +:+ path) w
             else (set_lv_volumes (fun v => v ∪ {[path]}) w, inr path)).

Definition pool_setAutostart (p : virStoragePool) (b : bool)
    : M libvirt_world unit :=
  on_pool p (fun pl => modify (set_lv_pools (<[p := set_pl_autostart b pl]>))).

(** [pool.build(VIR_STORAGE_POOL_BUILD_NEW)] *)
Definition pool_build (p : virStoragePool) : M libvirt_world unit :=
  on_pool p (fun _ => ret tt).

Definition listStoragePools : M libvirt_world (list string) :=
  gets (fun w => names_where (fun pl => pl_active pl) (lv_pools w)).

Definition listDefinedStoragePools : M libvirt_world (list string) :=
  gets (fun w => names_where (fun pl => negb (pl_active pl)) (lv_pools w)).

Definition pool_exists_error (name : string) : Z * Z * string :=
  (VIR_FROM_STORAGE, VIR_ERR_INTERNAL_ERROR,
   "pool already exists: " +:+ name).

(** [conn.storagePoolCreateXML(xml, 0)]: a transient, running pool. *)
Definition storagePoolCreateXML (xml : pool_xml)
    : M libvirt_world virStoragePool :=
  fun w =>
    match lv_refuse_pool w xml, lv_pools w !! px_name xml with
    | Some e, _ => virt_error e w
    | None, Some _ => virt_error (pool_exists_error (px_name xml)) w
    | None, None =>
        (set_lv_pools (<[px_name xml :=
           {| pl_type := px_type xml; pl_path := px_path xml;
              pl_active := true; pl_persistent := false;
              pl_autostart := false |}]>) w, inr (px_name xml))
    end.

(** [conn.storagePoolDefineXML(xml, 0)]: a persistent, inactive pool. *)
Definition storagePoolDefineXML (xml : pool_xml)
    : M libvirt_world virStoragePool :=
  fun w =>
    match lv_refuse_pool w xml, lv_pools w !! px_name xml with
    | Some e, _ => virt_error e w
    | None, Some _ => virt_error (pool_exists_error (px_name xml)) w
    | None, None =>
        (set_lv_pools (<[px_name xml :=
           {| pl_type := px_type xml; pl_path := px_path xml;
              pl_active := false; pl_persistent := true;
              pl_autostart := false |}]>) w, inr (px_name xml))
    end.

(** *** Networks *)

Definition listNetworks : M libvirt_world (list string) :=
  gets (fun w => names_where (fun nw => nw_active nw) (lv_networks w)).

Definition listDefinedNetworks : M libvirt_world (list string) :=
  gets (fun w => names_where (fun nw => negb (nw_active nw)) (lv_networks w)).

Definition networkLookupByName (name : string) : M libvirt_world virNetwork :=
  fun w => match lv_networks w !! name with
           | Some _ => ret name w
           | None => virt_error (no_network name) w
           end.

Definition on_network {A} (n : virNetwork) (k : network -> M libvirt_world A)
    : M libvirt_world A :=
  fun w => match lv_networks w !! n with
           | Some nw => k nw w
           | None => virt_error (no_network n) w
           end.

Definition network_XMLDesc (n : virNetwork) : M libvirt_world network_xml :=
  on_network n (fun nw => ret (nw_xml nw)).

Definition network_isActive (n : virNetwork) : M libvirt_world bool :=
  on_network n (fun nw => ret (nw_active nw)).

Definition network_setAutostart (n : virNetwork) (b : bool)
    : M libvirt_world unit :=
  on_network n (fun nw =>
    modify (set_lv_networks (<[n := set_nw_autostart b nw]>))).

(** [conn.networkDefineXML(xml)]: a persistent, inactive network. *)
Definition networkDefineXML (xml : network_xml) : M libvirt_world virNetwork :=
  fun w =>
    match lv_refuse_network w xml with
    | Some e => virt_error e w
    | None =>
        (set_lv_networks (<[nx_name xml :=
           {| nw_xml := xml; nw_active := false; nw_autostart := false |}]>) w,
         inr (nx_name xml))
    end.

(** ** The model object

    [Model] gathers what the methods of [model.Model] and of the
    [LibvirtConnection] it owns read and write: the memoized sessions, the
    control plane behind them, the object store, the sample windows, the
    started background tasks, and the few host facts (directories, clock)
    the modelled paths touch. *)

(** A template's [info] dictionary, as the keys [vms_create] reads. *)
Record template_info : Type := {
  ti_name : string;
  ti_icon : option string;
  ti_iso_stream : bool;
  ti_storagepool : string;              (* a /storagepools/<name> URI *)
  ti_network : string;
  ti_memory : Z;
  ti_cpus : Z;
  ti_disks : list (nat * Z)             (* index, size *)
}.

Inductive record : Type :=
| VmRecord (icon : string)                      (* {'icon': icon} *)
| TemplateRecord (info : template_info)
| ScreenshotRecord (uuid : string) (thumbnail : option string)
| ScanningRecord (task_id : nat)
| TaskRecord (status message : string).

(** The unit of work handed to [add_task]. *)
Inductive work : Type :=
| start_scan (scan_path pool_path : string) (ignore_list : list string)
| sosreport_generate (name : string).

Record Model : Type := {
  connections : gmap Z (option virConnect);        (* LibvirtConnection._connections *)
  virt : libvirt_world;                            (* what the session talks to *)
  objstore : gmap (string * string) record;        (* (kind, id) -> record *)
  stats : gmap string (gmap string Q);             (* self.stats: uuid -> sample window *)
  graphics_ports : gmap string Z;                  (* self.graphics_ports *)
  next_taskid : nat;                               (* self.next_taskid *)
  tasks : list (nat * string * work);              (* AsyncTasks started: id, target URI, work *)
  dirs : gset string;                              (* directories on the host file system *)
  qemu_stream : bool;                              (* self.qemu_stream *)
  qemu_stream_dns : bool;                          (* self.qemu_stream_dns *)
  libvirt_stream_protocols : list string;          (* self.libvirt_stream_protocols *)
  clock : Q;                                       (* what time.time() returns *)
  log : list string;                               (* kimchi_log.error lines *)
  engine_stopped : bool                            (* cherrypy.engine.stop() was called *)
}.

Definition set_connections (f : gmap Z (option virConnect) -> gmap Z (option virConnect)) (s : Model) : Model :=
  {| connections := f (connections s); virt := virt s;
     objstore := objstore s; stats := stats s;
     graphics_ports := graphics_ports s; next_taskid := next_taskid s;
     tasks := tasks s; dirs := dirs s; qemu_stream := qemu_stream s;
     qemu_stream_dns := qemu_stream_dns s;
     libvirt_stream_protocols := libvirt_stream_protocols s;
     clock := clock s; log := log s; engine_stopped := engine_stopped s |}.

Definition set_virt (v : libvirt_world) (s : Model) : Model :=
  {| connections := connections s; virt := v; objstore := objstore s;
     stats := stats s; graphics_ports := graphics_ports s;
     next_taskid := next_taskid s; tasks := tasks s; dirs := dirs s;
     qemu_stream := qemu_stream s; qemu_stream_dns := qemu_stream_dns s;
     libvirt_stream_protocols := libvirt_stream_protocols s;
     clock := clock s; log := log s; engine_stopped := engine_stopped s |}.

Definition set_objstore (f : gmap (string * string) record -> gmap (string * string) record) (s : Model) : Model :=
  {| connections := connections s; virt := virt s;
     objstore := f (objstore s); stats := stats s;
     graphics_ports := graphics_ports s; next_taskid := next_taskid s;
     tasks := tasks s; dirs := dirs s; qemu_stream := qemu_stream s;
     qemu_stream_dns := qemu_stream_dns s;
     libvirt_stream_protocols := libvirt_stream_protocols s;
     clock := clock s; log := log s; engine_stopped := engine_stopped s |}.

Definition set_stats (f : gmap string (gmap string Q) -> gmap string (gmap string Q)) (s : Model) : Model :=
  {| connections := connections s; virt := virt s; objstore := objstore s;
     stats := f (stats s); graphics_ports := graphics_ports s;
     next_taskid := next_taskid s; tasks := tasks s; dirs := dirs s;
     qemu_stream := qemu_stream s; qemu_stream_dns := qemu_stream_dns s;
     libvirt_stream_protocols := libvirt_stream_protocols s;
     clock := clock s; log := log s; engine_stopped := engine_stopped s |}.

Definition set_next_taskid (v : nat) (s : Model) : Model :=
  {| connections := connections s; virt := virt s; objstore := objstore s;
     stats := stats s; graphics_ports := graphics_ports s; next_taskid := v;
     tasks := tasks s; dirs := dirs s; qemu_stream := qemu_stream s;
     qemu_stream_dns := qemu_stream_dns s;
     libvirt_stream_protocols := libvirt_stream_protocols s;
     clock := clock s; log := log s; engine_stopped := engine_stopped s |}.

Definition set_tasks (f : list (nat * string * work) -> list (nat * string * work)) (s : Model) : Model :=
  {| connections := connections s; virt := virt s; objstore := objstore s;
     stats := stats s; graphics_ports := graphics_ports s;
     next_taskid := next_taskid s; tasks := f (tasks s); dirs := dirs s;
     qemu_stream := qemu_stream s; qemu_stream_dns := qemu_stream_dns s;
     libvirt_stream_protocols := libvirt_stream_protocols s;
     clock := clock s; log := log s; engine_stopped := engine_stopped s |}.

Definition set_dirs (f : gset string -> gset string) (s : Model) : Model :=
  {| connections := connections s; virt := virt s; objstore := objstore s;
     stats := stats s; graphics_ports := graphics_ports s;
     next_taskid := next_taskid s; tasks := tasks s; dirs := f (dirs s);
     qemu_stream := qemu_stream s; qemu_stream_dns := qemu_stream_dns s;
     libvirt_stream_protocols := libvirt_stream_protocols s;
     clock := clock s; log := log s; engine_stopped := engine_stopped s |}.

Definition set_log (f : list string -> list string) (s : Model) : Model :=
  {| connections := connections s; virt := virt s; objstore := objstore s;
     stats := stats s; graphics_ports := graphics_ports s;
     next_taskid := next_taskid s; tasks := tasks s; dirs := dirs s;
     qemu_stream := qemu_stream s; qemu_stream_dns := qemu_stream_dns s;
     libvirt_stream_protocols := libvirt_stream_protocols s;
     clock := clock s; log := f (log s);
     engine_stopped := engine_stopped s |}.

Definition set_engine_stopped (v : bool) (s : Model) : Model :=
  {| connections := connections s; virt := virt s; objstore := objstore s;
     stats := stats s; graphics_ports := graphics_ports s;
     next_taskid := next_taskid s; tasks := tasks s; dirs := dirs s;
     qemu_stream := qemu_stream s; qemu_stream_dns := qemu_stream_dns s;
     libvirt_stream_protocols := libvirt_stream_protocols s;
     clock := clock s; log := log s; engine_stopped := v |}.
(** A libvirt call, seen from the model object. *)
Definition in_world {A} (c : M libvirt_world A) : M Model A :=
  fun s => match c (virt s) with (w', r) => (set_virt w' s, r) end.

Definition kimchi_log_error (msg : string) : M Model unit :=
  modify (set_log (fun l => (l ++ [msg])%list)).

(** ** [LibvirtConnection] *)

Module LibvirtConnection.

Definition EDOMAINS : list Z := [VIR_FROM_REMOTE; VIR_FROM_RPC].
Definition ECODES : list Z :=
  [VIR_ERR_SYSTEM_ERROR; VIR_ERR_INTERNAL_ERROR; VIR_ERR_NO_CONNECT;
   VIR_ERR_INVALID_CONN].

(** [wrapMethod(f)], the closure [get(conn_id)] installs on every public
    method of the session and of the handle classes: only a
    [libvirt.libvirtError] is intercepted, and it is always re-raised. *)
Definition wrapMethod {A} (conn_id : Z) (f : M libvirt_world A) : M Model A :=
  try_except (in_world f) (fun e =>
    match e with
    | libvirtError edom ecode _ =>
        (if bool_decide (edom ∈ EDOMAINS) && bool_decide (ecode ∈ ECODES)
         then kimchi_log_error "Connection to libvirt broken. Recycling." ;;
              modify (set_connections (<[conn_id := None]>))
         else ret tt) ;;
        raise e
    | _ => raise e
    end).

(** The [while True] loop of [get]; [retries] is the counter after its
    decrement.  The two-second sleep between attempts is not modelled. *)
Fixpoint open_loop (retries : nat) : M Model virConnect :=
  try_except (in_world libvirt_open) (fun e =>
    match e with
    | libvirtError _ _ _ =>
        kimchi_log_error "Unable to connect to libvirt." ;;
        match retries with
        | O => kimchi_log_error "Libvirt is not available, exiting." ;;
               modify (set_engine_stopped true) ;;
               raise e
        | S retries' => open_loop retries'
        end
    | _ => raise e
    end).

(** [get(conn_id)].  The wrapping of the methods it performs after a fresh
    open is carried by [wrapMethod] at each call below. *)
Definition get (conn_id : Z) : M Model virConnect :=
  let* conn := gets (fun s => connections s !! conn_id) in
  match conn with
  | Some (Some c) => ret c
  | _ => let* c := open_loop 4 in
         modify (set_connections (<[conn_id := Some c]>)) ;;
         ret c
  end.

End LibvirtConnection.

(** Every libvirt call of [Model] goes through the wrapper installed for
    connection slot 0, the only one [Model] asks for. *)
Definition call {A} (f : M libvirt_world A) : M Model A :=
  LibvirtConnection.wrapMethod 0 f.

Definition conn_get : M Model virConnect := LibvirtConnection.get 0.

(** ** [ObjectStore] sessions *)

(** Modelled from the spec: [kimchi/objectstore.py] is not in src; the four
    session operations follow section 4.4: [get] fails [NotFoundError] if
    absent, [store] is an upsert, [delete] takes [ignore_missing], and
    [get_list] gives the ids of a kind. *)
Definition session_get (kind id : string) : M Model record :=
  let* r := gets (fun s => objstore s !! (kind, id)) in
  match r with
  | Some v => ret v
  | None => raise (NotFoundError id)
  end.

Definition session_store (kind id : string) (v : record) : M Model unit :=
  modify (set_objstore (<[(kind, id) := v]>)).

Definition session_delete (kind id : string) (ignore_missing : bool)
    : M Model unit :=
  let* r := gets (fun s => objstore s !! (kind, id)) in
  match r with
  | Some _ => modify (set_objstore (delete (kind, id)))
  | None => if ignore_missing then ret tt else raise (NotFoundError id)
  end.

Definition store_ids (kind : string) (o : gmap (string * string) record)
    : list string :=
  (List.filter (fun kv => bool_decide (kv.1.1 = kind)) (map_to_list o)).*1.*2.

Definition session_get_list (kind : string) : M Model (list string) :=
  gets (fun s => store_ids kind (objstore s)).

(** ** Python arithmetic on the sample figures *)

(** [a / b] on floats. *)
Definition py_div (a b : Q) : exn + Q :=
  if Qeq_bool b 0 then inl ZeroDivisionError else inr (a / b)%Q.

(** [int(x)]: truncation towards zero. *)
Definition py_int (x : Q) : Z := Z.quot (Qnum x) (Zpos (Qden x)).

(** [max(a, b)] and [min(a, b)]: the second argument wins only when it is
    strictly better. *)
Definition py_max (a b : Q) : Q := if Qle_bool b a then a else b.
Definition py_min (a b : Q) : Q := if Qle_bool a b then a else b.

(** [round(x, 1)]: one decimal, halves away from zero. *)
Definition py_round1 (x : Q) : Q :=
  let y := (x * 10)%Q in
  ((if Qle_bool 0 y then Qfloor (y + (1 # 2)) else Qceiling (y - (1 # 2)))
     # 10)%Q.

(** ** [Model]: guest statistics *)

Definition dom_state_map : gmap nat string :=
  list_to_map [(0%nat, "nostate"); (1%nat, "running"); (2%nat, "blocked");
               (3%nat, "paused"); (4%nat, "shutdown"); (5%nat, "shutoff");
               (6%nat, "crashed")].

(** [Model.dom_state_map[code]] *)
Definition dom_state (code : nat) : M Model string :=
  match dom_state_map !! code with
  | Some st => ret st
  | None => raise (KeyError (fmt_i code))
  end.

(** [self.stats[vm_uuid]] *)
Definition stats_of (vm_uuid : string) : M Model (gmap string Q) :=
  let* st := gets (fun s => stats s !! vm_uuid) in
  match st with
  | Some d => ret d
  | None => raise (KeyError vm_uuid)
  end.

(** [self.stats[vm_uuid].update(upd)], the update given as a function on
    the dictionary. *)
Definition stats_update (vm_uuid : string)
    (upd : gmap string Q -> gmap string Q) : M Model unit :=
  let* d := stats_of vm_uuid in
  modify (set_stats (<[vm_uuid := upd d]>)).

Definition _get_percentage_cpu_usage (vm_uuid : string) (info : dominfo)
    (seconds : Q) : M Model unit :=
  let* st := stats_of vm_uuid in
  let prevCpuTime := default 0%Q (st !! "cputime") in
  let cpus := i_vcpus info in
  let cpuTime := (inject_Z (i_cputime info) - prevCpuTime)%Q in
  let* base := lift (py_div (cpuTime * 100)
                       (seconds * 1000 * 1000 * 1000)) in
  let* quot := lift (py_div base (inject_Z cpus)) in
  let percentage := py_max 0 (py_min 100 quot) in
  stats_update vm_uuid (fun d =>
    <["cputime" := inject_Z (i_cputime info)]> (<["cpu" := percentage]> d)).

(** The accumulation loops of the two rate functions: [read dev] gives the
    pair of counters of one device. *)
Fixpoint sum_io (devs : list string) (read : string -> M Model (Z * Z))
    (acc : Z * Z) : M Model (Z * Z) :=
  match devs with
  | [] => ret acc
  | dev :: devs' =>
      let* io := read dev in
      sum_io devs' read (acc.1 + io.1, acc.2 + io.2)
  end.

Definition _get_network_io_rate (vm_uuid : string) (dom : virDomain)
    (seconds : Q) : M Model unit :=
  let* st := stats_of vm_uuid in
  let prevNetRxKB := default 0%Q (st !! "netRxKB") in
  let prevNetTxKB := default 0%Q (st !! "netTxKB") in
  let currentMaxNetRate := default 100%Q (st !! "max_net_io") in
  let* tree := call (dom_XMLDesc dom) in
  let* bytes := sum_io (x_ifaces tree)
                  (fun dev => call (dom_interfaceStats dom dev))
                  (0, 0) in
  let netRxKB := (inject_Z bytes.1 / 1000)%Q in
  let netTxKB := (inject_Z bytes.2 / 1000)%Q in
  let* rx_stats := lift (py_div (netRxKB - prevNetRxKB) seconds) in
  let* tx_stats := lift (py_div (netTxKB - prevNetTxKB) seconds) in
  let rate := (rx_stats + tx_stats)%Q in
  let max_net_io :=
    py_round1 (py_max currentMaxNetRate (inject_Z (py_int rate))) in
  stats_update vm_uuid (fun d =>
    <["net_io" := rate]> (<["max_net_io" := max_net_io]>
      (<["netRxKB" := netRxKB]> (<["netTxKB" := netTxKB]> d)))).

Definition _get_disk_io_rate (vm_uuid : string) (dom : virDomain)
    (seconds : Q) : M Model unit :=
  let* st := stats_of vm_uuid in
  let prevDiskRdKB := default 0%Q (st !! "diskRdKB") in
  let prevDiskWrKB := default 0%Q (st !! "diskWrKB") in
  let currentMaxDiskRate := default 100%Q (st !! "max_disk_io") in
  let* tree := call (dom_XMLDesc dom) in
  let* bytes := sum_io (disk_target <$> x_disks tree)
                  (fun dev => call (dom_blockStats dom dev))
                  (0, 0) in
  let diskRdKB := (inject_Z bytes.1 / 1024)%Q in
  let diskWrKB := (inject_Z bytes.2 / 1024)%Q in
  let* rd_stats := lift (py_div (diskRdKB - prevDiskRdKB) seconds) in
  let* wr_stats := lift (py_div (diskWrKB - prevDiskWrKB) seconds) in
  let rate := (rd_stats + wr_stats)%Q in
  let max_disk_io :=
    py_round1 (py_max currentMaxDiskRate (inject_Z (py_int rate))) in
  stats_update vm_uuid (fun d =>
    <["disk_io" := rate]> (<["max_disk_io" := max_disk_io]>
      (<["diskRdKB" := diskRdKB]> (<["diskWrKB" := diskWrKB]> d)))).

(** ** [Model]: virtual machines *)

Definition vms_get_list : M Model (list string) :=
  let* conn := conn_get in
  let* names := call listDomains in
  let* defined := call listDefinedDomains in
  ret (sorted_by lower (names ++ defined)%list).

Definition _get_vm (name : string) : M Model virDomain :=
  let* conn := conn_get in
  try_except (call (lookupByName name)) (fun e =>
    match e with
    | libvirtError _ ecode _ =>
        if bool_decide (ecode = VIR_ERR_NO_DOMAIN)
        then raise (NotFoundError
                      ("Virtual Machine '" +:+ name +:+ "' not found"))
        else raise e
    | _ => raise e
    end).

Definition _vm_exists (name : string) : M Model bool :=
  try_except (_get_vm name ;; ret true) (fun e =>
    match e with
    | NotFoundError _ => ret false
    | _ => raise e
    end).

(** The body of the [for name in vm_list] loop of [_update_guests_stats]. *)
Definition sample_guest (name : string) : M Model unit :=
  let* dom := _get_vm name in
  let vm_uuid := h_uuid dom in
  let* info := call (dom_info dom) in
  let* state := dom_state (i_state info) in
  if negb (bool_decide (state = "running")) then
    modify (set_stats (<[vm_uuid := ∅]>))
  else
    let* cur := gets (fun s => stats s !! vm_uuid) in
    (match cur with
     | None => modify (set_stats (<[vm_uuid := ∅]>))
     | Some _ => ret tt
     end) ;;
    let* timestamp := gets clock in
    let* prevStats := gets (fun s => default ∅ (stats s !! vm_uuid)) in
    let seconds := (timestamp - default 0 (prevStats !! "timestamp"))%Q in
    stats_update vm_uuid (<["timestamp" := timestamp]>) ;;
    _get_percentage_cpu_usage vm_uuid info seconds ;;
    _get_network_io_rate vm_uuid dom seconds ;;
    _get_disk_io_rate vm_uuid dom seconds.

(** The loop of [_update_guests_stats] over the list it was given. *)
Definition _update_guests_stats_loop (vm_list : list string) : M Model unit :=
  for_each vm_list sample_guest.

Definition _update_guests_stats : M Model unit :=
  let* vm_list := vms_get_list in
  _update_guests_stats_loop vm_list.

Definition VM_STATIC_UPDATE_PARAMS : gmap string string :=
  {["name" := "./name"]}.

(** [xmlutils.xml_item_update(xml, xpath, value)], for the paths of
    [VM_STATIC_UPDATE_PARAMS]. *)
Definition xml_item_update (xml : domain_xml) (xpath value : string)
    : domain_xml :=
  if bool_decide (xpath = "./name") then set_x_name value xml else xml.

Definition is_libvirtError (e : exn) : bool :=
  match e with libvirtError _ _ _ => true | _ => false end.

(** [_static_vm_update(dom, params)].  The [except libvirt.libvirtError]
    clause reads the local [conn], which is bound only once
    [self.conn.get()] has returned: a libvirt error raised before that point
    ends in [UnboundLocalError]. *)
Definition _static_vm_update (dom : virDomain) (params : gmap string string)
    : M Model virDomain :=
  let* info := call (dom_info dom) in
  let* state := dom_state (i_state info) in
  let* old_xml := call (dom_XMLDesc dom) in
  let new_xml :=
    map_fold (fun key val xml =>
                match VM_STATIC_UPDATE_PARAMS !! key with
                | Some xpath => xml_item_update xml xpath val
                | None => xml
                end) old_xml params in
  let* conn :=
    try_except
      ((match params !! "name" with
        | Some _ =>
            if bool_decide (state = "running")
            then raise (InvalidParameter
                          "vm name can just updated when vm shutoff")
            else call (dom_undefine dom)
        | None => ret tt
        end) ;;
       conn_get)
      (fun e => if is_libvirtError e then raise (UnboundLocalError "conn")
                else raise e) in
  try_except (call (defineXML new_xml)) (fun e =>
    if is_libvirtError e then
      let* dom' := call (defineXML old_xml) in
      raise (OperationFailed (get_error_message e))
    else raise e).

Definition _live_vm_update (dom : virDomain) (params : gmap string string)
    : M Model unit := ret tt.

Definition vm_update (name : string) (params : gmap string string)
    : M Model string :=
  let* dom := _get_vm name in
  let* dom := _static_vm_update dom params in
  _live_vm_update dom params ;;
  ret (h_name dom).

(** *** Screenshots *)

(** Modelled from the spec: [kimchi/screenshot.py] is not in src.  A
    [VMScreenshot] is its [info] (the VM's UUID and the thumbnail path once
    there is one); [lookup()] yields the thumbnail path and records it,
    [delete()] removes image files only. *)
Definition VMScreenshot : Type := (string * option string)%type.

Definition screenshot_lookup (sc : VMScreenshot) : VMScreenshot * string :=
  let img := "/data/screenshots/" +:+ sc.1 +:+ ".png" in
  ((sc.1, Some img), img).

Definition _get_screenshot (vm_uuid : string) : M Model VMScreenshot :=
  try_except
    (let* r := session_get "screenshot" vm_uuid in
     match r with
     | ScreenshotRecord u t => ret (u, t)
     | _ => ret (vm_uuid, None)
     end)
    (fun e =>
       match e with
       | NotFoundError _ =>
           session_store "screenshot" vm_uuid (ScreenshotRecord vm_uuid None) ;;
           ret (vm_uuid, None)
       | _ => raise e
       end).

Definition vmscreenshot_lookup (name : string) : M Model string :=
  let* dom := _get_vm name in
  let* d_info := call (dom_info dom) in
  let vm_uuid := h_uuid dom in
  let* state := dom_state (i_state d_info) in
  if negb (bool_decide (state = "running")) then
    raise (NotFoundError "No screenshot for stopped vm")
  else
    let* screenshot := _get_screenshot vm_uuid in
    let '(screenshot', img_path) := screenshot_lookup screenshot in
    session_store "screenshot" vm_uuid
      (ScreenshotRecord screenshot'.1 screenshot'.2) ;;
    ret img_path.

Definition _vmscreenshot_delete (vm_uuid : string) : M Model unit :=
  let* screenshot := _get_screenshot vm_uuid in
  session_delete "screenshot" vm_uuid false.

(** *** Lookup, start, stop, delete *)

Definition _vm_get_graphics (name : string) : M Model (option string * option Z) :=
  let* dom := _get_vm name in
  let* xml := call (dom_XMLDesc dom) in
  match x_graphics xml with
  | Some (graphics_type, port) =>
      ret (if bool_decide (graphics_type = "vnc") then Some graphics_type
           else None, Some port)
  | None => ret (None, None)
  end.

(** The dictionary [vm_lookup] returns; ['stats'] is kept as its five
    figures rather than their [str()]. *)
Record vm_info : Type := {
  vi_state : string;
  vi_stats : Q * Q * Q * Q * Q;
  vi_uuid : string;
  vi_memory : Z;
  vi_cpus : Z;
  vi_screenshot : option string;
  vi_icon : option string;
  vi_graphics : option string * option Z
}.

Definition vm_lookup (name : string) : M Model vm_info :=
  let* dom := _get_vm name in
  let* info := call (dom_info dom) in
  let* state := dom_state (i_state info) in
  let* graphics := _vm_get_graphics name in
  let* ports := gets graphics_ports in
  let graphics_port :=
    if bool_decide (state = "running") then ports !! name else None in
  let* screenshot :=
    try_except
      (if bool_decide (state = "running") then
         let* img := vmscreenshot_lookup name in ret (Some img)
       else if bool_decide (state = "shutoff") then
         modify (set_stats (<[h_uuid dom := ∅]>)) ;; ret None
       else ret None)
      (fun e => match e with
                | NotFoundError _ => ret None
                | _ => raise e
                end) in
  let* extra_info :=
    try_except
      (let* r := session_get "vm" (h_uuid dom) in ret (Some r))
      (fun e => match e with
                | NotFoundError _ => ret None
                | _ => raise e
                end) in
  let icon := match extra_info with
              | Some (VmRecord icon) => Some icon
              | _ => None
              end in
  let* vm_stats := gets (fun s => default ∅ (stats s !! h_uuid dom)) in
  ret {| vi_state := state;
         vi_stats := (default 0%Q (vm_stats !! "cpu"),
                      default 0%Q (vm_stats !! "net_io"),
                      default 100%Q (vm_stats !! "max_net_io"),
                      default 0%Q (vm_stats !! "disk_io"),
                      default 100%Q (vm_stats !! "max_disk_io"));
         vi_uuid := h_uuid dom;
         vi_memory := Z.shiftr (i_memory info) 10;
         vi_cpus := i_vcpus info;
         vi_screenshot := screenshot;
         vi_icon := icon;
         vi_graphics := (graphics.1, graphics_port) |}.

(** The XPath [/domain/devices/disk[@device='disk']/source/@file]. *)
Definition _vm_get_disk_paths (dom : virDomain) : M Model (list string) :=
  let* xml := call (dom_XMLDesc dom) in
  ret (omap (fun d => if bool_decide (disk_device d = "disk")
                      then disk_file d else None) (x_disks xml)).

Definition vm_start (name : string) : M Model unit :=
  let* dom := _get_vm name in
  call (dom_create dom).

Definition vm_stop (name : string) : M Model unit :=
  let* ex := _vm_exists name in
  if ex : bool then
    let* dom := _get_vm name in
    call (dom_destroy dom)
  else ret tt.

Definition vm_delete (name : string) : M Model unit :=
  let* ex := _vm_exists name in
  if ex : bool then
    let* conn := conn_get in
    let* dom := _get_vm name in
    _vmscreenshot_delete (h_uuid dom) ;;
    let* paths := _vm_get_disk_paths dom in
    let* info := vm_lookup name in
    (if bool_decide (vi_state info = "running") then vm_stop name
     else ret tt) ;;
    call (dom_undefine dom) ;;
    for_each paths (fun path =>
      let* vol := call (storageVolLookupByPath path) in
      call (vol_delete vol)) ;;
    session_delete "vm" (h_uuid dom) true
  else ret tt.

(** ** Templates *)

(** [LibvirtVMTemplate._storage_validate] *)
Definition _storage_validate (t : template_info) : M Model virStoragePool :=
  let pool_uri := ti_storagepool t in
  let* pool_name := lift (pool_name_from_uri pool_uri) in
  let* pool :=
    try_except
      (let* conn := conn_get in
       call (storagePoolLookupByName pool_name))
      (fun e =>
         if is_libvirtError e
         then raise (InvalidParameter
                       "Storage specified by template does not exist")
         else raise e) in
  let* active := call (pool_isActive pool) in
  if active : bool then ret pool
  else raise (InvalidParameter "Storage specified by template is not active").

(** [LibvirtVMTemplate._network_validate] *)
Definition _network_validate (t : template_info) : M Model virNetwork :=
  let name := ti_network t in
  let* network :=
    try_except
      (let* conn := conn_get in
       call (networkLookupByName name))
      (fun e =>
         if is_libvirtError e
         then raise (InvalidParameter
                       "Network specified by template does not exist")
         else raise e) in
  let* active := call (network_isActive network) in
  if active : bool then ret network
  else raise (InvalidParameter "Storage specified by template is not active").

(** [LibvirtVMTemplate._get_storage_path] *)
Definition _get_storage_path (t : template_info) : M Model string :=
  let* pool := _storage_validate t in
  call (pool_target_path pool).

(** Modelled from the spec: [VMTemplate.validate] ([kimchi/vmtemplate.py])
    is not in src; it runs the validators that [LibvirtVMTemplate]
    overrides. *)
Definition validate (t : template_info) : M Model unit :=
  _storage_validate t ;; _network_validate t ;; ret tt.

(** An entry of the list [to_volume_list] returns. *)
Record volume_info : Type := { v_name : string; v_path : string }.

(** Modelled from the spec: [VMTemplate.to_volume_list] is not in src; one
    volume per disk of the template, named from the VM's UUID and the disk's
    index, with the path it will have under the pool's target path. *)
Definition volumes_under (storage_path : string) (t : template_info)
    (vm_uuid : string) : list volume_info :=
  (fun d : nat * Z =>
     let volume := vm_uuid +:+ "-" +:+ fmt_i d.1 +:+ ".img" in
     {| v_name := volume; v_path := storage_path +:+ "/" +:+ volume |})
  <$> ti_disks t.

Definition to_volume_list (t : template_info) (vm_uuid : string)
    : M Model (list volume_info) :=
  let* storage_path := _get_storage_path t in
  ret (volumes_under storage_path t vm_uuid).

(** [LibvirtVMTemplate.fork_vm_storage] *)
Definition fork_vm_storage (t : template_info) (vm_uuid : string)
    : M Model (list volume_info) :=
  let* pool := _storage_validate t in
  let* vol_list := to_volume_list t vm_uuid in
  for_each vol_list (fun v =>
    call (pool_createXML pool (v_name v)) ;; ret tt) ;;
  ret vol_list.

(** Modelled from the spec: [VMTemplate.to_vm_xml] is not in src; the
    descriptor carries the name and UUID it is given, the template's memory
    and CPUs, and one disk per forked volume. *)
Definition vm_descriptor (t : template_info) (vm_name vm_uuid : string)
    (vols : list volume_info) : domain_xml :=
  {| x_name := vm_name; x_uuid := vm_uuid;
     x_memory := ti_memory t; x_vcpus := ti_cpus t;
     x_disks := (fun v => {| disk_device := "disk";
                             disk_target := v_name v;
                             disk_file := Some (v_path v) |}) <$> vols;
     x_ifaces := []; x_graphics := Some ("vnc", -1) |}.

Definition to_vm_xml (t : template_info) (vm_name vm_uuid : string)
    (libvirt_stream qemu_stream_dns : bool) : M Model domain_xml :=
  let* vols := to_volume_list t vm_uuid in
  ret (vm_descriptor t vm_name vm_uuid vols).

(** [params.update(overrides)], for the only override [vms_create] passes,
    the storage pool. *)
Definition with_storagepool (overrides : option string)
    (params : template_info) : template_info :=
  match overrides with
  | Some pool_uri =>
      {| ti_name := ti_name params; ti_icon := ti_icon params;
         ti_iso_stream := ti_iso_stream params;
         ti_storagepool := pool_uri;
         ti_network := ti_network params;
         ti_memory := ti_memory params; ti_cpus := ti_cpus params;
         ti_disks := ti_disks params |}
  | None => params
  end.

Definition _get_template (name : string) (overrides : option string)
    : M Model template_info :=
  let* r := session_get "template" name in
  match r with
  | TemplateRecord params => ret (with_storagepool overrides params)
  | _ => raise (NotFoundError name)
  end.

(** The parameters of a VM-create request. *)
Record vm_params : Type := {
  vp_template : string;
  vp_name : option string;
  vp_storagepool : option string
}.

Definition truthy (s : option string) : option string :=
  match s with
  | Some v => if bool_decide (v = "") then None else Some v
  | None => None
  end.

(** [vms_create(params)]; [vm_uuid] is the value of [str(uuid.uuid4())]. *)
Definition vms_create (params : vm_params) (vm_uuid : string)
    : M Model string :=
  let* conn := conn_get in
  let* t_name := lift (template_name_from_uri (vp_template params)) in
  let* vm_list := vms_get_list in
  let* name := lift (get_vm_name (vp_name params) t_name vm_list) in
  if bool_decide (name ∈ vm_list) then
    raise (InvalidOperation "VM already exists")
  else
    let vm_overrides := truthy (vp_storagepool params) in
    let* t := _get_template t_name vm_overrides in
    let* qs := gets qemu_stream in
    if negb qs && ti_iso_stream t then
      raise (InvalidOperation
               "Remote ISO image is not supported by this server.")
    else
      validate t ;;
      let* vol_list := fork_vm_storage t vm_uuid in
      (match truthy (ti_icon t) with
       | Some icon => session_store "vm" vm_uuid (VmRecord icon)
       | None => ret tt
       end) ;;
      let* protocols := gets libvirt_stream_protocols in
      let libvirt_stream := negb (length protocols =? 0)%nat in
      let* dns := gets qemu_stream_dns in
      let* xml := to_vm_xml t name vm_uuid libvirt_stream dns in
      try_except (call (defineXML xml) ;; ret tt) (fun e =>
        if is_libvirtError e then
          for_each vol_list (fun v =>
            let* vol := call (storageVolLookupByPath (v_path v)) in
            call (vol_delete vol)) ;;
          raise (OperationFailed (get_error_message e))
        else raise e) ;;
      ret name.

(** Modelled from the spec: the constructor [VMTemplate(params, scan=True)]
    is not in src; [templates_create] stores the [info] it builds, here the
    parameters themselves. *)
Definition LibvirtVMTemplate_info (params : template_info) : template_info :=
  params.

Definition templates_create (params : template_info) : M Model string :=
  let name := ti_name params in
  let* names := session_get_list "template" in
  if bool_decide (name ∈ names) then
    raise (InvalidOperation "Template already exists")
  else
    session_store "template" name
      (TemplateRecord (LibvirtVMTemplate_info params)) ;;
    ret name.

(** ** Networks *)

Definition networks_get_list : M Model (list string) :=
  let* conn := conn_get in
  let* active := call listNetworks in
  let* defined := call listDefinedNetworks in
  ret (sorted (active ++ defined)%list).

Definition _get_network (name : string) : M Model virNetwork :=
  let* conn := conn_get in
  try_except (call (networkLookupByName name)) (fun e =>
    if is_libvirtError e then
      raise (NotFoundError ("Network '" +:+ name +:+ "' not found: "
                            +:+ get_error_message e))
    else raise e).

(** [_get_all_networks_interfaces]: per network, the first forward interface
    of a bridged network, otherwise all forward interfaces and physical
    functions; then its bridge, if any. *)
Definition _get_all_networks_interfaces : M Model (list string) :=
  let* net_names := networks_get_list in
  let* per_net :=
    (fix go (names : list string) : M Model (list string) :=
       match names with
       | [] => ret []
       | name :: names' =>
           let* network := _get_network name in
           let* xml := call (network_XMLDesc network) in
           let fwd :=
             match nx_forward_interface xml with
             | i :: _ =>
                 if bool_decide (nx_forward_mode xml = "bridge") then [i]
                 else (nx_forward_interface xml ++ nx_forward_pf xml)%list
             | [] => (nx_forward_interface xml ++ nx_forward_pf xml)%list
             end in
           let br := if bool_decide (nx_bridge xml = "") then []
                     else [nx_bridge xml] in
           let* rest := go names' in
           ret (fwd ++ br ++ rest)%list
       end) net_names in
  ret per_net.

(** The parameters of a network-create request. *)
Record network_params : Type := {
  np_name : string;
  np_connection : string;
  np_subnet : option string;
  np_interface : option string
}.

Section Networks.

(** What [networks_create] takes from modules that are not in src. *)

(** [knetwork.get_one_free_network(net_addrs)]; the empty string when there
    is none. *)
Variable get_one_free_network : list string -> string.

(** [ipaddr.IPNetwork(netaddr)] followed by the address arithmetic of
    [_set_network_subnet]: the network as a string and the DHCP range, or
    the message of the [ValueError]. *)
Variable subnet_plan : string -> string + (string * (string * string)).

(** [netinfo.is_bridge], [netinfo.is_bare_nic], [netinfo.is_bonding] *)
Variable is_bridge is_bare_nic is_bonding : string -> bool.

Definition _set_network_subnet (params : network_params)
    : M Model (string * (string * string)) :=
  let* netaddr :=
    match truthy (np_subnet params) with
    | Some a => ret a
    | None =>
        let* names := networks_get_list in
        let* net_addrs :=
          (fix go (names : list string) : M Model (list string) :=
             match names with
             | [] => ret []
             | net_name :: names' =>
                 let* network := _get_network net_name in
                 let* xml := call (network_XMLDesc network) in
                 let* rest := go names' in
                 ret (if bool_decide (nx_subnet xml = "") then rest
                      else nx_subnet xml :: rest)
             end) names in
        let a := get_one_free_network net_addrs in
        if bool_decide (a = "") then
          raise (OperationFailed
                   ("can not find a free IP address for network '"
                    +:+ np_name params +:+ "'"))
        else ret a
    end in
  match subnet_plan netaddr with
  | inl msg => raise (InvalidParameter msg)
  | inr plan => ret plan
  end.

(** [_set_network_bridge]: the bridge name and the forward device it
    settles. *)
Definition _set_network_bridge (params : network_params)
    : M Model (string * list string) :=
  match np_interface params with
  | None => raise (MissingParameter "interface")
  | Some iface =>
      let* used := _get_all_networks_interfaces in
      if bool_decide (iface ∈ used) then
        raise (InvalidParameter
                 ("interface '" +:+ iface +:+ "' already in use."))
      else if is_bridge iface then ret (iface, [])
      else if is_bare_nic iface || is_bonding iface then ret ("", [iface])
      else raise (InvalidParameter
                    "the interface should be bare nic, bonding or bridge device.")
  end.

Definition networks_create (params : network_params) : M Model string :=
  let* conn := conn_get in
  let name := np_name params in
  let* names := networks_get_list in
  if bool_decide (name ∈ names) then
    raise (InvalidOperation ("Network " +:+ name +:+ " already exists"))
  else
    let connection := np_connection params in
    let forward_mode :=
      if bool_decide (connection = "isolated") then "" else connection in
    let* subnet :=
      if bool_decide (connection ∈ ["nat"; "isolated"])
      then _set_network_subnet params
      else ret ("", ("", "")) in
    let* bridge :=
      if bool_decide (connection = "bridge")
      then _set_network_bridge params
      else ret ("", []) in
    (* the descriptor to_network_xml builds from the parameters *)
    let xml := {| nx_name := name; nx_forward_mode := forward_mode;
                  nx_forward_interface := bridge.2; nx_forward_pf := [];
                  nx_subnet := subnet.1; nx_dhcp := subnet.2;
                  nx_bridge := bridge.1 |} in
    try_except
      (let* network := call (networkDefineXML xml) in
       call (network_setAutostart network true))
      (fun e => if is_libvirtError e
                then raise (OperationFailed (get_error_message e))
                else raise e) ;;
    ret name.

End Networks.

(** ** Background tasks *)

(** Modelled from the spec: [kimchi/asynctask.py] is not in src.  Following
    section 4.3, constructing an [AsyncTask] records the task as running in
    the object store and starts its unit of work at once; the work itself
    runs on its own thread and is not followed here. *)
Definition AsyncTask (id : nat) (target_uri : string) (fn : work)
    : M Model unit :=
  session_store "task" (fmt_i id) (TaskRecord "running" "OK") ;;
  modify (set_tasks (fun l => (l ++ [(id, target_uri, fn)])%list)).

Definition add_task (target_uri : string) (fn : work) : M Model nat :=
  let* id := gets next_taskid in
  modify (set_next_taskid (id + 1)%nat) ;;
  AsyncTask id target_uri fn ;;
  ret id.

(** ** Storage pools *)

Definition storagepools_get_list : M Model (list string) :=
  try_except
    (let* conn := conn_get in
     let* names := call listStoragePools in
     let* defined := call listDefinedStoragePools in
     ret (sorted (names ++ defined)%list))
    (fun e => if is_libvirtError e
              then raise (OperationFailed (get_error_message e))
              else raise e).

Definition _get_storagepool (name : string) : M Model virStoragePool :=
  let* conn := conn_get in
  try_except (call (storagePoolLookupByName name)) (fun e =>
    match e with
    | libvirtError _ ecode _ =>
        if bool_decide (ecode = VIR_ERR_NO_STORAGE_POOL)
        then raise (NotFoundError
                      ("Storage Pool '" +:+ name +:+ "' not found"))
        else raise e
    | _ => raise e
    end).

(** [storagepool_lookup(name)], for the two keys [_do_deep_scan] reads:
    ['state'] (as "is it active") and ['path']. *)
Definition storagepool_lookup (name : string) : M Model (bool * string) :=
  let* pool := _get_storagepool name in
  let* active := call (pool_isActive pool) in
  let* path := call (pool_target_path pool) in
  ret (active, path).

(** The parameters of a pool-create request; a key of the dictionary that
    is absent is [None]. *)
Record pool_params : Type := {
  pp_name : option string;
  pp_type : option string;
  pp_path : option string;
  pp_nfsserver : option string;
  pp_nfspath : option string;
  pp_devices : option (list string)
}.

Definition set_pp_type_path (type path : string) (p : pool_params)
    : pool_params :=
  {| pp_name := pp_name p; pp_type := Some type; pp_path := Some path;
     pp_nfsserver := pp_nfsserver p; pp_nfspath := pp_nfspath p;
     pp_devices := pp_devices p |}.

(** [d[key]] on request parameters. *)
Definition item {A} (key : string) (v : option A) : M Model A :=
  match v with
  | Some a => ret a
  | None => raise (KeyError key)
  end.

(** [if not os.path.exists(path): os.makedirs(path)] *)
Definition makedirs (path : string) : M Model unit :=
  modify (set_dirs (fun d => d ∪ {[path]})).

(** Modelled from the spec: [Scanner.scan_dir_prepare] ([kimchi/scan.py])
    is not in src; it makes the directory the transient scan pool will
    target and returns its path. *)
Definition scan_dir_prepare (name : string) : M Model string :=
  let path := "/tmp/kimchi-scan-" +:+ name in
  makedirs path ;; ret path.

(** [_get_pool_xml], on the keyword arguments [storagepools_create]
    passes; [type] is the value of [kwargs['type']]. *)
Definition _get_pool_xml (kwargs : pool_params) (type : string)
    : M Model pool_xml :=
  if bool_decide (type = "dir") then
    let* name := item "name" (pp_name kwargs) in
    let* path := item "path" (pp_path kwargs) in
    ret {| px_type := type; px_name := name; px_path := path;
           px_source := [] |}
  else if bool_decide (type = "netfs") then
    let* name := item "name" (pp_name kwargs) in
    let path := "/var/lib/kimchi/nfs_mount/" +:+ name in
    makedirs path ;;
    let* nfsserver := item "nfsserver" (pp_nfsserver kwargs) in
    let* nfspath := item "nfspath" (pp_nfspath kwargs) in
    ret {| px_type := type; px_name := name; px_path := path;
           px_source := [nfsserver; nfspath] |}
  else if bool_decide (type = "logical") then
    let* name := item "name" (pp_name kwargs) in
    let path := "/var/lib/kimchi/logical_mount/" +:+ name in
    makedirs path ;;
    let* devices := item "devices" (pp_devices kwargs) in
    ret {| px_type := type; px_name := name; px_path := path;
           px_source := devices |}
  else raise (UnboundLocalError "xml").

(** [_do_deep_scan(params)]: the task id, and [params] as the function
    leaves it (type ["dir"], path the scan pool's). *)
Definition _do_deep_scan (params : pool_params)
    : M Model (nat * pool_params) :=
  let* scan_path := item "path" (pp_path params) in
  let* pools := storagepools_get_list in
  let* ignore_list :=
    (fix go (pools : list string) : M Model (list string) :=
       match pools with
       | [] => ret []
       | pool :: pools' =>
           let* res := try_except
                         (let* r := storagepool_lookup pool in ret (Some r))
                         (fun _ => ret None) in
           let* rest := go pools' in
           ret (match res with
                | Some (true, path) => path :: rest
                | _ => rest
                end)
       end) pools in
  let* name := item "name" (pp_name params) in
  let* pool_path := scan_dir_prepare name in
  let* task_id := add_task "" (start_scan scan_path pool_path ignore_list) in
  session_store "scanning" name (ScanningRecord task_id) ;;
  ret (task_id, set_pp_type_path "dir" pool_path params).

Definition storagepools_create (params : pool_params) : M Model string :=
  let* conn := conn_get in
  let* prepared :=
    try_except
      (let* name := item "name" (pp_name params) in
       if bool_decide (name ∈ [ISO_POOL_NAME]) then
         raise (InvalidOperation "StoragePool already exists")
       else
         let* type := item "type" (pp_type params) in
         let* scan :=
           if bool_decide (type = "kimchi-iso") then
             let* r := _do_deep_scan params in ret (Some r.1, r.2)
           else ret (None, params) in
         let* type' := item "type" (pp_type scan.2) in
         let* xml := _get_pool_xml scan.2 type' in
         ret (name, scan.1, type', xml))
      (fun e => match e with
                | KeyError key => raise (MissingParameter key)
                | _ => raise e
                end) in
  let '(name, task_id, type, xml) := prepared in
  let* names := storagepools_get_list in
  if bool_decide (name ∈ names) then
    raise (InvalidOperation
             ("The name " +:+ name +:+ " has been used by a pool"))
  else
    try_except
      (match task_id with
       | Some (S _) =>
           call (storagePoolCreateXML xml) ;; ret name
       | _ =>
           let* pool := call (storagePoolDefineXML xml) in
           (if bool_decide (type ∈ ["logical"; "dir"]) then
              call (pool_build pool) ;;
              call (pool_setAutostart pool true)
            else call (pool_setAutostart pool false)) ;;
           ret name
       end)
      (fun e => if is_libvirtError e then
                  kimchi_log_error "Problem creating Storage Pool: %s" ;;
                  raise (OperationFailed (get_error_message e))
                else raise e).

(** ** Concrete states *)

Definition accept_all {A} : A -> option (Z * Z * string) := fun _ => None.

Definition default_pool : pool :=
  {| pl_type := "dir"; pl_path := "/var/lib/libvirt/images";
     pl_active := true; pl_persistent := true; pl_autostart := true |}.

Definition default_network : network :=
  {| nw_xml := {| nx_name := "default"; nx_forward_mode := "nat";
                  nx_forward_interface := []; nx_forward_pf := [];
                  nx_subnet := "192.168.122.1/255.255.255.0";
                  nx_dhcp := ("192.168.122.2", "192.168.122.254");
                  nx_bridge := "virbr0" |};
     nw_active := true; nw_autostart := true |}.

(** A host with the default pool and network and no guest. *)
Definition world0 : libvirt_world :=
  {| lv_domains := ∅; lv_volumes := ∅;
     lv_pools := {["default" := default_pool]};
     lv_networks := {["default" := default_network]};
     lv_refuse_domain := accept_all; lv_refuse_network := accept_all;
     lv_refuse_pool := accept_all;
     lv_open_failures := 0; lv_sessions := 1 |}.

(** A model object connected to [w], everything else empty. *)
Definition model_on (w : libvirt_world) : Model :=
  {| connections := {[0 := Some 1%nat]}; virt := w; objstore := ∅;
     stats := ∅; graphics_ports := ∅; next_taskid := 1; tasks := [];
     dirs := ∅; qemu_stream := false; qemu_stream_dns := false;
     libvirt_stream_protocols := []; clock := 10;
     log := []; engine_stopped := false |}.

Definition guest (name uuid : string) (state : nat) (vcpus cputime : Z)
    (rx tx : Z) : domain :=
  {| d_xml := {| x_name := name; x_uuid := uuid; x_memory := 1048576;
                 x_vcpus := vcpus; x_disks := []; x_ifaces := ["vnet0"];
                 x_graphics := None |};
     d_state := state; d_cputime := cputime;
     d_ifstats := {["vnet0" := (rx, tx)]}; d_blkstats := ∅ |}.

Definition with_guests (l : list domain) (w : libvirt_world) : libvirt_world :=
  set_lv_domains (fun _ => list_to_map ((fun d => (x_name (d_xml d), d)) <$> l)) w.

(** A session call that fails with a broken connection. *)
Definition broken_pipe : M libvirt_world virDomain :=
  virt_error (VIR_FROM_RPC, VIR_ERR_SYSTEM_ERROR, "broken pipe").

(** ** The spec's vocabulary *)

(** A connection-class failure: a libvirt error whose domain is remote or
    rpc and whose code is system-error, internal-error, no-connection or
    invalid-connection. *)
Definition connection_class (e : exn) : Prop :=
  exists edom ecode msg, e = libvirtError edom ecode msg
    /\ (edom = VIR_FROM_REMOTE \/ edom = VIR_FROM_RPC)
    /\ (ecode = VIR_ERR_SYSTEM_ERROR \/ ecode = VIR_ERR_INTERNAL_ERROR
        \/ ecode = VIR_ERR_NO_CONNECT \/ ecode = VIR_ERR_INVALID_CONN).

(** The session of slot 0 is established. *)
Definition connected (s : Model) : Prop :=
  exists c, connections s !! 0 = Some (Some c).

(** ** Sample windows *)

(** [self.stats.get(vm_uuid, {})] *)
Definition window (s : Model) (vm_uuid : string) : gmap string Q :=
  default ∅ (stats s !! vm_uuid).

(** The running maximum as [vm_lookup] reads it:
    [vm_stats.get(key, 100)]. *)
Definition peak (key : string) (s : Model) (vm_uuid : string) : Q :=
  default 100%Q (window s vm_uuid !! key).

(** A rate as [vm_lookup] reads it: [vm_stats.get(key, 0)]. *)
Definition rate_of (key : string) (s : Model) (vm_uuid : string) : Q :=
  default 0%Q (window s vm_uuid !! key).

Definition int_valued (x : Q) : Prop := exists n : Z, (x == inject_Z n)%Q.

Definition clamp (lo hi x : Q) : Q :=
  if Qlt_le_dec x lo then lo else if Qlt_le_dec hi x then hi else x.

(** The CPU formula in the spec's words:
    clamp(0,100, (delta-ns / (dt * 1e9 * 100)) / vcpus * 100). *)
Definition spec_cpu_percent (delta_ns dt vcpus : Q) : Q :=
  clamp 0 100 ((delta_ns / (dt * 1000000000 * 100)) / vcpus * 100)%Q.

(** Lines 313-319 of [_get_network_io_rate] in binary64 arithmetic, for one
    interface. *)
Definition net_rate_binary64 (prevNetRxKB prevNetTxKB rx_bytes tx_bytes
    seconds : float) : float :=
  let netRxKB := (rx_bytes / 1000)%float in
  let netTxKB := (tx_bytes / 1000)%float in
  let rx_stats := ((netRxKB - prevNetRxKB) / seconds)%float in
  let tx_stats := ((netTxKB - prevNetTxKB) / seconds)%float in
  (rx_stats + tx_stats)%float.

(** A running guest "vm" whose interface counters read [rx], [tx], sampled
    at time [now] with the sample window [w]. *)
Definition sampling (now : Q) (w : option (gmap string Q)) (vcpus cputime : Z)
    (rx tx : Z) : Model :=
  let s := model_on (with_guests [guest "vm" "u-vm" 1 vcpus cputime rx tx]
                       world0) in
  {| connections := connections s; virt := virt s; objstore := objstore s;
     stats := match w with Some d => {["u-vm" := d]} | None => ∅ end;
     graphics_ports := graphics_ports s; next_taskid := next_taskid s;
     tasks := tasks s; dirs := dirs s; qemu_stream := qemu_stream s;
     qemu_stream_dns := qemu_stream_dns s;
     libvirt_stream_protocols := libvirt_stream_protocols s;
     clock := now; log := log s; engine_stopped := engine_stopped s |}.

Definition vm_handle : virDomain := {| h_name := "vm"; h_uuid := "u-vm" |}.

(** The window left by a sample at time 0 that read rx=1000, tx=2000. *)
Definition window_1000_2000 : gmap string Q :=
  {["timestamp" := 0%Q; "netRxKB" := (1000 / 1000)%Q;
    "netTxKB" := (2000 / 1000)%Q]}.

(** A first sample (empty window) reading rx=1005000 bytes over ten
    seconds: a rate of 100.5 KB/s against the initial maximum of 100. *)
Definition half_over_peak : Model := sampling 10 (Some ∅) 1 0 1005000 0.

(** The sample of the rate example: counters (3000, 5000) at time 10 over
    the window left at time 0 by counters (1000, 2000). *)
Definition rate_example : Model :=
  sampling 10 (Some window_1000_2000) 1 0 3000 5000.

(** One second of CPU time over ten seconds on one virtual CPU. *)
Definition cpu_example : Model := sampling 10 (Some ∅) 1 1000000000 0 0.
Definition cpu_example_info : dominfo :=
  {| i_state := 1; i_memory := 1048576; i_vcpus := 1;
     i_cputime := 1000000000 |}.

(** The same reading from a guest reporting no virtual CPU. *)
Definition no_vcpu_info : dominfo :=
  {| i_state := 1; i_memory := 1048576; i_vcpus := 0;
     i_cputime := 1000000000 |}.

(** Two running guests, "a" and "b". *)
Definition two_guests : Model :=
  model_on (with_guests [guest "a" "u-a" 1 1 0 0 0; guest "b" "u-b" 1 1 0 0 0]
              world0).

(** Guest "a" in a state [dom_state_map] has no entry for (7, suspended by
    guest power management), guest "b" running. *)
Definition suspended_first : Model :=
  model_on (with_guests [guest "a" "u-a" 7 1 0 0 0; guest "b" "u-b" 1 1 0 0 0]
              world0).

(** [s'] differs from [s] at most in the control plane, the memoized
    sessions and the log: what a libvirt call can touch. *)
Definition same_beyond_session (s s' : Model) : Prop :=
  objstore s' = objstore s /\ stats s' = stats s
  /\ graphics_ports s' = graphics_ports s /\ next_taskid s' = next_taskid s
  /\ tasks s' = tasks s /\ dirs s' = dirs s
  /\ qemu_stream s' = qemu_stream s /\ qemu_stream_dns s' = qemu_stream_dns s
  /\ libvirt_stream_protocols s' = libvirt_stream_protocols s
  /\ clock s' = clock s /\ engine_stopped s' = engine_stopped s.

(** A world with the shut-off guest "a", in which libvirt refuses any
    descriptor named "c". *)
Definition refuses_c : libvirt_world :=
  let w := with_guests [guest "a" "u-a" 5 1 0 0 0] world0 in
  {| lv_domains := lv_domains w; lv_volumes := lv_volumes w;
     lv_pools := lv_pools w; lv_networks := lv_networks w;
     lv_refuse_domain := fun xml =>
       if bool_decide (x_name xml = "c")
       then Some (VIR_FROM_QEMU, VIR_ERR_INTERNAL_ERROR, "refused")
       else None;
     lv_refuse_network := lv_refuse_network w;
     lv_refuse_pool := lv_refuse_pool w;
     lv_open_failures := 0; lv_sessions := 1 |}.

(** A template with an icon and two disks on the default pool. *)
Definition tmpl : template_info :=
  {| ti_name := "tmpl"; ti_icon := Some "images/icon-fedora.png";
     ti_iso_stream := false; ti_storagepool := "/storagepools/default";
     ti_network := "default"; ti_memory := 1024; ti_cpus := 1;
     ti_disks := [(0%nat, 10); (1%nat, 20)] |}.

(** The default host, on which libvirt refuses every domain descriptor. *)
Definition refuses_all : libvirt_world :=
  {| lv_domains := lv_domains world0; lv_volumes := lv_volumes world0;
     lv_pools := lv_pools world0; lv_networks := lv_networks world0;
     lv_refuse_domain := fun _ =>
       Some (VIR_FROM_QEMU, VIR_ERR_INTERNAL_ERROR,
             "unsupported configuration");
     lv_refuse_network := lv_refuse_network world0;
     lv_refuse_pool := lv_refuse_pool world0;
     lv_open_failures := 0; lv_sessions := 1 |}.

Definition create_example : Model :=
  set_objstore (fun _ => {[("template", "tmpl") := TemplateRecord tmpl]})
    (model_on refuses_all).

Definition create_request : vm_params :=
  {| vp_template := "/templates/tmpl"; vp_name := None;
     vp_storagepool := None |}.

(** The current list of VM names, as [vms_get_list] builds it. *)
Definition domain_names (w : libvirt_world) : list string :=
  sorted_by lower
    (names_where (fun d => is_active d) (lv_domains w)
     ++ names_where (fun d => negb (is_active d)) (lv_domains w))%list.

(** A request for a directory pool "p", and one for a scan pool of the same
    name. *)
Definition dir_request : pool_params :=
  {| pp_name := Some "p"; pp_type := Some "dir"; pp_path := Some "/srv/p";
     pp_nfsserver := None; pp_nfspath := None; pp_devices := None |}.

Definition iso_request : pool_params :=
  {| pp_name := Some "p"; pp_type := Some "kimchi-iso";
     pp_path := Some "/srv/isos";
     pp_nfsserver := None; pp_nfspath := None; pp_devices := None |}.

(** The state after the directory pool "p" has been created. *)
Definition with_pool_p : Model :=
  (storagepools_create dir_request (model_on world0)).1.

(** The names a listing of networks or of pools gives. *)
Definition network_names (w : libvirt_world) : list string :=
  sorted (names_where (fun nw => nw_active nw) (lv_networks w)
          ++ names_where (fun nw => negb (nw_active nw)) (lv_networks w))%list.

Definition pool_names (w : libvirt_world) : list string :=
  sorted (names_where (fun pl => pl_active pl) (lv_pools w)
          ++ names_where (fun pl => negb (pl_active pl)) (lv_pools w))%list.

(** What a sample window goes through between two reads of its maxima
    while its VM keeps running: a network step, a disk step, or anything
    that leaves the two stored maxima alone. *)
Inductive window_step (vm_uuid : string) : Model -> Model -> Prop :=
| step_net dom seconds s s' :
    _get_network_io_rate vm_uuid dom seconds s = (s', inr tt) ->
    window_step vm_uuid s s'
| step_disk dom seconds s s' :
    _get_disk_io_rate vm_uuid dom seconds s = (s', inr tt) ->
    window_step vm_uuid s s'
| step_other s s' :
    window s' vm_uuid !! "max_net_io" = window s vm_uuid !! "max_net_io" ->
    window s' vm_uuid !! "max_disk_io" = window s vm_uuid !! "max_disk_io" ->
    window_step vm_uuid s s'.

(** A shut-off guest "vm" whose window still holds a maximum of 250. *)
Definition stopped_with_peak : Model :=
  let s := sampling 20 (Some {["max_net_io" := 250%Q]}) 1 0 0 0 in
  set_virt (with_guests [guest "vm" "u-vm" 5 1 0 0 0] world0) s.

(** The state [get] leaves when slot 0 held no session and libvirt opens
    one at the first attempt. *)
Definition reopened (s : Model) : Model :=
  let n := S (lv_sessions (virt s)) in
  set_connections (<[0 := Some n]>) (set_virt (set_lv_open 0 n (virt s)) s).

(** The two errors the VM operations below raise. *)
Definition vm_not_found (name : string) : exn :=
  NotFoundError ("Virtual Machine '" +:+ name +:+ "' not found").

Definition rename_refused : exn :=
  InvalidParameter "vm name can just updated when vm shutoff".

(** ** Further vocabulary and states *)

(** The error of a failed [libvirt.open]. *)
Definition open_error : exn :=
  libvirtError VIR_FROM_RPC VIR_ERR_SYSTEM_ERROR "Failed to connect socket".

(** The error [broken_pipe] raises. *)
Definition open_error_pipe : exn :=
  libvirtError VIR_FROM_RPC VIR_ERR_SYSTEM_ERROR "broken pipe".

(** A model object with no session yet, on a host whose next seven opens
    fail. *)
Definition unreachable_libvirt : Model :=
  set_connections (fun _ => ∅) (model_on (set_lv_open 7 1 world0)).

(** ** [Model]: the remaining template operations *)

Definition template_lookup (name : string) : M Model template_info :=
  _get_template name None.

Definition template_delete (name : string) : M Model unit :=
  session_delete "template" name false.

Definition templates_get_list : M Model (list string) :=
  session_get_list "template".

(** The parameters of a template-update request: each key of the template
    it may carry, [None] when absent. *)
Record template_changes : Type := {
  tc_name : option string;
  tc_icon : option string;
  tc_iso_stream : option bool;
  tc_storagepool : option string;
  tc_network : option string;
  tc_memory : option Z;
  tc_cpus : option Z;
  tc_disks : option (list (nat * Z))
}.

(** [new_t = copy.copy(old_t); new_t.update(params)] *)
Definition dict_update (params : template_changes) (old_t : template_info)
    : template_info :=
  {| ti_name := default (ti_name old_t) (tc_name params);
     ti_icon := match tc_icon params with
                | Some i => Some i
                | None => ti_icon old_t
                end;
     ti_iso_stream := default (ti_iso_stream old_t) (tc_iso_stream params);
     ti_storagepool := default (ti_storagepool old_t) (tc_storagepool params);
     ti_network := default (ti_network old_t) (tc_network params);
     ti_memory := default (ti_memory old_t) (tc_memory params);
     ti_cpus := default (ti_cpus old_t) (tc_cpus params);
     ti_disks := default (ti_disks old_t) (tc_disks params) |}.

(** [e.message] *)
Definition exn_message (e : exn) : string :=
  match e with
  | InvalidOperation m | InvalidParameter m | NotFoundError m
  | OperationFailed m | libvirtError _ _ m => m
  | MissingParameter k | KeyError k => k
  | ZeroDivisionError => "float division by zero"
  | UnboundLocalError v =>
      "local variable '" +:+ v +:+ "' referenced before assignment"
  end.

(** [template_update(name, params)]: [except Exception as e] and the bare
    [except:] take every exception of the model. *)
Definition template_update (name : string) (params : template_changes)
    : M Model string :=
  let* old_t := template_lookup name in
  let new_t := dict_update params old_t in
  let new_storagepool := ti_storagepool new_t in
  try_except
    (let* pool_name := lift (pool_name_from_uri new_storagepool) in
     _get_storagepool pool_name ;; ret tt)
    (fun e => raise (InvalidParameter
                       ("Storagepool specified is not valid: "
                        +:+ exn_message e +:+ "."))) ;;
  template_delete name ;;
  try_except (templates_create new_t)
    (fun e => templates_create old_t ;; raise e).

(** ** [Model]: activating, deactivating and deleting networks *)

Definition set_nw_active (b : bool) (n : network) : network :=
  {| nw_xml := nw_xml n; nw_active := b; nw_autostart := nw_autostart n |}.

(** [network.create()] *)
Definition network_create (n : virNetwork) : M libvirt_world unit :=
  on_network n (fun nw =>
    if nw_active nw
    then virt_error (VIR_FROM_NETWORK, VIR_ERR_OPERATION_INVALID,
                     "network is already active")
    else modify (set_lv_networks (<[n := set_nw_active true nw]>))).

(** [network.destroy()] *)
Definition network_destroy (n : virNetwork) : M libvirt_world unit :=
  on_network n (fun nw =>
    if nw_active nw
    then modify (set_lv_networks (<[n := set_nw_active false nw]>))
    else virt_error (VIR_FROM_NETWORK, VIR_ERR_OPERATION_INVALID,
                     "network is not active")).

(** [network.undefine()] *)
Definition network_undefine (n : virNetwork) : M libvirt_world unit :=
  on_network n (fun nw =>
    if nw_active nw
    then virt_error (VIR_FROM_NETWORK, VIR_ERR_OPERATION_INVALID,
                     "network is still active")
    else modify (set_lv_networks (delete n))).

Definition network_activate (name : string) : M Model unit :=
  let* network := _get_network name in
  call (network_create network).

Definition network_deactivate (name : string) : M Model unit :=
  let* network := _get_network name in
  call (network_destroy network).

Definition network_delete (name : string) : M Model unit :=
  let* network := _get_network name in
  let* active := call (network_isActive network) in
  if active : bool then
    raise (InvalidOperation
             ("Unable to delete the active network " +:+ name))
  else call (network_undefine network).

(** ** [Model]: updating, activating, deactivating and deleting pools *)

Definition set_pl_active (b : bool) (p : pool) : pool :=
  {| pl_type := pl_type p; pl_path := pl_path p; pl_active := b;
     pl_persistent := pl_persistent p; pl_autostart := pl_autostart p |}.

(** [pool.create(0)] *)
Definition pool_create (p : virStoragePool) : M libvirt_world unit :=
  on_pool p (fun pl =>
    if pl_active pl
    then virt_error (VIR_FROM_STORAGE, VIR_ERR_OPERATION_INVALID,
                     "storage pool is already active")
    else modify (set_lv_pools (<[p := set_pl_active true pl]>))).

(** [pool.destroy()]: a transient pool is gone once it is stopped. *)
Definition pool_destroy (p : virStoragePool) : M libvirt_world unit :=
  on_pool p (fun pl =>
    if pl_active pl
    then if pl_persistent pl
         then modify (set_lv_pools (<[p := set_pl_active false pl]>))
         else modify (set_lv_pools (delete p))
    else virt_error (VIR_FROM_STORAGE, VIR_ERR_OPERATION_INVALID,
                     "storage pool is not active")).

(** [pool.undefine()] *)
Definition pool_undefine (p : virStoragePool) : M libvirt_world unit :=
  on_pool p (fun pl =>
    if pl_active pl
    then virt_error (VIR_FROM_STORAGE, VIR_ERR_OPERATION_INVALID,
                     "storage pool is still active")
    else modify (set_lv_pools (delete p))).

(** A value of a decoded JSON request, as far as [storagepool_update]
    tells them apart. *)
Inductive json : Type :=
| JNull
| JBool (b : bool)
| JNum (q : Q)
| JStr (s : string).

(** [v in [True, False]]: equality with a boolean, which the numbers one
    and zero satisfy. *)
Definition in_true_false (v : json) : bool :=
  match v with
  | JBool _ => true
  | JNum q => Qeq_bool q 1 || Qeq_bool q 0
  | _ => false
  end.

(** The truth value of [v]. *)
Definition py_bool (v : json) : bool :=
  match v with
  | JNull => false
  | JBool b => b
  | JNum q => negb (Qeq_bool q 0)
  | JStr s => negb (bool_decide (s = ""))
  end.

(** [storagepool_update(name, params)]; the argument is the value of
    [params] at ['autostart'], [None] when the key is absent. *)
Definition storagepool_update (name : string) (autostart : option json)
    : M Model string :=
  let* autostart := item "autostart" autostart in
  if negb (in_true_false autostart) then
    raise (InvalidOperation "Autostart flag must be true or false")
  else
    let* pool := _get_storagepool name in
    (if py_bool autostart then call (pool_setAutostart pool true)
     else call (pool_setAutostart pool false)) ;;
    ret pool.

Definition storagepool_activate (name : string) : M Model unit :=
  let* pool := _get_storagepool name in
  try_except (call (pool_create pool))
    (fun e => if is_libvirtError e
              then raise (OperationFailed (get_error_message e))
              else raise e).

Definition storagepool_deactivate (name : string) : M Model unit :=
  let* pool := _get_storagepool name in
  try_except (call (pool_destroy pool))
    (fun e => if is_libvirtError e
              then raise (OperationFailed (get_error_message e))
              else raise e).

Definition storagepool_delete (name : string) : M Model unit :=
  let* pool := _get_storagepool name in
  let* active := call (pool_isActive pool) in
  if active : bool then
    raise (InvalidOperation
             ("Unable to delete the active storagepool " +:+ name))
  else
    try_except (call (pool_undefine pool))
      (fun e => if is_libvirtError e
                then raise (OperationFailed (get_error_message e))
                else raise e).

(** ** [Model]: tasks *)

Definition tasks_get_list : M Model (list string) :=
  session_get_list "task".

Definition task_lookup (id : nat) : M Model record :=
  session_get "task" (fmt_i id).

(** ** [Model]: the host *)

(** The loop of [vms_get_list_by_state] over the list of names. *)
Fixpoint vms_by_state_loop (state : string) (names : list string)
    : M Model (list string) :=
  match names with
  | [] => ret []
  | name :: names' =>
      let* dom := _get_vm name in
      let* info := call (dom_info dom) in
      let* st := dom_state (i_state info) in
      let* rest := vms_by_state_loop state names' in
      ret (if bool_decide (st = state) then name :: rest else rest)
  end.

Definition vms_get_list_by_state (state : string) : M Model (list string) :=
  let* names := vms_get_list in
  vms_by_state_loop state names.

(** The model object together with the commands it has handed to
    [os.system]. *)
Record Host : Type := {
  host_model : Model;
  host_commands : list string
}.

Definition in_model {A} (c : M Model A) : M Host A :=
  fun h => match c (host_model h) with
           | (s', r) => ({| host_model := s';
                            host_commands := host_commands h |}, r)
           end.

Definition os_system (cmd : string) : M Host unit :=
  modify (fun h => {| host_model := host_model h;
                      host_commands := (host_commands h ++ [cmd])%list |}).

Definition host_shutdown : M Host unit :=
  let* running_vms := in_model (vms_get_list_by_state "running") in
  if (0 <? length running_vms)%nat then
    raise (OperationFailed "Shutdown not allowed: VMs are running!")
  else os_system "shutdown -h now".

Definition host_reboot : M Host unit :=
  let* running_vms := in_model (vms_get_list_by_state "running") in
  if (0 <? length running_vms)%nat then
    raise (OperationFailed "Reboot not allowed: VMs are running!")
  else os_system "reboot".

(** The default host with the template [tmpl] stored, and with a second
    template "other" beside it. *)
Definition with_tmpl : Model :=
  set_objstore (fun _ => {[("template", "tmpl") := TemplateRecord tmpl]})
    (model_on world0).

Definition with_two_tmpl : Model :=
  set_objstore (<[("template", "other") :=
                    TemplateRecord (dict_update
                      {| tc_name := Some "other"; tc_icon := None;
                         tc_iso_stream := None; tc_storagepool := None;
                         tc_network := None; tc_memory := None;
                         tc_cpus := None; tc_disks := None |} tmpl)]>)
    with_tmpl.

(** An isolated network "lab", defined and inactive, and the default host
    with it. *)
Definition lab_network : network :=
  {| nw_xml := {| nx_name := "lab"; nx_forward_mode := "";
                  nx_forward_interface := []; nx_forward_pf := [];
                  nx_subnet := "10.0.0.0/24";
                  nx_dhcp := ("10.0.0.128", "10.0.0.254");
                  nx_bridge := "" |};
     nw_active := false; nw_autostart := true |}.

Definition with_lab : Model :=
  model_on (set_lv_networks (<["lab" := lab_network]>) world0).

(** Adjacent elements of [l] are in the order of their keys. *)
Fixpoint ordered_by (key : string -> string) (l : list string) : Prop :=
  match l with
  | [] => True
  | x :: l' =>
      match l' with
      | [] => True
      | y :: _ => String.leb (key x) (key y) = true
      end /\ ordered_by key l'
  end.

(** The domain called [name] is in the state called [state]. *)
Definition has_state (w : libvirt_world) (state name : string) : bool :=
  match lv_domains w !! name with
  | Some d => bool_decide (dom_state_map !! d_state d = Some state)
  | None => false
  end.

(** The host after [cmd] has been handed to [os.system]. *)
Definition commanded (cmd : string) (h : Host) : Host :=
  {| host_model := host_model h;
     host_commands := (host_commands h ++ [cmd])%list |}.

(** The host of [with_tmpl] on which the path of the second volume of a VM of
    UUID "uuid-1" is taken. *)
Definition second_volume_taken : Model :=
  set_virt (set_lv_volumes
              (fun _ => {["/var/lib/libvirt/images/uuid-1-1.img"]}) world0)
    with_tmpl.

(** The disk images of a domain: the [source/@file] of its disk devices. *)
Definition disk_paths (d : domain) : list string :=
  omap (fun k => if bool_decide (disk_device k = "disk")
                 then disk_file k else None) (x_disks (d_xml d)).

(** A request for the isolated network "lab" on 10.0.0.0/24, and an address
    plan that knows that subnet only. *)
Definition lab_request : network_params :=
  {| np_name := "lab"; np_connection := "isolated";
     np_subnet := Some "10.0.0.0/24"; np_interface := None |}.

Definition plan_24 (netaddr : string)
    : string + (string * (string * string)) :=
  if bool_decide (netaddr = "10.0.0.0/24")
  then inr ("10.0.0.0/24", ("10.0.0.128", "10.0.0.254"))
  else inl "invalid address".

(** ** [Model]: host statistics *)

(** What one tick of the host sampler reads from outside the program:
    [time.time()], the first field of [/proc/uptime], the counters of
    [psutil.disk_io_counters(False)] and of
    [psutil.network_io_counters(True)], the interfaces of
    [netinfo.nics() + netinfo.wlans()], [psutil.cpu_percent(None)] and the
    five figures of [psutil.virtual_memory()]. *)
Record host_reading : Type := {
  hr_time : Q;
  hr_uptime : Q;
  hr_read_bytes : Z;
  hr_write_bytes : Z;
  hr_net_ios : gmap string (Z * Z);     (* bytes_recv, bytes_sent *)
  hr_nics : list string;
  hr_cpu_percent : Q;
  hr_memory : Z * Z * Z * Z * Z         (* total, free, cached, buffers, avail *)
}.

(** [self.host_stats], a [defaultdict(int)]: its numeric entries, and the
    ['memory'] entry beside them. *)
Record HostStats : Type := {
  hs_num : gmap string Q;
  hs_memory : option (Z * Z * Z * Z * Z)
}.

Definition set_hs_num (f : gmap string Q -> gmap string Q) (h : HostStats)
    : HostStats :=
  {| hs_num := f (hs_num h); hs_memory := hs_memory h |}.

(** [self.host_stats[key]]: reading a key that is absent puts it there,
    with the value 0. *)
Definition host_stats_item (key : string) : M HostStats Q :=
  fun h => match hs_num h !! key with
           | Some v => (h, inr v)
           | None => (set_hs_num (<[key := 0%Q]>) h, inr 0%Q)
           end.

(** [int(float(delta) / seconds + 0.5)] *)
Definition rate_per_second (delta seconds : Q) : exn + Z :=
  match py_div delta seconds with
  | inl e => inl e
  | inr q => inr (py_int (q + (1 # 2)))
  end.

Definition _get_host_disk_io_rate (r : host_reading) (seconds : Q)
    : M HostStats unit :=
  let* prev_read_bytes := host_stats_item "disk_read_bytes" in
  let* prev_write_bytes := host_stats_item "disk_write_bytes" in
  let read_bytes := hr_read_bytes r in
  let write_bytes := hr_write_bytes r in
  let* rd_rate := lift (rate_per_second
                          (inject_Z read_bytes - prev_read_bytes) seconds) in
  let* wr_rate := lift (rate_per_second
                          (inject_Z write_bytes - prev_write_bytes) seconds) in
  modify (set_hs_num (fun d =>
    <["disk_read_rate" := inject_Z rd_rate]>
      (<["disk_write_rate" := inject_Z wr_rate]>
         (<["disk_read_bytes" := inject_Z read_bytes]>
            (<["disk_write_bytes" := inject_Z write_bytes]> d))))).

(** The sums of the loop of [_get_host_network_io_rate], over the
    interfaces that are both listed and counted. *)
Definition net_totals (r : host_reading) : Z * Z :=
  map_fold (fun key io acc =>
              if bool_decide (key ∈ hr_nics r)
              then (acc.1 + io.1, acc.2 + io.2) else acc)
    (0, 0) (hr_net_ios r).

Definition _get_host_network_io_rate (r : host_reading) (seconds : Q)
    : M HostStats unit :=
  let* prev_recv_bytes := host_stats_item "net_recv_bytes" in
  let* prev_sent_bytes := host_stats_item "net_sent_bytes" in
  let recv_bytes := (net_totals r).1 in
  let sent_bytes := (net_totals r).2 in
  let* rx_rate := lift (rate_per_second
                          (inject_Z recv_bytes - prev_recv_bytes) seconds) in
  let* tx_rate := lift (rate_per_second
                          (inject_Z sent_bytes - prev_sent_bytes) seconds) in
  modify (set_hs_num (fun d =>
    <["net_recv_rate" := inject_Z rx_rate]>
      (<["net_sent_rate" := inject_Z tx_rate]>
         (<["net_recv_bytes" := inject_Z recv_bytes]>
            (<["net_sent_bytes" := inject_Z sent_bytes]> d))))).

Definition _get_percentage_host_cpu_usage (r : host_reading)
    : M HostStats unit :=
  modify (set_hs_num (<["cpu_utilization" := hr_cpu_percent r]>)).

Definition _get_host_memory_stats (r : host_reading) : M HostStats unit :=
  modify (fun h => {| hs_num := hs_num h; hs_memory := Some (hr_memory r) |}).

Definition _update_host_stats (r : host_reading) : M HostStats unit :=
  let* preTimeStamp := host_stats_item "timestamp" in
  let timestamp := hr_time r in
  let seconds := if Qeq_bool preTimeStamp 0 then hr_uptime r
                 else (timestamp - preTimeStamp)%Q in
  modify (set_hs_num (<["timestamp" := timestamp]>)) ;;
  _get_host_disk_io_rate r seconds ;;
  _get_host_network_io_rate r seconds ;;
  _get_percentage_host_cpu_usage r ;;
  _get_host_memory_stats r.

(** The dictionary [hoststats_lookup] returns. *)
Record host_figures : Type := {
  hf_cpu_utilization : Q;
  hf_memory : option (Z * Z * Z * Z * Z);
  hf_disk_read_rate : Q;
  hf_disk_write_rate : Q;
  hf_net_recv_rate : Q;
  hf_net_sent_rate : Q
}.

Definition hoststats_lookup : M HostStats host_figures :=
  let* cpu := host_stats_item "cpu_utilization" in
  let* memory := gets hs_memory in
  let* rd := host_stats_item "disk_read_rate" in
  let* wr := host_stats_item "disk_write_rate" in
  let* rx := host_stats_item "net_recv_rate" in
  let* tx := host_stats_item "net_sent_rate" in
  ret {| hf_cpu_utilization := cpu; hf_memory := memory;
         hf_disk_read_rate := rd; hf_disk_write_rate := wr;
         hf_net_recv_rate := rx; hf_net_sent_rate := tx |}.

(** The host statistics the model object starts with, and a reading: ten
    seconds after boot, 1005 bytes read and 40 written, two counted
    interfaces of which one is listed. *)
Definition host_stats0 : HostStats := {| hs_num := ∅; hs_memory := None |}.

Definition reading10 : host_reading :=
  {| hr_time := 1000; hr_uptime := 10;
     hr_read_bytes := 1005; hr_write_bytes := 40;
     hr_net_ios := {["eth0" := (3000, 5000); "lo" := (70, 70)]};
     hr_nics := ["eth0"; "wlan0"];
     hr_cpu_percent := 12; hr_memory := (8, 4, 2, 1, 7) |}.

(** ** URIs *)

(** No character of [s] is a line feed, the one character the [.] of the
    regular expression of [_uri_to_name] does not match. *)
Definition no_newline (s : string) : Prop :=
  forall c, In c (list_ascii_of_string s) -> c <> Ascii.ascii_of_nat 10.

(** The URI of the resource [name] in [collection]. *)
Definition uri_of (collection name : string) : string :=
  "/" +:+ collection +:+ "/" +:+ name.

(** * Properties *)

(** ** Module-level helpers, on examples *)

Example get_vm_name_tmpl3 :
  get_vm_name None "tmpl" ["tmpl-vm-1"; "tmpl-vm-2"] = inr "tmpl-vm-3".
Proof. vm_compute. reflexivity. Qed.

Example template_name_from_uri_ex :
  template_name_from_uri "/templates/tmpl/" = inr "tmpl"
  /\ template_name_from_uri "/templates/tmpl" = inr "tmpl"
  /\ template_name_from_uri "/vms/tmpl" = inl (InvalidParameter "/vms/tmpl").
Proof. vm_compute. auto. Qed.

(** ** The monad *)

Lemma bind_ok {S A B} (c : M S A) (k : A -> M S B) s s' a :
  c s = (s', inr a) -> bind c k s = k a s'.
Proof. unfold bind. now intros ->. Qed.

Lemma bind_err {S A B} (c : M S A) (k : A -> M S B) s s' e :
  c s = (s', inl e) -> bind c k s = (s', inl e).
Proof. unfold bind. now intros ->. Qed.

Lemma try_ok {S A} (c : M S A) h s s' a :
  c s = (s', inr a) -> try_except c h s = (s', inr a).
Proof. unfold try_except. now intros ->. Qed.

Lemma try_err {S A} (c : M S A) h s s' e :
  c s = (s', inl e) -> try_except c h s = h e s'.
Proof. unfold try_except. now intros ->. Qed.

(** A loop stops at the first iteration that raises: what follows it in the
    list plays no part. *)
Lemma for_each_app_err {S A} (body : A -> M S unit) l1 x l2 s s1 s' e :
  for_each l1 body s = (s1, inr tt) ->
  body x s1 = (s', inl e) ->
  for_each (l1 ++ x :: l2) body s = (s', inl e).
Proof.
  revert s. induction l1 as [|y l1 IH]; intros s H1 Hx; simpl in *.
  - unfold ret in H1. injection H1 as <-. now apply bind_err.
  - unfold bind in *. destruct (body y s) as [s2 [e2|[]]]; [discriminate|].
    now apply IH.
Qed.

Lemma for_each_app_ok {S A} (body : A -> M S unit) l1 l2 s s1 :
  for_each l1 body s = (s1, inr tt) ->
  for_each (l1 ++ l2) body s = for_each l2 body s1.
Proof.
  revert s. induction l1 as [|y l1 IH]; intros s H1; simpl in *.
  - unfold ret in H1. now injection H1 as <-.
  - unfold bind in *. destruct (body y s) as [s2 [e2|[]]]; [discriminate|].
    now apply IH.
Qed.

(** ** Record bookkeeping *)

Lemma set_virt_id s : set_virt (virt s) s = s.
Proof. now destruct s. Qed.

Lemma connected_get s c :
  connections s !! 0 = Some (Some c) -> conn_get s = (s, inr c).
Proof.
  intros H. unfold conn_get, LibvirtConnection.get, bind, gets.
  now rewrite H.
Qed.

(** ** C9: names for unnamed guests *)

Lemma get_vm_name_loop_first t names pre i post :
  (forall j, j ∈ pre -> vm_name_fmt t j ∈ names) ->
  vm_name_fmt t i ∉ names ->
  get_vm_name_loop t names (pre ++ i :: post) = inr (vm_name_fmt t i).
Proof.
  intros Hpre Hi. induction pre as [|j pre IH]; simpl.
  - now rewrite bool_decide_eq_false_2.
  - rewrite bool_decide_eq_true_2 by (apply Hpre; left).
    apply IH. intros k Hk. apply Hpre. now right.
Qed.

Lemma get_vm_name_loop_exhausted t names range :
  (forall j, j ∈ range -> vm_name_fmt t j ∈ names) ->
  get_vm_name_loop t names range
  = inl (OperationFailed "Unable to choose a VM name").
Proof.
  intros H. induction range as [|j range IH]; simpl; [reflexivity|].
  rewrite bool_decide_eq_true_2 by (apply H; left).
  apply IH. intros k Hk. apply H. now right.
Qed.

Lemma seq_split_at (i : nat) :
  (1 <= i <= 999)%nat ->
  seq 1 999 = (seq 1 (i - 1) ++ i :: seq (S i) (999 - i))%list.
Proof.
  intros Hi. replace 999%nat with ((i - 1) + S (999 - i))%nat at 1 by lia.
  rewrite seq_app. f_equal. replace (1 + (i - 1))%nat with i by lia.
  reflexivity.
Qed.

(** C9.  A VM-create request without a name ([None], or the empty string)
    from template [t] is named [t-vm-i] for the smallest [i] in 1..999 whose
    name is not in the current list of VM names; when every [i] in 1..999 is
    taken the call raises [OperationFailed].  With "tmpl-vm-1" and
    "tmpl-vm-2" taken, template "tmpl" yields "tmpl-vm-3". *)
Theorem get_vm_name_generated (vm_name : option string) (t : string)
    (names : list string) :
  vm_name = None \/ vm_name = Some "" ->
  (forall i : nat, (1 <= i <= 999)%nat ->
     (forall j : nat, (1 <= j < i)%nat -> vm_name_fmt t j ∈ names) ->
     vm_name_fmt t i ∉ names ->
     get_vm_name vm_name t names = inr (t +:+ "-vm-" +:+ fmt_i i))
  /\ ((forall i : nat, (1 <= i <= 999)%nat -> vm_name_fmt t i ∈ names) ->
      get_vm_name vm_name t names
      = inl (OperationFailed "Unable to choose a VM name"))
  /\ get_vm_name None "tmpl" ["tmpl-vm-1"; "tmpl-vm-2"] = inr "tmpl-vm-3".
Proof.
  intros Hname.
  assert (Hloop : get_vm_name vm_name t names
                  = get_vm_name_loop t names (seq 1 999)).
  { destruct Hname as [-> | ->]; reflexivity. }
  rewrite Hloop. split; [|split].
  - intros i Hi Hbelow Hfree. rewrite (seq_split_at i Hi).
    apply get_vm_name_loop_first; [|exact Hfree].
    intros j Hj. apply elem_of_seq in Hj. apply Hbelow. lia.
  - intros Hall. apply get_vm_name_loop_exhausted.
    intros j Hj. apply elem_of_seq in Hj. apply Hall. lia.
  - vm_compute. reflexivity.
Qed.

Lemma get_vm_name_generated_witness :
  get_vm_name None "tmpl" ["tmpl-vm-1"; "tmpl-vm-2"]
  = inr ("tmpl" +:+ "-vm-" +:+ fmt_i 3)
  /\ get_vm_name (Some "") "t" (vm_name_fmt "t" <$> seq 1 999)
     = inl (OperationFailed "Unable to choose a VM name").
Proof.
  split.
  - destruct (get_vm_name_generated None "tmpl" ["tmpl-vm-1"; "tmpl-vm-2"]
                (or_introl eq_refl)) as [H _].
    apply (H 3%nat).
    + lia.
    + intros j Hj. assert (j = 1 \/ j = 2)%nat as [-> | ->] by lia.
      * vm_compute. left.
      * vm_compute. right. left.
    + intros Hin. vm_compute in Hin.
      repeat (apply elem_of_cons in Hin as [Hin|Hin]; [discriminate|]).
      inversion Hin.
  - destruct (get_vm_name_generated (Some "") "t"
                (vm_name_fmt "t" <$> seq 1 999) (or_intror eq_refl))
      as [_ [H _]].
    apply H.
    intros i Hi. apply list_elem_of_fmap. exists i. split; [reflexivity|].
    apply elem_of_seq. lia.
Defined.

(** ** C2: the wrapper around session calls *)

Lemma connection_class_check edom ecode msg :
  bool_decide (edom ∈ LibvirtConnection.EDOMAINS)
  && bool_decide (ecode ∈ LibvirtConnection.ECODES) = true
  <-> connection_class (libvirtError edom ecode msg).
Proof.
  unfold connection_class, LibvirtConnection.EDOMAINS,
    LibvirtConnection.ECODES.
  rewrite andb_true_iff, !bool_decide_eq_true, !elem_of_cons, !elem_of_nil.
  split.
  - intros [Hd Hc]. exists edom, ecode, msg. intuition.
  - intros (d & c & m & Heq & Hd & Hc). injection Heq as -> -> ->. intuition.
Qed.

Lemma connection_class_libvirt e :
  connection_class e -> is_libvirtError e = true.
Proof. intros (d & c & m & -> & _). reflexivity. Qed.

Lemma wrapMethod_ok {A} conn_id (f : M libvirt_world A) s w' a :
  f (virt s) = (w', inr a) ->
  LibvirtConnection.wrapMethod conn_id f s = (set_virt w' s, inr a).
Proof.
  intros H. unfold LibvirtConnection.wrapMethod, try_except, in_world.
  now rewrite H.
Qed.

Lemma wrapMethod_err_other {A} conn_id (f : M libvirt_world A) s w' e :
  f (virt s) = (w', inl e) -> ~ connection_class e ->
  LibvirtConnection.wrapMethod conn_id f s = (set_virt w' s, inl e).
Proof.
  intros H Hn. unfold LibvirtConnection.wrapMethod, try_except, in_world.
  rewrite H. destruct e; try reflexivity.
  destruct (bool_decide _ && bool_decide _) eqn:Hb.
  - exfalso. apply Hn. now apply connection_class_check.
  - reflexivity.
Qed.

Lemma wrapMethod_err_conn {A} conn_id (f : M libvirt_world A) s w' e :
  f (virt s) = (w', inl e) -> connection_class e ->
  LibvirtConnection.wrapMethod conn_id f s
  = (set_connections (<[conn_id := None]>)
       (set_log (fun l => (l ++ ["Connection to libvirt broken. Recycling."])%list)
          (set_virt w' s)), inl e).
Proof.
  intros H Hc. unfold LibvirtConnection.wrapMethod, try_except, in_world.
  rewrite H. destruct Hc as (d & c & m & -> & Hd & Hc).
  assert (Hb : bool_decide (d ∈ LibvirtConnection.EDOMAINS)
               && bool_decide (c ∈ LibvirtConnection.ECODES) = true).
  { apply (connection_class_check d c m). exists d, c, m. auto. }
  rewrite Hb. reflexivity.
Qed.

(** C2.  When a call made through the wrapped session raises [e]: [e] is
    what the wrapper raises; if [e] is connection-class the memoized session
    of the slot is set to disconnected ([None]); otherwise nothing of the
    model object but what the call itself did to the control plane has
    changed.  For a slot that held a session, it is disconnected afterwards
    if and only if the error is connection-class. *)
Theorem wrapMethod_invalidates_iff_connection_class {A} (conn_id : Z)
    (f : M libvirt_world A) (s : Model) (w' : libvirt_world) (e : exn) :
  f (virt s) = (w', inl e) ->
  (LibvirtConnection.wrapMethod conn_id f s).2 = inl e
  /\ (connection_class e ->
      connections (LibvirtConnection.wrapMethod conn_id f s).1
      = <[conn_id := None]> (connections s))
  /\ (~ connection_class e ->
      (LibvirtConnection.wrapMethod conn_id f s).1 = set_virt w' s)
  /\ (forall c, connections s !! conn_id = Some (Some c) ->
      (connections (LibvirtConnection.wrapMethod conn_id f s).1 !! conn_id
       = Some None <-> connection_class e)).
Proof.
  intros H.
  assert (Hdec : connection_class e \/ ~ connection_class e).
  { destruct e; try (right; intros (d & c & m & Heq & _); discriminate).
    destruct (bool_decide (edom ∈ LibvirtConnection.EDOMAINS)
              && bool_decide (ecode ∈ LibvirtConnection.ECODES)) eqn:Hb.
    - left. now apply connection_class_check.
    - right. intros Hc. apply connection_class_check in Hc. congruence. }
  destruct Hdec as [Hc | Hn].
  - rewrite (wrapMethod_err_conn conn_id f s w' e H Hc). simpl.
    repeat split; try tauto.
    intros _. apply lookup_insert_eq.
  - rewrite (wrapMethod_err_other conn_id f s w' e H Hn). simpl.
    repeat split; try tauto.
    intros Hnone. congruence.
Qed.

Lemma wrapMethod_invalidates_iff_connection_class_witness :
  (LibvirtConnection.wrapMethod 0 broken_pipe (model_on world0)).2
  = inl (libvirtError VIR_FROM_RPC VIR_ERR_SYSTEM_ERROR "broken pipe").
Proof.
  exact (proj1 (wrapMethod_invalidates_iff_connection_class 0 broken_pipe
                  (model_on world0) world0 _ eq_refl)).
Defined.

(** ** C10: operations on a name that is no VM *)

Lemma call_ok {A} (f : M libvirt_world A) s w' a :
  f (virt s) = (w', inr a) -> call f s = (set_virt w' s, inr a).
Proof. apply wrapMethod_ok. Qed.

Lemma call_read {A} (f : M libvirt_world A) s a :
  f (virt s) = (virt s, inr a) -> call f s = (s, inr a).
Proof. intros H. rewrite (call_ok f s _ a H). now rewrite set_virt_id. Qed.

Lemma not_connection_class_code edom ecode msg :
  ecode ∉ LibvirtConnection.ECODES ->
  ~ connection_class (libvirtError edom ecode msg).
Proof.
  intros Hc H. apply connection_class_check in H.
  apply andb_true_iff in H as [_ H]. apply bool_decide_eq_true in H. tauto.
Qed.

Lemma call_lookup_missing name s :
  lv_domains (virt s) !! name = None ->
  call (lookupByName name) s
  = (s, inl (libvirtError VIR_FROM_QEMU VIR_ERR_NO_DOMAIN
               ("Domain not found: " +:+ name))).
Proof.
  intros H. unfold call.
  rewrite (wrapMethod_err_other 0 (lookupByName name) s (virt s)
             (libvirtError VIR_FROM_QEMU VIR_ERR_NO_DOMAIN
                ("Domain not found: " +:+ name))).
  - now rewrite set_virt_id.
  - unfold lookupByName. now rewrite H.
  - apply not_connection_class_code. vm_compute.
    intros Hin. repeat (apply elem_of_cons in Hin as [Hin|Hin]; [discriminate|]).
    inversion Hin.
Qed.

Lemma _get_vm_missing name s :
  connected s -> lv_domains (virt s) !! name = None ->
  _get_vm name s = (s, inl (vm_not_found name)).
Proof.
  intros [c Hc] H. unfold _get_vm.
  rewrite (bind_ok _ _ s s c (connected_get s c Hc)).
  rewrite (try_err _ _ s s _ (call_lookup_missing name s H)).
  reflexivity.
Qed.

Lemma _vm_exists_missing name s :
  connected s -> lv_domains (virt s) !! name = None ->
  _vm_exists name s = (s, inr false).
Proof.
  intros Hc H. unfold _vm_exists.
  rewrite (try_err _ _ s s (vm_not_found name)); [reflexivity|].
  apply bind_err. now apply _get_vm_missing.
Qed.

(** C10.  With the session established, for a name that is not the name of
    any VM: [vm_delete] and [vm_stop] return normally and leave the whole
    state as it was; [vm_lookup] and [vm_start] raise [NotFoundError]. *)
Theorem missing_vm_delete_stop_silent (name : string) (s : Model) :
  connected s ->
  lv_domains (virt s) !! name = None ->
  vm_delete name s = (s, inr tt)
  /\ vm_stop name s = (s, inr tt)
  /\ vm_lookup name s = (s, inl (vm_not_found name))
  /\ vm_start name s = (s, inl (vm_not_found name)).
Proof.
  intros Hc H. repeat split.
  - unfold vm_delete. now rewrite (bind_ok _ _ s s false (_vm_exists_missing name s Hc H)).
  - unfold vm_stop. now rewrite (bind_ok _ _ s s false (_vm_exists_missing name s Hc H)).
  - unfold vm_lookup. apply bind_err. now apply _get_vm_missing.
  - unfold vm_start. apply bind_err. now apply _get_vm_missing.
Qed.

Lemma missing_vm_delete_stop_silent_witness :
  vm_delete "ghost" (model_on world0) = (model_on world0, inr tt)
  /\ vm_stop "ghost" (model_on world0) = (model_on world0, inr tt)
  /\ vm_lookup "ghost" (model_on world0)
     = (model_on world0, inl (vm_not_found "ghost"))
  /\ vm_start "ghost" (model_on world0)
     = (model_on world0, inl (vm_not_found "ghost")).
Proof.
  apply (missing_vm_delete_stop_silent "ghost" (model_on world0)).
  - exists 1%nat. reflexivity.
  - reflexivity.
Defined.

(** The same, when slot 0 holds no session and libvirt opens one at the
    first attempt: beyond the session [get] establishes, nothing changes. *)
Lemma conn_get_reopen s :
  ~ connected s -> lv_open_failures (virt s) = 0%nat ->
  conn_get s = (reopened s, inr (S (lv_sessions (virt s)))).
Proof.
  intros Hn H0. unfold conn_get, LibvirtConnection.get, bind, gets.
  assert (Hopen : LibvirtConnection.open_loop 4 s
                  = (set_virt (set_lv_open 0 (S (lv_sessions (virt s)))
                                 (virt s)) s,
                     inr (S (lv_sessions (virt s))))).
  { simpl. unfold try_except, in_world, libvirt_open. now rewrite H0. }
  destruct (connections s !! 0) as [[c|]|] eqn:Hc.
  - exfalso. apply Hn. now exists c.
  - rewrite Hopen. reflexivity.
  - rewrite Hopen. reflexivity.
Qed.

Lemma missing_vm_reopening (name : string) (s : Model) :
  ~ connected s -> lv_open_failures (virt s) = 0%nat ->
  lv_domains (virt s) !! name = None ->
  vm_delete name s = (reopened s, inr tt)
  /\ vm_stop name s = (reopened s, inr tt)
  /\ vm_lookup name s = (reopened s, inl (vm_not_found name))
  /\ vm_start name s = (reopened s, inl (vm_not_found name)).
Proof.
  intros Hn H0 H.
  assert (Hget : _get_vm name s = (reopened s, inl (vm_not_found name))).
  { unfold _get_vm.
    rewrite (bind_ok _ _ s (reopened s) _ (conn_get_reopen s Hn H0)).
    rewrite (try_err _ _ (reopened s) (reopened s) _
               (call_lookup_missing name (reopened s) H)).
    reflexivity. }
  assert (Hex : _vm_exists name s = (reopened s, inr false)).
  { unfold _vm_exists.
    rewrite (try_err _ _ s (reopened s) (vm_not_found name));
      [reflexivity|]. now apply bind_err. }
  repeat split.
  - unfold vm_delete. now rewrite (bind_ok _ _ s (reopened s) false Hex).
  - unfold vm_stop. now rewrite (bind_ok _ _ s (reopened s) false Hex).
  - unfold vm_lookup. now apply bind_err.
  - unfold vm_start. now apply bind_err.
Qed.

(** ** The sampler's arithmetic *)

Local Open Scope Q_scope.

Lemma py_max_spec a b :
  (b <= a /\ py_max a b = a) \/ (a < b /\ py_max a b = b).
Proof.
  unfold py_max. destruct (Qle_bool b a) eqn:H.
  - left. split; [now apply Qle_bool_iff|reflexivity].
  - right. split; [|reflexivity].
    apply Qnot_le_lt. intros Hle. apply Qle_bool_iff in Hle. congruence.
Qed.

Lemma py_min_spec a b :
  (a <= b /\ py_min a b = a) \/ (b < a /\ py_min a b = b).
Proof.
  unfold py_min. destruct (Qle_bool a b) eqn:H.
  - left. split; [now apply Qle_bool_iff|reflexivity].
  - right. split; [|reflexivity].
    apply Qnot_le_lt. intros Hle. apply Qle_bool_iff in Hle. congruence.
Qed.

(** [max(0.0, min(100.0, x))] is the clamp of [x] to [0, 100]. *)
Lemma py_clamp x : py_max 0 (py_min 100 x) == clamp 0 100 x.
Proof.
  unfold clamp.
  destruct (py_min_spec 100 x) as [[H1 ->] | [H1 ->]];
    [destruct (py_max_spec 0 100) as [[H2 ->] | [H2 ->]]
    |destruct (py_max_spec 0 x) as [[H2 ->] | [H2 ->]]];
    destruct (Qlt_le_dec x 0); try destruct (Qlt_le_dec 100 x); lra.
Qed.

Lemma py_round1_int x n : x == inject_Z n -> py_round1 x == inject_Z n.
Proof.
  intros Hx. unfold py_round1.
  assert (Hy : x * 10 == inject_Z (n * 10)).
  { rewrite Hx. rewrite inject_Z_mult. reflexivity. }
  destruct (Qle_bool 0 (x * 10)).
  - rewrite (Qfloor_comp _ (inject_Z (n * 10) + (1 # 2))) by (now rewrite Hy).
    assert (Qfloor (inject_Z (n * 10) + (1 # 2)) = (n * 10)%Z) as ->.
    { unfold Qfloor, Qplus, inject_Z. simpl.
      symmetry. apply (Z.div_unique _ _ _ 1); lia. }
    unfold Qeq, inject_Z. simpl. lia.
  - rewrite (Qceiling_comp _ (inject_Z (n * 10) - (1 # 2))) by (now rewrite Hy).
    assert (Qceiling (inject_Z (n * 10) - (1 # 2)) = (n * 10)%Z) as ->.
    { unfold Qceiling, Qfloor, Qminus, Qplus, Qopp, inject_Z. simpl.
      change (Z.pos (1 * 2)) with 2%Z.
      rewrite <- (Z.div_unique (- (n * 10 * 2 + - (1) * 1)) 2 (- (n * 10)) 1);
        lia. }
    unfold Qeq, inject_Z. simpl. lia.
Qed.

(** The new running maximum, from an integer-valued one. *)
Lemma new_peak_spec m k :
  int_valued m ->
  let m' := py_round1 (py_max m (inject_Z k)) in
  m <= m' /\ (~ m' == m <-> m < inject_Z k)
  /\ m' == py_max m (inject_Z k) /\ int_valued m'.
Proof.
  intros [n Hn] m'. subst m'.
  destruct (py_max_spec m (inject_Z k)) as [[H ->] | [H ->]].
  - pose proof (py_round1_int m n Hn) as Hr.
    repeat split; try lra. now exists n.
  - pose proof (py_round1_int (inject_Z k) k (Qeq_refl _)) as Hr.
    repeat split; try lra. now exists k.
Qed.

Local Close Scope Q_scope.

(** ** The sampler's state *)

Lemma bind_inv_ok {S A B} (c : M S A) (k : A -> M S B) s s' b :
  bind c k s = (s', inr b) ->
  exists s1 a, c s = (s1, inr a) /\ k a s1 = (s', inr b).
Proof.
  unfold bind. destruct (c s) as [s1 [e|a]]; [discriminate|]. eauto.
Qed.

Lemma lift_inv_ok {S A} (r : exn + A) (s s' : S) a :
  lift r s = (s', inr a) -> s' = s /\ r = inr a.
Proof. unfold lift. intros [= -> ->]. auto. Qed.

Lemma call_stats {A} (f : M libvirt_world A) s :
  stats (call f s).1 = stats s.
Proof.
  unfold call, LibvirtConnection.wrapMethod, try_except, in_world.
  destruct (f (virt s)) as [w [e|a]]; [|reflexivity].
  destruct e; try reflexivity.
  destruct (bool_decide _ && bool_decide _); reflexivity.
Qed.

Lemma call_stats_eq {A} (f : M libvirt_world A) s s' r :
  call f s = (s', r) -> stats s' = stats s.
Proof. intros H. pose proof (call_stats f s) as Hs. now rewrite H in Hs. Qed.

Lemma sum_io_stats devs read acc s s' r :
  (forall dev s0 s1 r0, read dev s0 = (s1, r0) -> stats s1 = stats s0) ->
  sum_io devs read acc s = (s', r) -> stats s' = stats s.
Proof.
  intros Hread. revert acc s. induction devs as [|dev devs IH]; intros acc s H.
  - simpl in H. unfold ret in H. now injection H as <- _.
  - simpl in H. unfold bind in H.
    destruct (read dev s) as [s1 [e|io]] eqn:Hd.
    + injection H as <- _. eauto.
    + apply IH in H. rewrite H. eauto.
Qed.

Lemma stats_of_inv vm_uuid s s' d :
  stats_of vm_uuid s = (s', inr d) -> s' = s /\ stats s !! vm_uuid = Some d.
Proof.
  unfold stats_of, bind, gets. destruct (stats s !! vm_uuid).
  - unfold ret. intros [= <- <-]. auto.
  - discriminate.
Qed.

Lemma stats_update_inv vm_uuid upd s s' :
  stats_update vm_uuid upd s = (s', inr tt) ->
  exists d, stats s !! vm_uuid = Some d
            /\ s' = set_stats (<[vm_uuid := upd d]>) s.
Proof.
  unfold stats_update. intros H.
  apply bind_inv_ok in H as (s1 & d & H1 & H).
  apply stats_of_inv in H1 as [-> H1]. exists d. split; [exact H1|].
  unfold modify in H. now injection H as <-.
Qed.

(** What a completed [_get_network_io_rate] has stored. *)
Lemma net_step_inv vm_uuid dom seconds s s' :
  _get_network_io_rate vm_uuid dom seconds s = (s', inr tt) ->
  exists st rate rx tx,
    stats s !! vm_uuid = Some st
    /\ stats s' !! vm_uuid
       = Some (<["net_io" := rate]>
                 (<["max_net_io" :=
                      py_round1 (py_max (default 100%Q (st !! "max_net_io"))
                                   (inject_Z (py_int rate)))]>
                    (<["netRxKB" := rx]> (<["netTxKB" := tx]> st)))).
Proof.
  unfold _get_network_io_rate. intros H.
  apply bind_inv_ok in H as (s1 & st & H1 & H).
  apply stats_of_inv in H1 as [-> Hst].
  apply bind_inv_ok in H as (s2 & tree & H2 & H).
  apply call_stats_eq in H2.
  apply bind_inv_ok in H as (s3 & bytes & H3 & H).
  apply sum_io_stats in H3; [|intros; eapply call_stats_eq; eauto].
  apply bind_inv_ok in H as (s4 & rx_stats & H4 & H).
  apply lift_inv_ok in H4 as [-> _].
  apply bind_inv_ok in H as (s5 & tx_stats & H5 & H).
  apply lift_inv_ok in H5 as [-> _].
  apply stats_update_inv in H as (d & Hd & ->).
  assert (d = st) as -> by congruence.
  do 4 eexists. split; [exact Hst|]. simpl. apply lookup_insert_eq.
Qed.

(** What a completed [_get_disk_io_rate] has stored. *)
Lemma disk_step_inv vm_uuid dom seconds s s' :
  _get_disk_io_rate vm_uuid dom seconds s = (s', inr tt) ->
  exists st rate rd wr,
    stats s !! vm_uuid = Some st
    /\ stats s' !! vm_uuid
       = Some (<["disk_io" := rate]>
                 (<["max_disk_io" :=
                      py_round1 (py_max (default 100%Q (st !! "max_disk_io"))
                                   (inject_Z (py_int rate)))]>
                    (<["diskRdKB" := rd]> (<["diskWrKB" := wr]> st)))).
Proof.
  unfold _get_disk_io_rate. intros H.
  apply bind_inv_ok in H as (s1 & st & H1 & H).
  apply stats_of_inv in H1 as [-> Hst].
  apply bind_inv_ok in H as (s2 & tree & H2 & H).
  apply call_stats_eq in H2.
  apply bind_inv_ok in H as (s3 & bytes & H3 & H).
  apply sum_io_stats in H3; [|intros; eapply call_stats_eq; eauto].
  apply bind_inv_ok in H as (s4 & rd_stats & H4 & H).
  apply lift_inv_ok in H4 as [-> _].
  apply bind_inv_ok in H as (s5 & wr_stats & H5 & H).
  apply lift_inv_ok in H5 as [-> _].
  apply stats_update_inv in H as (d & Hd & ->).
  assert (d = st) as -> by congruence.
  do 4 eexists. split; [exact Hst|]. simpl. apply lookup_insert_eq.
Qed.

(** ** C5: the rate example *)

(** C5.  With the window left at t=0 by counters rx=1000, tx=2000 and
    counters rx=3000, tx=5000 read at t=10, the network sampling step
    completes and stores the rate
    ((3000-1000)/1000 + (5000-2000)/1000)/10 = 0.5 KB/s; the whole
    per-guest sample of that VM stores the same rate, and the same
    operations in binary64 arithmetic give exactly 0.5. *)
Theorem network_rate_example :
  (_get_network_io_rate "u-vm" vm_handle 10 rate_example).2 = inr tt
  /\ (rate_of "net_io"
        (_get_network_io_rate "u-vm" vm_handle 10 rate_example).1 "u-vm"
      == ((3000 - 1000) / 1000 + (5000 - 2000) / 1000) / 10)%Q
  /\ (rate_of "net_io"
        (_get_network_io_rate "u-vm" vm_handle 10 rate_example).1 "u-vm"
      == 1 # 2)%Q
  /\ (sample_guest "vm" rate_example).2 = inr tt
  /\ (rate_of "net_io" (sample_guest "vm" rate_example).1 "u-vm" == 1 # 2)%Q
  /\ net_rate_binary64 1 2 3000 5000 10 = 0.5%float.
Proof.
  repeat split; vm_compute; reflexivity.
Qed.

(** ** C6: the running maximum *)

Lemma peak_after_insert key v (s' : Model) vm_uuid d :
  stats s' !! vm_uuid = Some d -> d !! key = Some v ->
  peak key s' vm_uuid = v.
Proof. intros H1 H2. unfold peak, window. rewrite H1. simpl. now rewrite H2. Qed.

(** A maximum that was never stored, as after the window is reset, reads
    as the integer 100. *)
Lemma peak_unset_int key s vm_uuid :
  window s vm_uuid !! key = None -> int_valued (peak key s vm_uuid).
Proof. intros H. unfold peak. rewrite H. now exists 100. Qed.

Lemma peak_other_key key key' v (d : gmap string Q) :
  key <> key' -> <[key' := v]> d !! key = d !! key.
Proof. intros H. now apply lookup_insert_ne. Qed.

(** A network step leaves the disk maximum alone, and conversely. *)
Lemma net_step_disk_peak vm_uuid dom seconds s s' :
  _get_network_io_rate vm_uuid dom seconds s = (s', inr tt) ->
  window s' vm_uuid !! "max_disk_io" = window s vm_uuid !! "max_disk_io".
Proof.
  intros H. apply net_step_inv in H as (st & rate & rx & tx & Hst & Hst').
  unfold window. rewrite Hst, Hst'. simpl.
  now rewrite !lookup_insert_ne by done.
Qed.

Lemma disk_step_net_peak vm_uuid dom seconds s s' :
  _get_disk_io_rate vm_uuid dom seconds s = (s', inr tt) ->
  window s' vm_uuid !! "max_net_io" = window s vm_uuid !! "max_net_io".
Proof.
  intros H. apply disk_step_inv in H as (st & rate & rx & tx & Hst & Hst').
  unfold window. rewrite Hst, Hst'. simpl.
  now rewrite !lookup_insert_ne by done.
Qed.

Lemma net_step_peak vm_uuid dom seconds s s' :
  _get_network_io_rate vm_uuid dom seconds s = (s', inr tt) ->
  peak "max_net_io" s' vm_uuid
  = py_round1 (py_max (peak "max_net_io" s vm_uuid)
                 (inject_Z (py_int (rate_of "net_io" s' vm_uuid)))).
Proof.
  intros H. apply net_step_inv in H as (st & rate & rx & tx & Hst & Hst').
  unfold peak, rate_of, window. rewrite Hst, Hst'. simpl.
  rewrite lookup_insert_eq. rewrite lookup_insert_ne by done.
  now rewrite lookup_insert_eq.
Qed.

Lemma disk_step_peak vm_uuid dom seconds s s' :
  _get_disk_io_rate vm_uuid dom seconds s = (s', inr tt) ->
  peak "max_disk_io" s' vm_uuid
  = py_round1 (py_max (peak "max_disk_io" s vm_uuid)
                 (inject_Z (py_int (rate_of "disk_io" s' vm_uuid)))).
Proof.
  intros H. apply disk_step_inv in H as (st & rate & rx & tx & Hst & Hst').
  unfold peak, rate_of, window. rewrite Hst, Hst'. simpl.
  rewrite lookup_insert_eq. rewrite lookup_insert_ne by done.
  now rewrite lookup_insert_eq.
Qed.

(** Whole-number maxima stay whole and do not decrease, however many
    steps the window goes through. *)
Lemma running_max_run vm_uuid s s' :
  rtc (window_step vm_uuid) s s' ->
  int_valued (peak "max_net_io" s vm_uuid) ->
  int_valued (peak "max_disk_io" s vm_uuid) ->
  (peak "max_net_io" s vm_uuid <= peak "max_net_io" s' vm_uuid)%Q
  /\ (peak "max_disk_io" s vm_uuid <= peak "max_disk_io" s' vm_uuid)%Q
  /\ int_valued (peak "max_net_io" s' vm_uuid)
  /\ int_valued (peak "max_disk_io" s' vm_uuid).
Proof.
  induction 1 as [s | s s1 s' Hstep _ IH]; intros Hn Hd.
  - repeat split; auto; apply Qle_refl.
  - assert (Hone : (peak "max_net_io" s vm_uuid
                     <= peak "max_net_io" s1 vm_uuid)%Q
                   /\ (peak "max_disk_io" s vm_uuid
                       <= peak "max_disk_io" s1 vm_uuid)%Q
                   /\ int_valued (peak "max_net_io" s1 vm_uuid)
                   /\ int_valued (peak "max_disk_io" s1 vm_uuid)).
    { destruct Hstep as [dom seconds s s1 H | dom seconds s s1 H
                        | s s1 H1 H2].
      - pose proof (net_step_disk_peak _ _ _ _ _ H) as Hdisk.
        rewrite (net_step_peak _ _ _ _ _ H).
        destruct (new_peak_spec _ (py_int (rate_of "net_io" s1 vm_uuid)) Hn)
          as (Hle & _ & _ & Hint).
        assert (Hpd : peak "max_disk_io" s1 vm_uuid
                      = peak "max_disk_io" s vm_uuid)
          by (unfold peak; now rewrite Hdisk).
        rewrite Hpd. repeat split; auto. apply Qle_refl.
      - pose proof (disk_step_net_peak _ _ _ _ _ H) as Hnet.
        rewrite (disk_step_peak _ _ _ _ _ H).
        destruct (new_peak_spec _ (py_int (rate_of "disk_io" s1 vm_uuid)) Hd)
          as (Hle & _ & _ & Hint).
        assert (Hpn : peak "max_net_io" s1 vm_uuid
                      = peak "max_net_io" s vm_uuid)
          by (unfold peak; now rewrite Hnet).
        rewrite Hpn. repeat split; auto. apply Qle_refl.
      - unfold peak in *. rewrite H1, H2. repeat split; auto; apply Qle_refl. }
    destruct Hone as (L1 & L2 & I1 & I2).
    destruct (IH I1 I2) as (L1' & L2' & I1' & I2').
    repeat split; auto; eapply Qle_trans; eauto.
Qed.

Lemma running_max_counterexample :
  (* a rate above the maximum that does not move it *)
  (_get_network_io_rate "u-vm" vm_handle 10 half_over_peak).2 = inr tt
  /\ ~ ((peak "max_net_io" half_over_peak "u-vm"
         < rate_of "net_io"
             (_get_network_io_rate "u-vm" vm_handle 10 half_over_peak).1
             "u-vm")%Q
        <-> ~ (peak "max_net_io"
                 (_get_network_io_rate "u-vm" vm_handle 10 half_over_peak).1
                 "u-vm"
               == peak "max_net_io" half_over_peak "u-vm")%Q)
  (* a sample of the VM while it is shut off lowers the maximum *)
  /\ (sample_guest "vm" stopped_with_peak).2 = inr tt
  /\ (peak "max_net_io" (sample_guest "vm" stopped_with_peak).1 "u-vm"
      < peak "max_net_io" stopped_with_peak "u-vm")%Q.
Proof.
  split; [vm_compute; reflexivity|]. split.
  - intros [H _]. apply H; vm_compute; reflexivity.
  - split; vm_compute; reflexivity.
Qed.

(** C6 (amended).  Over a completed network or disk sampling step whose
    prior running maximum is a whole number (as the default 100 and every
    maximum these steps store are): the stored maximum does not decrease; it
    changes exactly when the integer part of the newly computed rate exceeds
    the prior maximum; and it is a whole number again.  Hence over any run
    of such steps, interleaved with anything that leaves the stored maxima
    alone, neither maximum decreases.  Sampling the VM while it is not
    running is not such a step: it clears the window. *)
Theorem running_max_step (vm_uuid : string) (dom : virDomain) (seconds : Q)
    (s s' : Model) :
  (_get_network_io_rate vm_uuid dom seconds s = (s', inr tt) ->
   int_valued (peak "max_net_io" s vm_uuid) ->
   (peak "max_net_io" s vm_uuid <= peak "max_net_io" s' vm_uuid)%Q
   /\ (~ (peak "max_net_io" s' vm_uuid == peak "max_net_io" s vm_uuid)%Q
       <-> (peak "max_net_io" s vm_uuid
            < inject_Z (py_int (rate_of "net_io" s' vm_uuid)))%Q)
   /\ int_valued (peak "max_net_io" s' vm_uuid))
  /\ (_get_disk_io_rate vm_uuid dom seconds s = (s', inr tt) ->
      int_valued (peak "max_disk_io" s vm_uuid) ->
      (peak "max_disk_io" s vm_uuid <= peak "max_disk_io" s' vm_uuid)%Q
      /\ (~ (peak "max_disk_io" s' vm_uuid
             == peak "max_disk_io" s vm_uuid)%Q
          <-> (peak "max_disk_io" s vm_uuid
               < inject_Z (py_int (rate_of "disk_io" s' vm_uuid)))%Q)
      /\ int_valued (peak "max_disk_io" s' vm_uuid))
  /\ (rtc (window_step vm_uuid) s s' ->
      int_valued (peak "max_net_io" s vm_uuid) ->
      int_valued (peak "max_disk_io" s vm_uuid) ->
      (peak "max_net_io" s vm_uuid <= peak "max_net_io" s' vm_uuid)%Q
      /\ (peak "max_disk_io" s vm_uuid <= peak "max_disk_io" s' vm_uuid)%Q).
Proof.
  split; [|split].
  - intros H Hint. rewrite (net_step_peak _ _ _ _ _ H).
    destruct (new_peak_spec _ (py_int (rate_of "net_io" s' vm_uuid)) Hint)
      as (H1 & H2 & _ & H4).
    auto.
  - intros H Hint. rewrite (disk_step_peak _ _ _ _ _ H).
    destruct (new_peak_spec _ (py_int (rate_of "disk_io" s' vm_uuid)) Hint)
      as (H1 & H2 & _ & H4).
    auto.
  - intros Hrun Hn Hd.
    destruct (running_max_run vm_uuid s s' Hrun Hn Hd) as (L1 & L2 & _).
    auto.
Qed.

Lemma running_max_step_witness :
  (peak "max_net_io" rate_example "u-vm"
   <= peak "max_net_io"
        (_get_network_io_rate "u-vm" vm_handle 10 rate_example).1 "u-vm")%Q
  /\ (peak "max_disk_io" rate_example "u-vm"
      <= peak "max_disk_io"
           (_get_disk_io_rate "u-vm" vm_handle 10 rate_example).1 "u-vm")%Q
  /\ (peak "max_net_io" rate_example "u-vm"
      <= peak "max_net_io"
           (_get_network_io_rate "u-vm" vm_handle 10 rate_example).1 "u-vm")%Q.
Proof.
  assert (Hnet : _get_network_io_rate "u-vm" vm_handle 10 rate_example
                 = ((_get_network_io_rate "u-vm" vm_handle 10 rate_example).1,
                    inr tt))
    by (vm_compute; reflexivity).
  assert (Hdisk : _get_disk_io_rate "u-vm" vm_handle 10 rate_example
                  = ((_get_disk_io_rate "u-vm" vm_handle 10 rate_example).1,
                     inr tt))
    by (vm_compute; reflexivity).
  assert (In : int_valued (peak "max_net_io" rate_example "u-vm"))
    by (exists 100; vm_compute; reflexivity).
  assert (Id : int_valued (peak "max_disk_io" rate_example "u-vm"))
    by (exists 100; vm_compute; reflexivity).
  split; [|split].
  - exact (proj1 (proj1 (running_max_step "u-vm" vm_handle 10 rate_example
                           _) Hnet In)).
  - exact (proj1 (proj1 (proj2 (running_max_step "u-vm" vm_handle 10
                                  rate_example _)) Hdisk Id)).
  - refine (proj1 (proj2 (proj2 (running_max_step "u-vm" vm_handle 10
                                   rate_example _)) _ In Id)).
    apply rtc_once. exact (step_net "u-vm" vm_handle 10 _ _ Hnet).
Defined.

(** ** C4: the CPU percentage *)

Lemma py_div_ok a b : ~ (b == 0)%Q -> py_div a b = inr (a / b)%Q.
Proof.
  intros H. unfold py_div. destruct (Qeq_bool b 0) eqn:Hb; [|reflexivity].
  apply Qeq_bool_iff in Hb. contradiction.
Qed.

Lemma py_div_zero a b : (b == 0)%Q -> py_div a b = inl ZeroDivisionError.
Proof.
  intros H. unfold py_div. apply Qeq_bool_iff in H. now rewrite H.
Qed.

Lemma stats_of_ok vm_uuid s d :
  stats s !! vm_uuid = Some d -> stats_of vm_uuid s = (s, inr d).
Proof. intros H. unfold stats_of, bind, gets. now rewrite H. Qed.

Lemma inject_Z_nonzero z : z <> 0 -> ~ (inject_Z z == 0)%Q.
Proof. intros H. unfold Qeq, inject_Z. simpl. lia. Qed.

Lemma cpu_percentage_counterexample :
  (* the stored figure is not the spec's formula *)
  (_get_percentage_cpu_usage "u-vm" cpu_example_info 10 cpu_example).2 = inr tt
  /\ ~ (rate_of "cpu"
          (_get_percentage_cpu_usage "u-vm" cpu_example_info 10 cpu_example).1
          "u-vm"
        == spec_cpu_percent 1000000000 10 1)%Q
  (* and a zero vcpu-count is not floored to 0: it raises, in the step and
     in the whole sample of such a guest *)
  /\ _get_percentage_cpu_usage "u-vm" no_vcpu_info 10 cpu_example
     = (cpu_example, inl ZeroDivisionError)
  /\ (sample_guest "vm" (sampling 10 (Some ∅) 0 1000000000 0 0)).2
     = inl ZeroDivisionError.
Proof.
  split; [vm_compute; reflexivity|].
  split; [vm_compute; discriminate|].
  split; vm_compute; reflexivity.
Qed.

(** C4 (amended).  From a sample window [st], with [delta] the CPU time
    since the stored one: when the elapsed time and the vcpu-count are both
    non-zero the step completes and stores
    clamp(0, 100, (delta * 100 / (seconds * 1e9)) / vcpus); when the elapsed
    time or the vcpu-count is zero it raises [ZeroDivisionError] and stores
    nothing. *)
Theorem cpu_percentage_step (vm_uuid : string) (info : dominfo) (seconds : Q)
    (s : Model) (st : gmap string Q) :
  stats s !! vm_uuid = Some st ->
  (~ (seconds == 0)%Q -> i_vcpus info <> 0 ->
   exists s',
     _get_percentage_cpu_usage vm_uuid info seconds s = (s', inr tt)
     /\ (rate_of "cpu" s' vm_uuid
         == clamp 0 100
              (((inject_Z (i_cputime info) - default 0 (st !! "cputime"))
                * 100 / (seconds * 1000000000))
               / inject_Z (i_vcpus info)))%Q)
  /\ ((seconds == 0)%Q \/ i_vcpus info = 0 ->
      _get_percentage_cpu_usage vm_uuid info seconds s
      = (s, inl ZeroDivisionError)).
Proof.
  intros Hst. split.
  - intros Hsec Hcpu. eexists. split.
    + unfold _get_percentage_cpu_usage.
      rewrite (bind_ok _ _ s s st (stats_of_ok _ _ _ Hst)).
      rewrite py_div_ok by (intros H; apply Hsec; lra).
      unfold lift at 1, bind at 1.
      rewrite py_div_ok by (now apply inject_Z_nonzero).
      unfold lift at 1, bind at 1.
      unfold stats_update.
      rewrite (bind_ok _ _ s s st (stats_of_ok _ _ _ Hst)).
      reflexivity.
    + unfold rate_of, window. simpl. rewrite lookup_insert_eq. simpl.
      rewrite lookup_insert_ne by done. rewrite lookup_insert_eq. simpl.
      rewrite py_clamp.
      assert (Heq : ((inject_Z (i_cputime info) - default 0 (st !! "cputime"))
                     * 100 / (seconds * 1000 * 1000 * 1000)
                     == (inject_Z (i_cputime info) - default 0 (st !! "cputime"))
                        * 100 / (seconds * 1000000000))%Q).
      { apply Qmult_comp; [reflexivity|]. apply Qinv_comp. ring. }
      unfold clamp.
      repeat match goal with |- context [Qlt_le_dec ?a ?b] =>
        destruct (Qlt_le_dec a b) end;
        try reflexivity;
        try (rewrite Heq in *; reflexivity);
        exfalso; rewrite ?Heq in *; lra.
  - intros Hz. unfold _get_percentage_cpu_usage.
    rewrite (bind_ok _ _ s s st (stats_of_ok _ _ _ Hst)).
    destruct (Qeq_bool (seconds * 1000 * 1000 * 1000) 0) eqn:Hb.
    + unfold py_div at 1. rewrite Hb. reflexivity.
    + destruct Hz as [Hz | Hz].
      * exfalso. apply Qeq_bool_neq in Hb. apply Hb. rewrite Hz. ring.
      * unfold py_div at 1. rewrite Hb. unfold lift at 1, bind at 1.
        rewrite Hz. reflexivity.
Qed.

Lemma cpu_percentage_step_witness :
  (exists s',
     _get_percentage_cpu_usage "u-vm" cpu_example_info 10 cpu_example
     = (s', inr tt)
     /\ (rate_of "cpu" s' "u-vm"
         == clamp 0 100
              (((inject_Z 1000000000 - default 0 ((∅ : gmap string Q) !! "cputime"))
                * 100 / (10 * 1000000000))
               / inject_Z 1))%Q)
  /\ _get_percentage_cpu_usage "u-vm" no_vcpu_info 10 cpu_example
     = (cpu_example, inl ZeroDivisionError).
Proof.
  split.
  - apply (proj1 (cpu_percentage_step "u-vm" cpu_example_info 10 cpu_example
                    ∅ eq_refl)).
    + vm_compute. discriminate.
    + vm_compute. discriminate.
  - apply (proj2 (cpu_percentage_step "u-vm" no_vcpu_info 10 cpu_example
                    ∅ eq_refl)).
    right. reflexivity.
Defined.

(** ** C7: a failing guest within a tick *)

Lemma guest_tick_counterexample :
  (* a VM of the list that has disappeared: "b" is never reached *)
  _update_guests_stats_loop ["gone"; "b"] two_guests
  = (two_guests, inl (vm_not_found "gone"))
  /\ stats (_update_guests_stats_loop ["gone"; "b"] two_guests).1 !! "u-b"
     = None
  (* a whole tick whose first VM cannot be sampled *)
  /\ (_update_guests_stats suspended_first).2 = inl (KeyError "7")
  /\ stats (_update_guests_stats suspended_first).1 !! "u-b" = None
  (* although "b" on its own is sampled *)
  /\ (sample_guest "b" two_guests).2 = inr tt
  /\ window (sample_guest "b" two_guests).1 "u-b" !! "timestamp"
     = Some 10%Q.
Proof.
  repeat split; vm_compute; reflexivity.
Qed.

(** C7 (amended).  In a per-guest tick over the list
    [before ++ name :: after], if the VMs of [before] are sampled and
    sampling [name] raises [e], the tick ends there: it raises [e] in the
    state the failed sample left, whatever [after] holds.  Nothing in
    [_update_guests_stats] catches the failure. *)
Theorem guest_tick_stops_at_failure (before after : list string)
    (name : string) (s s0 s1 s' : Model) (e : exn) :
  vms_get_list s = (s0, inr (before ++ name :: after)%list) ->
  _update_guests_stats_loop before s0 = (s1, inr tt) ->
  sample_guest name s1 = (s', inl e) ->
  _update_guests_stats s = (s', inl e)
  /\ _update_guests_stats_loop (before ++ name :: after) s0 = (s', inl e)
  /\ forall after', _update_guests_stats_loop (before ++ name :: after') s0
                    = (s', inl e).
Proof.
  intros Hlist Hbefore Hfail.
  assert (Hloop : forall l, _update_guests_stats_loop (before ++ name :: l) s0
                            = (s', inl e)).
  { intros l. unfold _update_guests_stats_loop in *.
    now apply (for_each_app_err sample_guest before name l s0 s1 s' e). }
  repeat split; auto.
  unfold _update_guests_stats. rewrite (bind_ok _ _ _ _ _ Hlist). apply Hloop.
Qed.

Lemma guest_tick_stops_at_failure_witness :
  _update_guests_stats suspended_first
  = (suspended_first, inl (KeyError "7")).
Proof.
  apply (guest_tick_stops_at_failure [] ["b"] "a" suspended_first
           suspended_first suspended_first suspended_first (KeyError "7")).
  - vm_compute. reflexivity.
  - reflexivity.
  - vm_compute. reflexivity.
Defined.

(** ** Calls, seen from the control plane *)

(** A call does to the control plane what the libvirt method does, returns
    what it returns, and beyond that can only drop a session and log. *)
Lemma call_run {A} (f : M libvirt_world A) s :
  exists s', call f s = (s', (f (virt s)).2)
             /\ virt s' = (f (virt s)).1
             /\ same_beyond_session s s'.
Proof.
  unfold call, LibvirtConnection.wrapMethod, try_except, in_world,
    same_beyond_session.
  destruct (f (virt s)) as [w [e|a]]; simpl.
  - destruct e; try (eexists; repeat split; reflexivity).
    destruct (bool_decide _ && bool_decide _);
      eexists; repeat split; reflexivity.
  - eexists; repeat split; reflexivity.
Qed.

Lemma _get_vm_ok name s d :
  connected s -> lv_domains (virt s) !! name = Some d ->
  _get_vm name s
  = (s, inr {| h_name := name; h_uuid := x_uuid (d_xml d) |}).
Proof.
  intros [c Hc] H. unfold _get_vm.
  rewrite (bind_ok _ _ s s c (connected_get s c Hc)).
  apply try_ok. apply call_read. unfold lookupByName. now rewrite H.
Qed.

Lemma call_on_domain_read {A} (dom : virDomain) (g : domain -> A) s d :
  lv_domains (virt s) !! h_name dom = Some d ->
  call (on_domain dom (fun d => ret (g d))) s = (s, inr (g d)).
Proof. intros H. apply call_read. unfold on_domain. now rewrite H. Qed.

(** Sampling a VM that is not running clears its window. *)
Lemma sample_guest_not_running name s d st :
  connected s ->
  lv_domains (virt s) !! name = Some d ->
  dom_state_map !! d_state d = Some st -> st <> "running" ->
  sample_guest name s
  = (set_stats (<[x_uuid (d_xml d) := ∅]>) s, inr tt).
Proof.
  intros Hc Hd Hst Hne. unfold sample_guest.
  rewrite (bind_ok _ _ s s _ (_get_vm_ok name s d Hc Hd)).
  assert (Hinfo : call (dom_info {| h_name := name;
                                    h_uuid := x_uuid (d_xml d) |}) s
                  = (s, inr {| i_state := d_state d;
                               i_memory := x_memory (d_xml d);
                               i_vcpus := x_vcpus (d_xml d);
                               i_cputime := d_cputime d |})).
  { apply call_read. unfold dom_info, on_domain. simpl. now rewrite Hd. }
  rewrite (bind_ok _ _ s s _ Hinfo). simpl i_state.
  unfold dom_state at 1. rewrite Hst. unfold bind at 1, ret at 1.
  now rewrite bool_decide_eq_false_2.
Qed.

(** ** C8: renaming a VM *)

Lemma static_update_new_xml (old : domain_xml) (params : gmap string string) :
  map_fold (fun key val xml =>
              match VM_STATIC_UPDATE_PARAMS !! key with
              | Some xpath => xml_item_update xml xpath val
              | None => xml
              end) old params
  = match params !! "name" with
    | Some v => set_x_name v old
    | None => old
    end.
Proof.
  apply (map_fold_weak_ind (fun r (m : gmap string string) =>
           r = match m !! "name" with
               | Some v => set_x_name v old
               | None => old
               end)).
  - reflexivity.
  - intros i x m r Hi ->. unfold VM_STATIC_UPDATE_PARAMS.
    destruct (decide (i = "name")) as [-> | Hne].
    + rewrite lookup_singleton_eq, lookup_insert_eq, Hi. reflexivity.
    + rewrite lookup_singleton_ne by congruence.
      now rewrite lookup_insert_ne by congruence.
Qed.

Lemma vm_update_counterexample :
  (vm_update "a" {["name" := "c"]} two_guests).2
  = inl (InvalidParameter "vm name can just updated when vm shutoff")
  /\ forall msg, (vm_update "a" {["name" := "c"]} two_guests).2
                 <> inl (InvalidOperation msg).
Proof.
  assert (H : (vm_update "a" {["name" := "c"]} two_guests).2
              = inl (InvalidParameter
                       "vm name can just updated when vm shutoff")).
  { vm_compute. reflexivity. }
  split; [exact H|]. intros msg. rewrite H. discriminate.
Qed.

(** C8 (amended).  With the session established and [d] the VM of name
    [name], for a request that sets the name to [new]:
    - if the VM is running, [vm_update] raises [InvalidParameter] and
      changes nothing;
    - if the VM is shut off, the VM is undefined and the renamed descriptor
      defined: when the new name is free and libvirt accepts the
      descriptor, [name] is gone and [new] is defined with it;
    - when libvirt refuses it with message [msg] but accepts the prior
      descriptor, the prior descriptor is defined again under [name] and
      [OperationFailed msg] is raised. *)
Theorem vm_update_rename (name new : string) (params : gmap string string)
    (s : Model) (d : domain) :
  connected s ->
  lv_domains (virt s) !! name = Some d ->
  x_name (d_xml d) = name ->
  params !! "name" = Some new ->
  (d_state d = 1%nat -> vm_update name params s = (s, inl rename_refused))
  /\ (d_state d = 5%nat ->
      lv_domains (virt s) !! new = None ->
      lv_refuse_domain (virt s) (set_x_name new (d_xml d)) = None ->
      exists s',
        vm_update name params s = (s', inr new)
        /\ lv_domains (virt s')
           = <[new := fresh_domain (set_x_name new (d_xml d))]>
               (delete name (lv_domains (virt s))))
  /\ (forall edom ecode msg,
      d_state d = 5%nat ->
      lv_refuse_domain (virt s) (set_x_name new (d_xml d))
      = Some (edom, ecode, msg) ->
      lv_refuse_domain (virt s) (d_xml d) = None ->
      exists s',
        vm_update name params s = (s', inl (OperationFailed msg))
        /\ lv_domains (virt s')
           = <[name := fresh_domain (d_xml d)]> (lv_domains (virt s))).
Proof.
  intros Hconn Hd Hname Hnew.
  pose (dom := {| h_name := name; h_uuid := x_uuid (d_xml d) |}).
  assert (Hinfo : call (dom_info dom) s
                  = (s, inr {| i_state := d_state d;
                               i_memory := x_memory (d_xml d);
                               i_vcpus := x_vcpus (d_xml d);
                               i_cputime := d_cputime d |})).
  { apply call_read. unfold dom_info, on_domain. simpl. now rewrite Hd. }
  assert (Hxml : call (dom_XMLDesc dom) s = (s, inr (d_xml d))).
  { apply call_read. unfold dom_XMLDesc, on_domain. simpl. now rewrite Hd. }
  assert (Hget : _get_vm name s = (s, inr dom))
    by (now apply _get_vm_ok).
  assert (Hprefix : forall st,
            dom_state_map !! d_state d = Some st ->
            _static_vm_update dom params s
            = (let* conn :=
                 try_except
                   ((if bool_decide (st = "running")
                     then raise rename_refused
                     else call (dom_undefine dom)) ;;
                    conn_get)
                   (fun e => if is_libvirtError e
                             then raise (UnboundLocalError "conn")
                             else raise e) in
               try_except (call (defineXML (set_x_name new (d_xml d))))
                 (fun e =>
                    if is_libvirtError e then
                      let* dom' := call (defineXML (d_xml d)) in
                      raise (OperationFailed (get_error_message e))
                    else raise e)) s).
  { intros st Hst. unfold _static_vm_update.
    rewrite (bind_ok _ _ s s _ Hinfo). simpl i_state.
    unfold dom_state at 1. rewrite Hst.
    unfold bind at 1, ret at 1.
    rewrite (bind_ok _ _ s s _ Hxml).
    rewrite static_update_new_xml, Hnew. reflexivity. }
  unfold vm_update. rewrite (bind_ok _ _ s s dom Hget).
  destruct Hconn as [c Hc].
  pose (s2 := set_virt (set_lv_domains (delete name) (virt s)) s).
  assert (Hundef : call (dom_undefine dom) s = (s2, inr tt)).
  { apply call_ok. unfold dom_undefine, on_domain. simpl. now rewrite Hd. }
  assert (Hget2 : conn_get s2 = (s2, inr c)) by (now apply connected_get).
  assert (Hstage : try_except
                     ((if bool_decide ("shutoff" = "running")
                       then raise rename_refused
                       else call (dom_undefine dom)) ;; conn_get)
                     (fun e => if is_libvirtError e
                               then raise (UnboundLocalError "conn")
                               else raise e) s
                   = (s2, inr c)).
  { apply try_ok. simpl. rewrite (bind_ok _ _ s s2 tt Hundef). exact Hget2. }
  split; [|split].
  - intros Hrun. apply bind_err.
    rewrite (Hprefix "running") by (now rewrite Hrun). reflexivity.
  - intros Hoff Hfree Hacc.
    specialize (Hprefix "shutoff"). rewrite Hoff in Hprefix.
    specialize (Hprefix eq_refl).
    destruct (call_run (defineXML (set_x_name new (d_xml d))) s2)
      as (s3 & Hcall & Hvirt & _).
    assert (Hdef : defineXML (set_x_name new (d_xml d)) (virt s2)
                   = (set_lv_domains
                        (<[new := fresh_domain (set_x_name new (d_xml d))]>)
                        (virt s2),
                      inr {| h_name := new; h_uuid := x_uuid (d_xml d) |})).
    { unfold defineXML. simpl. rewrite Hacc.
      assert (new <> name) by congruence.
      rewrite lookup_delete_ne by congruence. now rewrite Hfree. }
    rewrite Hdef in Hcall, Hvirt. simpl in Hcall, Hvirt.
    exists s3. split; [|now rewrite Hvirt].
    rewrite (bind_ok _ _ s s3 {| h_name := new; h_uuid := x_uuid (d_xml d) |});
      [reflexivity|].
    rewrite Hprefix. rewrite (bind_ok _ _ s s2 c Hstage). now apply try_ok.
  - intros edom ecode msg Hoff Hrefuse Hold.
    specialize (Hprefix "shutoff"). rewrite Hoff in Hprefix.
    specialize (Hprefix eq_refl).
    destruct (call_run (defineXML (set_x_name new (d_xml d))) s2)
      as (s3 & Hcall & Hvirt & _).
    assert (Hdef : defineXML (set_x_name new (d_xml d)) (virt s2)
                   = (virt s2, inl (libvirtError edom ecode msg))).
    { unfold defineXML. simpl. now rewrite Hrefuse. }
    rewrite Hdef in Hcall, Hvirt. simpl in Hcall, Hvirt.
    destruct (call_run (defineXML (d_xml d)) s3) as (s4 & Hcall4 & Hvirt4 & _).
    assert (Hdef4 : defineXML (d_xml d) (virt s3)
                    = (set_lv_domains (<[name := fresh_domain (d_xml d)]>)
                         (virt s3),
                       inr {| h_name := name; h_uuid := x_uuid (d_xml d) |})).
    { unfold defineXML. rewrite Hvirt. simpl. rewrite Hold, Hname.
      now rewrite lookup_delete_eq. }
    rewrite Hdef4 in Hcall4, Hvirt4. simpl in Hcall4, Hvirt4.
    exists s4. split.
    + apply bind_err. rewrite Hprefix. rewrite (bind_ok _ _ s s2 c Hstage).
      rewrite (try_err _ _ s2 s3 _ Hcall). simpl.
      now rewrite (bind_ok _ _ s3 s4 _ Hcall4).
    + rewrite Hvirt4, Hvirt. simpl. apply insert_delete_eq.
Qed.

Lemma vm_update_rename_witness :
  vm_update "a" {["name" := "c"]} two_guests = (two_guests, inl rename_refused)
  /\ (exists s',
        vm_update "a" {["name" := "c"]}
          (model_on (with_guests [guest "a" "u-a" 5 1 0 0 0] world0))
        = (s', inr "c")
        /\ lv_domains (virt s')
           = <["c" := fresh_domain
                        (set_x_name "c" (d_xml (guest "a" "u-a" 5 1 0 0 0)))]>
               (delete "a" (lv_domains
                              (with_guests [guest "a" "u-a" 5 1 0 0 0] world0))))
  /\ (exists s',
        vm_update "a" {["name" := "c"]} (model_on refuses_c)
        = (s', inl (OperationFailed "refused"))
        /\ lv_domains (virt s')
           = <["a" := fresh_domain (d_xml (guest "a" "u-a" 5 1 0 0 0))]>
               (lv_domains refuses_c)).
Proof.
  assert (Hp : ({["name" := "c"]} : gmap string string) !! "name" = Some "c")
    by (vm_compute; reflexivity).
  split; [|split].
  - assert (Hc : connected two_guests)
      by (exists 1%nat; vm_compute; reflexivity).
    assert (Hd : lv_domains (virt two_guests) !! "a"
                 = Some (guest "a" "u-a" 1 1 0 0 0))
      by (vm_compute; reflexivity).
    apply (proj1 (vm_update_rename "a" "c" _ _ _ Hc Hd eq_refl Hp)).
    reflexivity.
  - assert (Hc : connected (model_on (with_guests [guest "a" "u-a" 5 1 0 0 0]
                                        world0)))
      by (exists 1%nat; vm_compute; reflexivity).
    assert (Hd : lv_domains (virt (model_on (with_guests
                                               [guest "a" "u-a" 5 1 0 0 0]
                                               world0))) !! "a"
                 = Some (guest "a" "u-a" 5 1 0 0 0))
      by (vm_compute; reflexivity).
    apply (proj1 (proj2 (vm_update_rename "a" "c" _ _ _ Hc Hd eq_refl Hp)));
      vm_compute; reflexivity.
  - assert (Hc : connected (model_on refuses_c))
      by (exists 1%nat; vm_compute; reflexivity).
    assert (Hd : lv_domains (virt (model_on refuses_c)) !! "a"
                 = Some (guest "a" "u-a" 5 1 0 0 0))
      by (vm_compute; reflexivity).
    apply (proj2 (proj2 (vm_update_rename "a" "c" _ _ _ Hc Hd eq_refl Hp))
             VIR_FROM_QEMU VIR_ERR_INTERNAL_ERROR "refused");
      vm_compute; reflexivity.
Defined.

(** ** C1: a VM whose definition fails *)

Lemma lift_run {S A} (r : exn + A) (s : S) : lift r s = (s, r).
Proof. reflexivity. Qed.

Lemma vms_get_list_connected s :
  connected s -> vms_get_list s = (s, inr (domain_names (virt s))).
Proof.
  intros [c Hc]. unfold vms_get_list.
  rewrite (bind_ok _ _ s s c (connected_get s c Hc)).
  rewrite (bind_ok _ _ s s _ (call_read listDomains s _ eq_refl)).
  rewrite (bind_ok _ _ s s _ (call_read listDefinedDomains s _ eq_refl)).
  reflexivity.
Qed.

Lemma _storage_validate_ok t s pname pl :
  connected s ->
  pool_name_from_uri (ti_storagepool t) = inr pname ->
  lv_pools (virt s) !! pname = Some pl ->
  pl_active pl = true ->
  _storage_validate t s = (s, inr pname).
Proof.
  intros [c Hc] Huri Hpl Hact. unfold _storage_validate.
  rewrite Huri. rewrite (bind_ok _ _ s s pname (lift_run _ s)).
  assert (Hlook : call (storagePoolLookupByName pname) s = (s, inr pname)).
  { apply call_read. unfold storagePoolLookupByName. now rewrite Hpl. }
  rewrite (bind_ok _ _ s s pname).
  - assert (Hact' : call (pool_isActive pname) s = (s, inr true)).
    { apply call_read. unfold pool_isActive, on_pool. cbv beta. rewrite Hpl.
      now rewrite Hact. }
    now rewrite (bind_ok _ _ s s true Hact').
  - apply try_ok. now rewrite (bind_ok _ _ s s c (connected_get s c Hc)).
Qed.

Lemma _network_validate_ok t s nw :
  connected s ->
  lv_networks (virt s) !! ti_network t = Some nw ->
  nw_active nw = true ->
  _network_validate t s = (s, inr (ti_network t)).
Proof.
  intros [c Hc] Hnw Hact. unfold _network_validate.
  assert (Hlook : call (networkLookupByName (ti_network t)) s
                  = (s, inr (ti_network t))).
  { apply call_read. unfold networkLookupByName. now rewrite Hnw. }
  rewrite (bind_ok _ _ s s (ti_network t)).
  - assert (Hact' : call (network_isActive (ti_network t)) s = (s, inr true)).
    { apply call_read. unfold network_isActive, on_network. cbv beta. rewrite Hnw.
      now rewrite Hact. }
    now rewrite (bind_ok _ _ s s true Hact').
  - apply try_ok. now rewrite (bind_ok _ _ s s c (connected_get s c Hc)).
Qed.

Lemma to_volume_list_ok t vm_uuid s pname pl :
  connected s ->
  pool_name_from_uri (ti_storagepool t) = inr pname ->
  lv_pools (virt s) !! pname = Some pl ->
  pl_active pl = true ->
  to_volume_list t vm_uuid s
  = (s, inr (volumes_under (pl_path pl) t vm_uuid)).
Proof.
  intros Hc Huri Hpl Hact. unfold to_volume_list, _get_storage_path.
  rewrite (bind_ok _ _ s s (pl_path pl)); [reflexivity|].
  rewrite (bind_ok _ _ s s pname (_storage_validate_ok t s pname pl
                                    Hc Huri Hpl Hact)).
  apply call_read. unfold pool_target_path, on_pool. cbv beta. now rewrite Hpl.
Qed.

Lemma set_lv_volumes_id w : set_lv_volumes (fun _ => lv_volumes w) w = w.
Proof. now destruct w. Qed.

Lemma volumes_under_path storage_path t vm_uuid v :
  v ∈ volumes_under storage_path t vm_uuid ->
  v_path v = storage_path +:+ "/" +:+ v_name v.
Proof.
  unfold volumes_under. intros H. apply list_elem_of_fmap in H as (d & -> & _).
  reflexivity.
Qed.

(** Forking: each volume not yet there is created. *)
Lemma fork_loop s pname pl vols w :
  lv_pools w !! pname = Some pl ->
  (forall v, v ∈ vols -> v_path v = pl_path pl +:+ "/" +:+ v_name v) ->
  NoDup (v_path <$> vols) ->
  (forall p, p ∈ v_path <$> vols -> p ∉ lv_volumes w) ->
  for_each vols (fun v => call (pool_createXML pname (v_name v)) ;; ret tt)
    (set_virt w s)
  = (set_virt (set_lv_volumes
                 (fun _ => lv_volumes w ∪ list_to_set (v_path <$> vols)) w) s,
     inr tt).
Proof.
  intros Hpl. revert w Hpl.
  induction vols as [|v vols IH]; intros w Hpl Hpath Hnd Hfresh.
  - simpl. rewrite (right_id_L ∅ (∪)). now rewrite set_lv_volumes_id.
  - simpl. rewrite fmap_cons in Hnd, Hfresh. apply NoDup_cons in Hnd as [Hv Hnd].
    assert (Hcreate : call (pool_createXML pname (v_name v)) (set_virt w s)
                      = (set_virt (set_lv_volumes (fun V => V ∪ {[v_path v]}) w) s,
                         inr (v_path v))).
    { rewrite (call_ok _ _ (set_lv_volumes (fun V => V ∪ {[v_path v]}) w)
                 (v_path v)); [reflexivity|].
      unfold pool_createXML, on_pool. simpl. rewrite Hpl.
      rewrite <- (Hpath v) by left.
      rewrite bool_decide_eq_false_2 by (apply Hfresh; left). reflexivity. }
    rewrite (bind_ok _ _ (set_virt w s)
               (set_virt (set_lv_volumes (fun V => V ∪ {[v_path v]}) w) s) tt);
      [|now rewrite (bind_ok _ _ _ _ _ Hcreate)].
    rewrite IH.
    + f_equal. f_equal. unfold set_lv_volumes. simpl. f_equal.
      symmetry. apply (assoc_L (∪)).
    + exact Hpl.
    + intros v' Hv'. apply Hpath. now right.
    + exact Hnd.
    + intros p Hp. simpl. intros Hin.
      apply elem_of_union in Hin as [Hin | Hin].
      * revert Hin. apply Hfresh. now right.
      * apply elem_of_singleton in Hin. subst p. contradiction.
Qed.

Lemma set_virt_volumes_id s :
  set_virt (set_lv_volumes (fun _ => lv_volumes (virt s) ∖ ∅) (virt s)) s = s.
Proof.
  rewrite (difference_empty_L (lv_volumes (virt s))).
  rewrite set_lv_volumes_id. apply set_virt_id.
Qed.

(** Rolling back: each volume that is there is deleted. *)
Lemma rollback_loop vols s :
  NoDup (v_path <$> vols) ->
  (forall p, p ∈ v_path <$> vols -> p ∈ lv_volumes (virt s)) ->
  for_each vols (fun v =>
    let* vol := call (storageVolLookupByPath (v_path v)) in
    call (vol_delete vol)) s
  = (set_virt (set_lv_volumes
                 (fun _ => lv_volumes (virt s) ∖ list_to_set (v_path <$> vols))
                 (virt s)) s,
     inr tt).
Proof.
  revert s. induction vols as [|v vols IH]; intros s Hnd Hin.
  - simpl. now rewrite set_virt_volumes_id.
  - simpl. rewrite fmap_cons in Hnd, Hin. apply NoDup_cons in Hnd as [Hv Hnd].
    assert (Hthere : v_path v ∈ lv_volumes (virt s)) by (apply Hin; left).
    assert (Hlook : call (storageVolLookupByPath (v_path v)) s
                    = (s, inr (v_path v))).
    { apply call_read. unfold storageVolLookupByPath.
      now rewrite bool_decide_eq_true_2. }
    assert (Hdel : call (vol_delete (v_path v)) s
                   = (set_virt (set_lv_volumes (fun V => V ∖ {[v_path v]})
                                  (virt s)) s, inr tt)).
    { apply call_ok. unfold vol_delete.
      now rewrite bool_decide_eq_true_2. }
    rewrite (bind_ok _ _ s
               (set_virt (set_lv_volumes (fun V => V ∖ {[v_path v]})
                            (virt s)) s) tt);
      [|now rewrite (bind_ok _ _ _ _ _ Hlook)].
    rewrite IH.
    + f_equal. unfold set_virt, set_lv_volumes. simpl. f_equal. f_equal.
      apply difference_difference_l_L.
    + exact Hnd.
    + intros p Hp. simpl. apply elem_of_difference. split.
      * apply Hin. now right.
      * intros Heq. apply elem_of_singleton in Heq. subst p. contradiction.
Qed.

Lemma _get_template_ok name overrides s ti :
  objstore s !! ("template", name) = Some (TemplateRecord ti) ->
  _get_template name overrides s = (s, inr (with_storagepool overrides ti)).
Proof.
  intros H. unfold _get_template, session_get, bind, gets. now rewrite H.
Qed.

Lemma connected_set_virt w s : connected s -> connected (set_virt w s).
Proof. intros [c Hc]. now exists c. Qed.

Lemma connected_set_objstore f s : connected s -> connected (set_objstore f s).
Proof. intros [c Hc]. now exists c. Qed.

(** From the forked state on: the descriptor is refused, the forked volumes
    are deleted and [OperationFailed] is raised. *)
Lemma define_refused_rollback t name vm_uuid s pname pl edom ecode msg :
  let vols := volumes_under (pl_path pl) t vm_uuid in
  connected s ->
  pool_name_from_uri (ti_storagepool t) = inr pname ->
  lv_pools (virt s) !! pname = Some pl ->
  pl_active pl = true ->
  NoDup (v_path <$> vols) ->
  (forall p, p ∈ v_path <$> vols -> p ∈ lv_volumes (virt s)) ->
  lv_refuse_domain (virt s) (vm_descriptor t name vm_uuid vols)
  = Some (edom, ecode, msg) ->
  exists s',
    (let* protocols := gets libvirt_stream_protocols in
     let libvirt_stream := negb (length protocols =? 0)%nat in
     let* dns := gets qemu_stream_dns in
     let* xml := to_vm_xml t name vm_uuid libvirt_stream dns in
     try_except (call (defineXML xml) ;; ret tt) (fun e =>
       if is_libvirtError e then
         for_each vols (fun v =>
           let* vol := call (storageVolLookupByPath (v_path v)) in
           call (vol_delete vol)) ;;
         raise (OperationFailed (get_error_message e))
       else raise e) ;;
     ret name) s
    = (s', inl (OperationFailed msg))
    /\ lv_volumes (virt s')
       = lv_volumes (virt s) ∖ list_to_set (v_path <$> vols)
    /\ lv_domains (virt s') = lv_domains (virt s)
    /\ objstore s' = objstore s.
Proof.
  intros vols Hc Huri Hpl Hact Hnd Hin Hrefuse.
  destruct (call_run (defineXML (vm_descriptor t name vm_uuid vols)) s)
    as (s4 & Hcall & Hvirt & Hframe).
  assert (Hdef : defineXML (vm_descriptor t name vm_uuid vols) (virt s)
                 = (virt s, inl (libvirtError edom ecode msg))).
  { unfold defineXML. now rewrite Hrefuse. }
  rewrite Hdef in Hcall, Hvirt. simpl in Hcall, Hvirt.
  pose (s5 := set_virt (set_lv_volumes
                          (fun _ => lv_volumes (virt s4)
                                    ∖ list_to_set (v_path <$> vols))
                          (virt s4)) s4).
  assert (Hroll : for_each vols (fun v =>
                    let* vol := call (storageVolLookupByPath (v_path v)) in
                    call (vol_delete vol)) s4 = (s5, inr tt)).
  { apply rollback_loop; [exact Hnd|]. rewrite Hvirt. exact Hin. }
  exists s5. split; [|split; [|split]].
  - unfold bind at 1, gets at 1. unfold bind at 1, gets at 1.
    unfold to_vm_xml.
    rewrite (bind_ok _ _ s s (vm_descriptor t name vm_uuid vols));
      [|now rewrite (bind_ok _ _ s s vols
                       (to_volume_list_ok t vm_uuid s pname pl
                          Hc Huri Hpl Hact))].
    apply bind_err.
    rewrite (try_err _ _ s s4 (libvirtError edom ecode msg));
      [|now apply bind_err].
    simpl. now rewrite (bind_ok _ _ s4 s5 tt Hroll).
  - subst s5. simpl. now rewrite Hvirt.
  - subst s5. simpl. now rewrite Hvirt.
  - subst s5. simpl. apply Hframe.
Qed.

(** C1 (amended).  For a VM-create request on an established session whose
    template, name, pool and network are in order, whose N volumes are all
    new to the pool, and whose descriptor libvirt refuses with message
    [msg]: forking creates the N volumes; [vms_create] then deletes exactly
    those, so that the volumes are what they were before the request, no
    VM is defined, and [OperationFailed msg] is raised.  The rollback covers
    the forked volumes only: the object store is left as the request made
    it, icon record included. *)
Theorem vms_create_define_failure (params : vm_params) (vm_uuid : string)
    (s : Model) (t_name name pname : string) (ti : template_info)
    (pl : pool) (nw : network) (edom ecode : Z) (msg : string) :
  let t := with_storagepool (truthy (vp_storagepool params)) ti in
  let vols := volumes_under (pl_path pl) t vm_uuid in
  connected s ->
  template_name_from_uri (vp_template params) = inr t_name ->
  get_vm_name (vp_name params) t_name (domain_names (virt s)) = inr name ->
  name ∉ domain_names (virt s) ->
  objstore s !! ("template", t_name) = Some (TemplateRecord ti) ->
  negb (qemu_stream s) && ti_iso_stream t = false ->
  pool_name_from_uri (ti_storagepool t) = inr pname ->
  lv_pools (virt s) !! pname = Some pl ->
  pl_active pl = true ->
  lv_networks (virt s) !! ti_network t = Some nw ->
  nw_active nw = true ->
  NoDup (v_path <$> vols) ->
  (forall p, p ∈ v_path <$> vols -> p ∉ lv_volumes (virt s)) ->
  lv_refuse_domain (virt s) (vm_descriptor t name vm_uuid vols)
  = Some (edom, ecode, msg) ->
  (exists s2,
     fork_vm_storage t vm_uuid s = (s2, inr vols)
     /\ lv_volumes (virt s2)
        = lv_volumes (virt s) ∪ list_to_set (v_path <$> vols))
  /\ exists s',
       vms_create params vm_uuid s = (s', inl (OperationFailed msg))
       /\ lv_volumes (virt s') = lv_volumes (virt s)
       /\ lv_domains (virt s') = lv_domains (virt s)
       /\ objstore s'
          = match truthy (ti_icon t) with
            | Some icon => <[("vm", vm_uuid) := VmRecord icon]> (objstore s)
            | None => objstore s
            end.
Proof.
  intros t vols Hc Huri Hname Hfree Htmpl Hiso Hpuri Hpl Hact Hnw Hnact
    Hnd Hfresh Hrefuse.
  pose (w2 := set_lv_volumes
                (fun _ => lv_volumes (virt s) ∪ list_to_set (v_path <$> vols))
                (virt s)).
  pose (s2 := set_virt w2 s).
  assert (Hfork : fork_vm_storage t vm_uuid s = (s2, inr vols)).
  { unfold fork_vm_storage.
    rewrite (bind_ok _ _ s s pname
               (_storage_validate_ok t s pname pl Hc Hpuri Hpl Hact)).
    rewrite (bind_ok _ _ s s vols
               (to_volume_list_ok t vm_uuid s pname pl Hc Hpuri Hpl Hact)).
    rewrite (bind_ok _ _ s s2 tt); [reflexivity|].
    rewrite <- (set_virt_id s) at 1.
    apply (fork_loop s pname pl vols (virt s) Hpl);
      [|exact Hnd|exact Hfresh].
    intros v Hv. now apply (volumes_under_path _ t vm_uuid). }
  split; [exists s2; split; [exact Hfork|reflexivity]|].
  pose (s3 := match truthy (ti_icon t) with
              | Some icon =>
                  set_objstore (<[("vm", vm_uuid) := VmRecord icon]>) s2
              | None => s2
              end).
  assert (Hs3c : connected s3).
  { subst s3. destruct (truthy (ti_icon t));
      [apply connected_set_objstore|]; now apply connected_set_virt. }
  assert (Hs3v : virt s3 = w2).
  { subst s3. now destruct (truthy (ti_icon t)). }
  assert (Hs3o : objstore s3
                 = match truthy (ti_icon t) with
                   | Some icon =>
                       <[("vm", vm_uuid) := VmRecord icon]> (objstore s)
                   | None => objstore s
                   end).
  { subst s3. now destruct (truthy (ti_icon t)). }
  destruct (define_refused_rollback t name vm_uuid s3 pname pl edom ecode msg)
    as (s5 & Hrun & Hvol5 & Hdom5 & Hobj5);
    try assumption.
  { now rewrite Hs3v. }
  { intros p Hp. rewrite Hs3v. simpl. apply elem_of_union. right.
    now apply elem_of_list_to_set. }
  { now rewrite Hs3v. }
  exists s5. split; [|split; [|split]].
  - unfold vms_create.
    destruct Hc as [c Hc'].
    rewrite (bind_ok _ _ s s c (connected_get s c Hc')).
    rewrite Huri. rewrite (bind_ok _ _ s s t_name (lift_run _ s)).
    rewrite (bind_ok _ _ s s _ (vms_get_list_connected s
                                  (ex_intro _ c Hc'))).
    rewrite Hname. rewrite (bind_ok _ _ s s name (lift_run _ s)).
    rewrite bool_decide_eq_false_2 by exact Hfree.
    rewrite (bind_ok _ _ s s t (_get_template_ok t_name _ s ti Htmpl)).
    unfold bind at 1, gets at 1.
    fold t. rewrite Hiso.
    assert (Hval : validate t s = (s, inr tt)).
    { unfold validate.
      rewrite (bind_ok _ _ s s pname
                 (_storage_validate_ok t s pname pl (ex_intro _ c Hc')
                    Hpuri Hpl Hact)).
      now rewrite (bind_ok _ _ s s _
                     (_network_validate_ok t s nw (ex_intro _ c Hc')
                        Hnw Hnact)). }
    rewrite (bind_ok _ _ s s tt Hval).
    rewrite (bind_ok _ _ s s2 vols Hfork).
    rewrite (bind_ok _ _ s2 s3 tt); [exact Hrun|].
    subst s3. now destruct (truthy (ti_icon t)).
  - rewrite Hvol5, Hs3v. simpl.
    apply set_eq. intros p. split.
    + intros H. apply elem_of_difference in H as [H1 H2].
      apply elem_of_union in H1 as [H1 | H1]; [exact H1|contradiction].
    + intros Hp. apply elem_of_difference. split.
      * apply elem_of_union. now left.
      * intros Hin. apply elem_of_list_to_set in Hin. now apply (Hfresh p).
  - rewrite Hdom5, Hs3v. reflexivity.
  - now rewrite Hobj5.
Qed.

Lemma vms_create_counterexample :
  (vms_create create_request "uuid-1" create_example).2
  = inl (OperationFailed "unsupported configuration")
  /\ objstore create_example !! ("vm", "uuid-1") = None
  /\ objstore (vms_create create_request "uuid-1" create_example).1
       !! ("vm", "uuid-1")
     = Some (VmRecord "images/icon-fedora.png")
  /\ objstore (vms_create create_request "uuid-1" create_example).1
     <> objstore create_example.
Proof.
  assert (H1 : objstore create_example !! ("vm", "uuid-1") = None)
    by (vm_compute; reflexivity).
  assert (H2 : objstore (vms_create create_request "uuid-1" create_example).1
                 !! ("vm", "uuid-1")
               = Some (VmRecord "images/icon-fedora.png"))
    by (vm_compute; reflexivity).
  split; [vm_compute; reflexivity|].
  split; [exact H1|]. split; [exact H2|].
  intros Heq. rewrite Heq in H2. congruence.
Qed.

Lemma vms_create_define_failure_witness :
  exists s',
    vms_create create_request "uuid-1" create_example
    = (s', inl (OperationFailed "unsupported configuration"))
    /\ lv_volumes (virt s') = lv_volumes (virt create_example)
    /\ lv_domains (virt s') = lv_domains (virt create_example).
Proof.
  destruct (vms_create_define_failure create_request "uuid-1" create_example
              "tmpl" "tmpl-vm-1" "default" tmpl default_pool default_network
              VIR_FROM_QEMU VIR_ERR_INTERNAL_ERROR
              "unsupported configuration")
    as [_ (s' & H1 & H2 & H3 & _)].
  - exists 1%nat. vm_compute. reflexivity.
  - vm_compute. reflexivity.
  - vm_compute. reflexivity.
  - vm_compute. apply not_elem_of_nil.
  - vm_compute. reflexivity.
  - reflexivity.
  - vm_compute. reflexivity.
  - vm_compute. reflexivity.
  - reflexivity.
  - vm_compute. reflexivity.
  - reflexivity.
  - vm_compute. apply NoDup_cons. split.
    + intros H. apply list_elem_of_singleton in H. discriminate.
    + apply NoDup_singleton.
  - intros p _. change (lv_volumes (virt create_example)) with (∅ : gset string).
    apply not_elem_of_empty.
  - reflexivity.
  - exists s'. auto.
Defined.

(** ** C3: a second create under a name that is taken *)

Lemma elem_of_insert_by key x y l : y ∈ insert_by key x l <-> y = x \/ y ∈ l.
Proof.
  induction l as [|z l IH]; simpl.
  - rewrite list_elem_of_singleton. rewrite elem_of_nil. tauto.
  - destruct (String.leb (key x) (key z)).
    + rewrite !elem_of_cons. tauto.
    + rewrite !elem_of_cons, IH. tauto.
Qed.

Lemma elem_of_sorted_by key y l : y ∈ sorted_by key l <-> y ∈ l.
Proof.
  unfold sorted_by. induction l as [|x l IH]; simpl; [reflexivity|].
  rewrite elem_of_insert_by, elem_of_cons, IH. tauto.
Qed.

Lemma elem_of_names_where {A} (P : A -> bool) (m : gmap string A) n :
  n ∈ names_where P m <-> exists x, m !! n = Some x /\ P x = true.
Proof.
  unfold names_where. rewrite list_elem_of_fmap. split.
  - intros ([k x] & -> & Hin). apply list_elem_of_In, filter_In in Hin.
    destruct Hin as [Hin HP]. apply list_elem_of_In, elem_of_map_to_list in Hin.
    exists x. auto.
  - intros (x & Hx & HP). exists (n, x). split; [reflexivity|].
    apply list_elem_of_In, filter_In. split; [|exact HP].
    apply list_elem_of_In, elem_of_map_to_list. exact Hx.
Qed.

(** A listing names exactly what is there, active or not. *)
Lemma elem_of_listing {A} (P : A -> bool) (m : gmap string A) n :
  n ∈ sorted (names_where (fun x => P x) m
              ++ names_where (fun x => negb (P x)) m)%list
  <-> is_Some (m !! n).
Proof.
  unfold sorted. rewrite elem_of_sorted_by, elem_of_app, !elem_of_names_where.
  split.
  - intros [(x & Hx & _) | (x & Hx & _)]; now exists x.
  - intros [x Hx]. destruct (P x) eqn:HP; [left | right]; exists x;
      rewrite ?HP; auto.
Qed.

Lemma elem_of_store_ids (kind id : string) (o : gmap (string * string) record) :
  id ∈ store_ids kind o <-> is_Some (o !! (kind, id)).
Proof.
  unfold store_ids. rewrite list_elem_of_fmap. split.
  - intros ([k i] & Hid & Hin). apply list_elem_of_fmap in Hin.
    destruct Hin as ([[k' i'] r] & Heq & Hin). simpl in Hid, Heq.
    apply list_elem_of_In, filter_In in Hin. destruct Hin as [Hin Hk].
    apply bool_decide_eq_true in Hk. simpl in Hk.
    apply list_elem_of_In, elem_of_map_to_list in Hin.
    exists r. congruence.
  - intros [r Hr]. exists (kind, id). split; [reflexivity|].
    apply list_elem_of_fmap. exists ((kind, id), r). split; [reflexivity|].
    apply list_elem_of_In, filter_In. split.
    + apply list_elem_of_In, elem_of_map_to_list. exact Hr.
    + now apply bool_decide_eq_true.
Qed.

(** Templates: a successful create stores the template under its name, and
    a create under a stored name raises [InvalidOperation] and leaves the
    state as it was. *)
Lemma templates_create_stores params s s' name :
  templates_create params s = (s', inr name) ->
  name = ti_name params
  /\ objstore s' !! ("template", name) = Some (TemplateRecord params).
Proof.
  unfold templates_create, bind, session_get_list, gets, session_store,
    modify, ret.
  destruct (bool_decide _); [discriminate|].
  intros [= <- <-]. split; [reflexivity|]. simpl. apply lookup_insert_eq.
Qed.

Lemma templates_create_duplicate params s :
  is_Some (objstore s !! ("template", ti_name params)) ->
  templates_create params s
  = (s, inl (InvalidOperation "Template already exists")).
Proof.
  intros H. unfold templates_create, bind, session_get_list, gets.
  rewrite bool_decide_eq_true_2; [reflexivity|].
  now apply elem_of_store_ids.
Qed.

Lemma networks_get_list_connected s :
  connected s -> networks_get_list s = (s, inr (network_names (virt s))).
Proof.
  intros [c Hc]. unfold networks_get_list.
  rewrite (bind_ok _ _ s s c (connected_get s c Hc)).
  rewrite (bind_ok _ _ s s _ (call_read listNetworks s _ eq_refl)).
  rewrite (bind_ok _ _ s s _ (call_read listDefinedNetworks s _ eq_refl)).
  reflexivity.
Qed.

(** Networks: a create under the name of a network that exists raises
    [InvalidOperation] and leaves the state as it was. *)
Lemma networks_create_duplicate free plan br nic bond params s :
  connected s ->
  is_Some (lv_networks (virt s) !! np_name params) ->
  networks_create free plan br nic bond params s
  = (s, inl (InvalidOperation
               ("Network " +:+ np_name params +:+ " already exists"))).
Proof.
  intros Hc H. unfold networks_create.
  destruct Hc as [c Hc].
  rewrite (bind_ok _ _ s s c (connected_get s c Hc)).
  rewrite (bind_ok _ _ s s _ (networks_get_list_connected s
                                (ex_intro _ c Hc))).
  rewrite bool_decide_eq_true_2; [reflexivity|].
  unfold network_names. now apply (elem_of_listing nw_active).
Qed.

Lemma storagepools_get_list_connected s :
  connected s -> storagepools_get_list s = (s, inr (pool_names (virt s))).
Proof.
  intros [c Hc]. unfold storagepools_get_list. apply try_ok.
  rewrite (bind_ok _ _ s s c (connected_get s c Hc)).
  rewrite (bind_ok _ _ s s _ (call_read listStoragePools s _ eq_refl)).
  rewrite (bind_ok _ _ s s _ (call_read listDefinedStoragePools s _ eq_refl)).
  reflexivity.
Qed.

(** Pools: a request for a directory pool under the name of a pool that
    exists raises [InvalidOperation] and leaves the state as it was; so
    does any request under the reserved name. *)
Lemma storagepools_create_duplicate_dir params name path s :
  connected s ->
  pp_name params = Some name -> pp_type params = Some "dir" ->
  pp_path params = Some path ->
  is_Some (lv_pools (virt s) !! name) ->
  exists msg, storagepools_create params s = (s, inl (InvalidOperation msg)).
Proof.
  intros [c Hc] Hn Ht Hp H. unfold storagepools_create.
  rewrite (bind_ok _ _ s s c (connected_get s c Hc)).
  rewrite Hn. simpl item at 1.
  destruct (bool_decide (name ∈ [ISO_POOL_NAME])) eqn:Hiso.
  - eexists. apply bind_err.
    rewrite (try_err _ _ s s (InvalidOperation "StoragePool already exists"));
      [reflexivity|].
    unfold bind at 1, ret at 1. now rewrite Hiso.
  - eexists.
    rewrite (bind_ok _ _ s s
               (name, None, "dir",
                {| px_type := "dir"; px_name := name; px_path := path;
                   px_source := [] |})).
    + rewrite (bind_ok _ _ s s _ (storagepools_get_list_connected s
                                    (ex_intro _ c Hc))).
      rewrite bool_decide_eq_true_2; [reflexivity|].
      unfold pool_names. now apply (elem_of_listing pl_active).
    + apply try_ok. unfold bind at 1, ret at 1. rewrite Hiso.
      rewrite Ht. simpl. unfold bind, ret, _get_pool_xml. simpl.
      rewrite Ht. simpl. rewrite Hn, Hp. reflexivity.
Qed.

(** C3.  After the directory pool "p" has been created, a request for a
    scan pool ("kimchi-iso") named "p" fails with [InvalidOperation], but
    only after [_do_deep_scan] has run: a scan task has been started, its
    task and scanning records written to the store, its directory made, and
    the task counter advanced.  The state is not what it was. *)
Theorem storagepools_create_duplicate_scan :
  (storagepools_create dir_request (model_on world0)).2 = inr "p"
  /\ (storagepools_create iso_request with_pool_p).2
     = inl (InvalidOperation "The name p has been used by a pool")
  /\ tasks with_pool_p = []
  /\ tasks (storagepools_create iso_request with_pool_p).1
     = [(1%nat, "", start_scan "/srv/isos" "/tmp/kimchi-scan-p"
                      ["/var/lib/libvirt/images"])]
  /\ objstore with_pool_p !! ("scanning", "p") = None
  /\ objstore (storagepools_create iso_request with_pool_p).1
       !! ("scanning", "p") = Some (ScanningRecord 1)
  /\ objstore (storagepools_create iso_request with_pool_p).1
       !! ("task", "1") = Some (TaskRecord "running" "OK")
  /\ next_taskid (storagepools_create iso_request with_pool_p).1 = 2%nat
  /\ (storagepools_create iso_request with_pool_p).1 <> with_pool_p.
Proof.
  assert (Ht : tasks with_pool_p = []) by (vm_compute; reflexivity).
  assert (Ht' : tasks (storagepools_create iso_request with_pool_p).1
                = [(1%nat, "", start_scan "/srv/isos" "/tmp/kimchi-scan-p"
                                 ["/var/lib/libvirt/images"])])
    by (vm_compute; reflexivity).
  split; [vm_compute; reflexivity|].
  split; [vm_compute; reflexivity|].
  split; [exact Ht|]. split; [exact Ht'|].
  split; [vm_compute; reflexivity|].
  split; [vm_compute; reflexivity|].
  split; [vm_compute; reflexivity|].
  split; [vm_compute; reflexivity|].
  intros Heq. congruence.
Qed.

(** * Further properties of the code *)

(** ** [LibvirtConnection.get]: the retry loop and the memoized session *)

Lemma libvirt_open_fails s n :
  lv_open_failures (virt s) = S n ->
  in_world libvirt_open s
  = (set_virt (set_lv_open n (lv_sessions (virt s)) (virt s)) s,
     inl open_error).
Proof. intros H. unfold in_world, libvirt_open. now rewrite H. Qed.

Lemma libvirt_open_succeeds s :
  lv_open_failures (virt s) = 0%nat ->
  in_world libvirt_open s
  = (set_virt (set_lv_open 0 (S (lv_sessions (virt s))) (virt s)) s,
     inr (S (lv_sessions (virt s)))).
Proof. intros H. unfold in_world, libvirt_open. now rewrite H. Qed.

Lemma open_loop_unfold retries s :
  LibvirtConnection.open_loop retries s
  = try_except (in_world libvirt_open) (fun e =>
      match e with
      | libvirtError _ _ _ =>
          kimchi_log_error "Unable to connect to libvirt." ;;
          match retries with
          | O => kimchi_log_error "Libvirt is not available, exiting." ;;
                 modify (set_engine_stopped true) ;;
                 raise e
          | S retries' => LibvirtConnection.open_loop retries'
          end
      | _ => raise e
      end) s.
Proof. destruct retries; reflexivity. Qed.

(** With at most [retries] failing attempts ahead, the loop ends with a new
    session; each failed attempt is logged and nothing else changes. *)
Lemma open_loop_succeeds retries : forall s,
  (lv_open_failures (virt s) <= retries)%nat ->
  exists s',
    LibvirtConnection.open_loop retries s
    = (s', inr (S (lv_sessions (virt s))))
    /\ lv_open_failures (virt s') = 0%nat
    /\ lv_sessions (virt s') = S (lv_sessions (virt s))
    /\ log s' = (log s ++ repeat "Unable to connect to libvirt."
                             (lv_open_failures (virt s)))%list
    /\ connections s' = connections s
    /\ engine_stopped s' = engine_stopped s
    /\ lv_domains (virt s') = lv_domains (virt s)
    /\ lv_volumes (virt s') = lv_volumes (virt s)
    /\ lv_pools (virt s') = lv_pools (virt s)
    /\ lv_networks (virt s') = lv_networks (virt s)
    /\ objstore s' = objstore s.
Proof.
  induction retries as [|r IH]; intros s Hle;
    rewrite open_loop_unfold;
    destruct (lv_open_failures (virt s)) as [|k] eqn:Hk.
  - rewrite (try_ok _ _ s _ _ (libvirt_open_succeeds s Hk)).
    eexists. split; [reflexivity|]. simpl. rewrite app_nil_r.
    repeat split; reflexivity.
  - lia.
  - rewrite (try_ok _ _ s _ _ (libvirt_open_succeeds s Hk)).
    eexists. split; [reflexivity|]. simpl. rewrite app_nil_r.
    repeat split; reflexivity.
  - rewrite (try_err _ _ s _ _ (libvirt_open_fails s k Hk)).
    unfold open_error, bind at 1, kimchi_log_error, modify.
    set (s1 := set_log _ _).
    destruct (IH s1) as (s' & Hrun & H1 & H2 & H3 & H4 & H5 & H6 & H7
                         & H8 & H9 & H10); [subst s1; simpl; lia|].
    exists s'. split; [exact Hrun|].
    subst s1. simpl in *. rewrite H3, <- app_assoc.
    repeat split; auto.
Qed.

(** With more failing attempts ahead than the loop makes, it makes them
    all, logs each, stops the engine and raises the last error. *)
Lemma open_loop_gives_up retries : forall s,
  (retries < lv_open_failures (virt s))%nat ->
  exists s',
    LibvirtConnection.open_loop retries s = (s', inl open_error)
    /\ lv_open_failures (virt s')
       = (lv_open_failures (virt s) - S retries)%nat
    /\ lv_sessions (virt s') = lv_sessions (virt s)
    /\ log s' = (log s ++ repeat "Unable to connect to libvirt." (S retries)
                 ++ ["Libvirt is not available, exiting."])%list
    /\ connections s' = connections s
    /\ engine_stopped s' = true.
Proof.
  induction retries as [|r IH]; intros s Hlt.
  - destruct (lv_open_failures (virt s)) as [|n] eqn:Hn; [lia|].
    rewrite open_loop_unfold.
    rewrite (try_err _ _ s _ _ (libvirt_open_fails s n Hn)).
    eexists. split; [reflexivity|]. simpl. rewrite <- app_assoc.
    repeat split; try reflexivity. lia.
  - destruct (lv_open_failures (virt s)) as [|n] eqn:Hn; [lia|].
    rewrite open_loop_unfold.
    rewrite (try_err _ _ s _ _ (libvirt_open_fails s n Hn)).
    unfold open_error, bind at 1, kimchi_log_error, modify.
    set (s1 := set_log _ _).
    destruct (IH s1) as (s' & Hrun & H1 & H2 & H3 & H4 & H5);
      [subst s1; simpl; lia|].
    exists s'. split; [exact Hrun|].
    subst s1. simpl in *. rewrite H1, H3, <- app_assoc.
    repeat split; auto.
Qed.

(** X1.  [get] on a slot that holds no session, when fewer than five opens
    in a row fail: the session libvirt finally opens is returned and
    memoized in the slot, each failed attempt has been logged, the engine
    is not stopped, and a second [get] returns the same session without
    touching anything. *)
Theorem get_opens_and_memoizes (conn_id : Z) (s : Model) :
  connections s !! conn_id = None \/ connections s !! conn_id = Some None ->
  (lv_open_failures (virt s) <= 4)%nat ->
  exists s',
    LibvirtConnection.get conn_id s = (s', inr (S (lv_sessions (virt s))))
    /\ connections s' = <[conn_id := Some (S (lv_sessions (virt s)))]>
                          (connections s)
    /\ log s' = (log s ++ repeat "Unable to connect to libvirt."
                             (lv_open_failures (virt s)))%list
    /\ engine_stopped s' = engine_stopped s
    /\ lv_sessions (virt s') = S (lv_sessions (virt s))
    /\ lv_domains (virt s') = lv_domains (virt s)
    /\ objstore s' = objstore s
    /\ LibvirtConnection.get conn_id s'
       = (s', inr (S (lv_sessions (virt s)))).
Proof.
  intros Hslot Hle.
  destruct (open_loop_succeeds 4 s Hle)
    as (s1 & Hrun & _ & Hses & Hlog & Hconn & Hstop & Hdom & _ & _ & _
        & Hobj).
  exists (set_connections (<[conn_id := Some (S (lv_sessions (virt s)))]>) s1).
  split.
  - unfold LibvirtConnection.get, bind at 1, gets at 1.
    assert (Hgo : (let* c := LibvirtConnection.open_loop 4 in
                   modify (set_connections (<[conn_id := Some c]>)) ;; ret c) s
                  = (set_connections
                       (<[conn_id := Some (S (lv_sessions (virt s)))]>) s1,
                     inr (S (lv_sessions (virt s)))))
      by (now rewrite (bind_ok _ _ s s1 _ Hrun)).
    destruct Hslot as [-> | ->]; exact Hgo.
  - simpl. rewrite Hconn. repeat split; auto.
    unfold LibvirtConnection.get, bind, gets. simpl.
    now rewrite lookup_insert_eq.
Qed.

Lemma get_opens_and_memoizes_witness :
  exists s',
    LibvirtConnection.get 0 (set_connections (<[0 := None]>) (model_on world0))
    = (s', inr 2%nat)
    /\ connections s' = <[0 := Some 2%nat]> (<[0 := None]> {[0 := Some 1%nat]}).
Proof.
  destruct (get_opens_and_memoizes 0
              (set_connections (<[0 := None]>) (model_on world0)))
    as (s' & H1 & H2 & _).
  - right. vm_compute. reflexivity.
  - vm_compute. lia.
  - exists s'. split; [exact H1|exact H2].
Defined.

(** X2.  [get] on a slot that holds no session, when five opens or more in
    a row fail: exactly five attempts are made, each is logged, the engine
    is stopped, the error of the last attempt is raised and the slot is
    left as it was. *)
Theorem get_gives_up_after_five (conn_id : Z) (s : Model) :
  connections s !! conn_id = None \/ connections s !! conn_id = Some None ->
  (5 <= lv_open_failures (virt s))%nat ->
  exists s',
    LibvirtConnection.get conn_id s = (s', inl open_error)
    /\ lv_open_failures (virt s') = (lv_open_failures (virt s) - 5)%nat
    /\ log s' = (log s ++ repeat "Unable to connect to libvirt." 5
                 ++ ["Libvirt is not available, exiting."])%list
    /\ engine_stopped s' = true
    /\ connections s' = connections s.
Proof.
  intros Hslot Hge.
  destruct (open_loop_gives_up 4 s ltac:(lia))
    as (s1 & Hrun & Hf & _ & Hlog & Hconn & Hstop).
  exists s1. split; [|auto].
  unfold LibvirtConnection.get, bind at 1, gets at 1.
  assert (Hgo : (let* c := LibvirtConnection.open_loop 4 in
                 modify (set_connections (<[conn_id := Some c]>)) ;; ret c) s
                = (s1, inl open_error))
    by (now apply bind_err).
  destruct Hslot as [-> | ->]; exact Hgo.
Qed.

Lemma get_gives_up_after_five_witness :
  exists s',
    LibvirtConnection.get 0 unreachable_libvirt = (s', inl open_error)
    /\ engine_stopped s' = true
    /\ lv_open_failures (virt s') = 2%nat.
Proof.
  destruct (get_gives_up_after_five 0 unreachable_libvirt)
    as (s' & H1 & H2 & _ & H3 & _).
  - left. vm_compute. reflexivity.
  - vm_compute. lia.
  - exists s'. repeat split; [exact H1|exact H3|exact H2].
Defined.

(** X3.  Reconnection.  A wrapped call that fails on an established
    session: if the error is connection-class, the next [get] opens a new
    session (when libvirt lets it within the five attempts) and memoizes it;
    otherwise the next [get] returns the session that was there and opens
    nothing. *)
Theorem get_after_failed_call {A} (conn_id : Z) (f : M libvirt_world A)
    (s : Model) (w' : libvirt_world) (e : exn) (c : nat) :
  connections s !! conn_id = Some (Some c) ->
  f (virt s) = (w', inl e) ->
  (connection_class e -> (lv_open_failures w' <= 4)%nat ->
   exists s2,
     LibvirtConnection.get conn_id
       (LibvirtConnection.wrapMethod conn_id f s).1
     = (s2, inr (S (lv_sessions w')))
     /\ connections s2 !! conn_id = Some (Some (S (lv_sessions w')))
     /\ lv_sessions (virt s2) = S (lv_sessions w'))
  /\ (~ connection_class e ->
      LibvirtConnection.get conn_id
        (LibvirtConnection.wrapMethod conn_id f s).1
      = ((LibvirtConnection.wrapMethod conn_id f s).1, inr c)
      /\ lv_sessions (virt (LibvirtConnection.wrapMethod conn_id f s).1)
         = lv_sessions w').
Proof.
  intros Hc Hf. split.
  - intros Hcls Hle.
    rewrite (wrapMethod_err_conn conn_id f s w' e Hf Hcls). simpl.
    set (s1 := set_connections _ _).
    assert (Hslot : connections s1 !! conn_id = Some None)
      by (subst s1; simpl; apply lookup_insert_eq).
    destruct (open_loop_succeeds 4 s1 Hle)
      as (s2 & Hrun & _ & Hses & _).
    exists (set_connections (<[conn_id := Some (S (lv_sessions w'))]>) s2).
    split; [|split].
    + unfold LibvirtConnection.get, bind at 1, gets at 1. rewrite Hslot.
      now rewrite (bind_ok _ _ s1 s2 _ Hrun).
    + simpl. apply lookup_insert_eq.
    + simpl. exact Hses.
  - intros Hn.
    rewrite (wrapMethod_err_other conn_id f s w' e Hf Hn). simpl.
    split; [|reflexivity].
    unfold LibvirtConnection.get, bind, gets. simpl. now rewrite Hc.
Qed.

Lemma get_after_failed_call_witness :
  (exists s2,
     LibvirtConnection.get 0
       (LibvirtConnection.wrapMethod 0 broken_pipe (model_on world0)).1
     = (s2, inr 2%nat)
     /\ connections s2 !! 0 = Some (Some 2%nat)
     /\ lv_sessions (virt s2) = 2%nat)
  /\ LibvirtConnection.get 0
       (LibvirtConnection.wrapMethod 0 (lookupByName "ghost")
          (model_on world0)).1
     = ((LibvirtConnection.wrapMethod 0 (lookupByName "ghost")
           (model_on world0)).1, inr 1%nat).
Proof.
  assert (Hc : connections (model_on world0) !! 0 = Some (Some 1%nat))
    by (vm_compute; reflexivity).
  split.
  - apply (proj1 (get_after_failed_call 0 broken_pipe (model_on world0) world0
                    open_error_pipe 1 Hc eq_refl)).
    + exists VIR_FROM_RPC, VIR_ERR_SYSTEM_ERROR, "broken pipe". auto 6.
    + vm_compute. lia.
  - apply (proj2 (get_after_failed_call 0 (lookupByName "ghost")
                    (model_on world0) world0
                    (libvirtError VIR_FROM_QEMU VIR_ERR_NO_DOMAIN
                       "Domain not found: ghost") 1 Hc eq_refl)).
    apply not_connection_class_code. vm_compute.
    intros Hin. repeat (apply elem_of_cons in Hin as [Hin|Hin]; [discriminate|]).
    inversion Hin.
Defined.

(** ** Templates: create, look up, update, delete *)

Lemma set_objstore_id s : set_objstore (fun _ => objstore s) s = s.
Proof. now destruct s. Qed.

Lemma templates_create_fresh params s :
  objstore s !! ("template", ti_name params) = None ->
  templates_create params s
  = (set_objstore (<[("template", ti_name params) := TemplateRecord params]>) s,
     inr (ti_name params)).
Proof.
  intros H. unfold templates_create, bind, session_get_list, gets.
  rewrite bool_decide_eq_false_2; [reflexivity|].
  rewrite elem_of_store_ids, H. intros [x Hx]. discriminate.
Qed.

Lemma template_delete_there name s r :
  objstore s !! ("template", name) = Some r ->
  template_delete name s
  = (set_objstore (delete ("template", name)) s, inr tt).
Proof.
  intros H. unfold template_delete, session_delete, bind, gets. now rewrite H.
Qed.

Lemma template_delete_missing name s :
  objstore s !! ("template", name) = None ->
  template_delete name s = (s, inl (NotFoundError name)).
Proof.
  intros H. unfold template_delete, session_delete, bind, gets. now rewrite H.
Qed.

Lemma template_lookup_missing name s :
  objstore s !! ("template", name) = None ->
  template_lookup name s = (s, inl (NotFoundError name)).
Proof.
  intros H. unfold template_lookup, _get_template, session_get, bind, gets.
  now rewrite H.
Qed.

(** X4.  The life of a template.  Created under a name that is free, it is
    what a lookup of that name returns and its name is listed, with the
    names that were; a second create under the name is refused and changes
    nothing; once deleted the store is what it was before the create, and a
    lookup or a second delete of the name raises [NotFoundError]. *)
Theorem template_create_lookup_delete (params : template_info) (s : Model) :
  objstore s !! ("template", ti_name params) = None ->
  exists s1 s2,
    templates_create params s = (s1, inr (ti_name params))
    /\ template_lookup (ti_name params) s1 = (s1, inr params)
    /\ (exists l, templates_get_list s1 = (s1, inr l)
                  /\ forall n, n ∈ l <-> n = ti_name params
                                        \/ n ∈ store_ids "template" (objstore s))
    /\ templates_create params s1
       = (s1, inl (InvalidOperation "Template already exists"))
    /\ template_delete (ti_name params) s1 = (s2, inr tt)
    /\ objstore s2 = objstore s
    /\ template_lookup (ti_name params) s2
       = (s2, inl (NotFoundError (ti_name params)))
    /\ template_delete (ti_name params) s2
       = (s2, inl (NotFoundError (ti_name params))).
Proof.
  intros Hfree.
  set (k := ("template", ti_name params)).
  set (s1 := set_objstore (<[k := TemplateRecord params]>) s).
  set (s2 := set_objstore (delete k) s1).
  assert (H1 : objstore s1 !! k = Some (TemplateRecord params))
    by apply lookup_insert_eq.
  assert (H2 : objstore s2 = objstore s).
  { subst s2 s1. simpl. now apply delete_insert_id. }
  exists s1, s2. split; [now apply templates_create_fresh|].
  split; [exact (_get_template_ok _ None s1 params H1)|].
  split.
  { exists (store_ids "template" (objstore s1)). split; [reflexivity|].
    intros n. rewrite !elem_of_store_ids. subst s1. simpl.
    destruct (decide (n = ti_name params)) as [->|Hne].
    - fold k. rewrite lookup_insert_eq. split; [now left | now eexists].
    - rewrite lookup_insert_ne by (subst k; congruence). tauto. }
  split; [apply templates_create_duplicate; eexists; exact H1|].
  split; [exact (template_delete_there _ s1 _ H1)|].
  split; [exact H2|].
  split.
  - apply template_lookup_missing. now rewrite H2.
  - apply template_delete_missing. now rewrite H2.
Qed.

Lemma template_create_lookup_delete_witness :
  exists s1 s2,
    templates_create tmpl (model_on world0) = (s1, inr "tmpl")
    /\ template_lookup "tmpl" s1 = (s1, inr tmpl)
    /\ template_delete "tmpl" s1 = (s2, inr tt)
    /\ objstore s2 = objstore (model_on world0).
Proof.
  destruct (template_create_lookup_delete tmpl (model_on world0))
    as (s1 & s2 & H1 & H2 & _ & _ & H3 & H4 & _).
  - vm_compute. reflexivity.
  - exists s1, s2. auto.
Defined.

Lemma call_pool_lookup_missing name s :
  lv_pools (virt s) !! name = None ->
  call (storagePoolLookupByName name) s
  = (s, inl (libvirtError VIR_FROM_STORAGE VIR_ERR_NO_STORAGE_POOL
               ("Storage pool not found: " +:+ name))).
Proof.
  intros H. unfold call.
  rewrite (wrapMethod_err_other 0 (storagePoolLookupByName name) s (virt s)
             (libvirtError VIR_FROM_STORAGE VIR_ERR_NO_STORAGE_POOL
                ("Storage pool not found: " +:+ name))).
  - now rewrite set_virt_id.
  - unfold storagePoolLookupByName. now rewrite H.
  - apply not_connection_class_code. vm_compute.
    intros Hin. repeat (apply elem_of_cons in Hin as [Hin|Hin]; [discriminate|]).
    inversion Hin.
Qed.

Lemma _get_storagepool_missing name s :
  connected s -> lv_pools (virt s) !! name = None ->
  _get_storagepool name s
  = (s, inl (NotFoundError ("Storage Pool '" +:+ name +:+ "' not found"))).
Proof.
  intros [c Hc] H. unfold _get_storagepool.
  rewrite (bind_ok _ _ s s c (connected_get s c Hc)).
  rewrite (try_err _ _ s s _ (call_pool_lookup_missing name s H)).
  reflexivity.
Qed.

Lemma _get_storagepool_ok name s pl :
  connected s -> lv_pools (virt s) !! name = Some pl ->
  _get_storagepool name s = (s, inr name).
Proof.
  intros [c Hc] H. unfold _get_storagepool.
  rewrite (bind_ok _ _ s s c (connected_get s c Hc)).
  apply try_ok. apply call_read. unfold storagePoolLookupByName. now rewrite H.
Qed.

(** X5.  [template_update] checks the storage pool of the updated template
    before it touches the store: when the pool's URI does not name a pool
    that exists, for a URI that is no pool URI at all or for a pool libvirt
    does not know, it raises [InvalidParameter] and the state is what it
    was, the stored template included. *)
Theorem template_update_invalid_pool (name : string)
    (params : template_changes) (s : Model) (old_t : template_info) :
  connected s ->
  objstore s !! ("template", name) = Some (TemplateRecord old_t) ->
  let uri := ti_storagepool (dict_update params old_t) in
  (pool_name_from_uri uri = inl (InvalidParameter uri) ->
   template_update name params s
   = (s, inl (InvalidParameter
                ("Storagepool specified is not valid: " +:+ uri +:+ "."))))
  /\ (forall pname,
      pool_name_from_uri uri = inr pname ->
      lv_pools (virt s) !! pname = None ->
      template_update name params s
      = (s, inl (InvalidParameter
                   ("Storagepool specified is not valid: "
                    +:+ ("Storage Pool '" +:+ pname +:+ "' not found")
                    +:+ ".")))).
Proof.
  intros Hc Hold uri. split.
  - intros Huri. unfold template_update.
    rewrite (bind_ok _ _ s s old_t (_get_template_ok name None s old_t Hold)).
    apply bind_err.
    rewrite (try_err _ _ s s (InvalidParameter uri)); [reflexivity|].
    apply bind_err. fold uri. rewrite Huri. reflexivity.
  - intros pname Huri Hnone. unfold template_update.
    rewrite (bind_ok _ _ s s old_t (_get_template_ok name None s old_t Hold)).
    apply bind_err.
    rewrite (try_err _ _ s s
               (NotFoundError ("Storage Pool '" +:+ pname +:+ "' not found")));
      [reflexivity|].
    fold uri. rewrite Huri.
    rewrite (bind_ok _ _ s s pname (lift_run _ s)).
    apply bind_err. now apply _get_storagepool_missing.
Qed.

Lemma template_update_invalid_pool_witness :
  template_update "tmpl"
    {| tc_name := None; tc_icon := None; tc_iso_stream := None;
       tc_storagepool := Some "/storagepools/nowhere"; tc_network := None;
       tc_memory := None; tc_cpus := None; tc_disks := None |}
    with_tmpl
  = (with_tmpl,
     inl (InvalidParameter
            "Storagepool specified is not valid: Storage Pool 'nowhere' not found."))
  /\ template_update "tmpl"
       {| tc_name := None; tc_icon := None; tc_iso_stream := None;
          tc_storagepool := Some "default"; tc_network := None;
          tc_memory := None; tc_cpus := None; tc_disks := None |}
       with_tmpl
     = (with_tmpl,
        inl (InvalidParameter "Storagepool specified is not valid: default.")).
Proof.
  assert (Hc : connected with_tmpl) by (exists 1%nat; vm_compute; reflexivity).
  assert (Hold : objstore with_tmpl !! ("template", "tmpl")
                 = Some (TemplateRecord tmpl)) by (vm_compute; reflexivity).
  split.
  - rewrite (proj2 (template_update_invalid_pool "tmpl" _ with_tmpl tmpl
                      Hc Hold) "nowhere").
    + reflexivity.
    + vm_compute. reflexivity.
    + vm_compute. reflexivity.
  - rewrite (proj1 (template_update_invalid_pool "tmpl" _ with_tmpl tmpl
                      Hc Hold)).
    + reflexivity.
    + vm_compute. reflexivity.
Defined.

(** X6.  A successful [template_update]: with the pool of the updated
    template known to libvirt and the new name either the old one or free,
    the template stored under the old name is replaced by the updated one
    under its own name, which is returned; nothing else in the store
    moves. *)
Theorem template_update_replaces (name pname : string)
    (params : template_changes) (s : Model) (old_t : template_info)
    (pl : pool) :
  let new_t := dict_update params old_t in
  connected s ->
  objstore s !! ("template", name) = Some (TemplateRecord old_t) ->
  pool_name_from_uri (ti_storagepool new_t) = inr pname ->
  lv_pools (virt s) !! pname = Some pl ->
  ti_name new_t = name \/ objstore s !! ("template", ti_name new_t) = None ->
  template_update name params s
  = (set_objstore (fun o => <[("template", ti_name new_t) := TemplateRecord new_t]>
                              (delete ("template", name) o)) s,
     inr (ti_name new_t)).
Proof.
  intros new_t Hc Hold Huri Hpl Hfree. unfold template_update.
  rewrite (bind_ok _ _ s s old_t (_get_template_ok name None s old_t Hold)).
  fold new_t.
  rewrite (bind_ok _ _ s s tt).
  2:{ apply try_ok. rewrite Huri.
      rewrite (bind_ok _ _ s s pname (lift_run _ s)).
      now rewrite (bind_ok _ _ s s pname (_get_storagepool_ok pname s pl Hc Hpl)). }
  rewrite (bind_ok _ _ s _ tt (template_delete_there name s _ Hold)).
  assert (Hnew : objstore (set_objstore (delete ("template", name)) s)
                   !! ("template", ti_name new_t) = None).
  { change (delete ("template", name) (objstore s)
              !! ("template", ti_name new_t) = None).
    destruct (decide (ti_name new_t = name)) as [Heq | Hne].
    - rewrite Heq. apply lookup_delete_eq.
    - destruct Hfree as [Heq | Hnone]; [contradiction|].
      rewrite lookup_delete_ne by congruence. exact Hnone. }
  rewrite (try_ok _ _ _ _ _ (templates_create_fresh new_t _ Hnew)).
  reflexivity.
Qed.

Lemma template_update_replaces_witness :
  (template_update "tmpl"
     {| tc_name := Some "renamed"; tc_icon := None; tc_iso_stream := None;
        tc_storagepool := None; tc_network := None;
        tc_memory := Some 2048; tc_cpus := None; tc_disks := None |}
     with_tmpl).2 = inr "renamed".
Proof.
  rewrite (template_update_replaces "tmpl" "default" _ with_tmpl tmpl
             default_pool).
  - reflexivity.
  - exists 1%nat. vm_compute. reflexivity.
  - vm_compute. reflexivity.
  - vm_compute. reflexivity.
  - vm_compute. reflexivity.
  - right. vm_compute. reflexivity.
Defined.

(** X7.  A rename onto a name that is taken.  When [template_update] asks
    for the name of another stored template, the create of the updated
    template is refused after the old one has been deleted; the handler
    stores the old template again and the error goes on: the caller gets
    [InvalidOperation] and the state, its store included, is what it was. *)
Theorem template_update_name_taken (name new pname : string)
    (params : template_changes) (s : Model) (old_t : template_info)
    (pl : pool) :
  let new_t := dict_update params old_t in
  connected s ->
  objstore s !! ("template", name) = Some (TemplateRecord old_t) ->
  ti_name old_t = name ->
  tc_name params = Some new -> new <> name ->
  is_Some (objstore s !! ("template", new)) ->
  pool_name_from_uri (ti_storagepool new_t) = inr pname ->
  lv_pools (virt s) !! pname = Some pl ->
  template_update name params s
  = (s, inl (InvalidOperation "Template already exists")).
Proof.
  intros new_t Hc Hold Hkey Hnew Hne Htaken Huri Hpl. unfold template_update.
  rewrite (bind_ok _ _ s s old_t (_get_template_ok name None s old_t Hold)).
  fold new_t.
  rewrite (bind_ok _ _ s s tt).
  2:{ apply try_ok. rewrite Huri.
      rewrite (bind_ok _ _ s s pname (lift_run _ s)).
      now rewrite (bind_ok _ _ s s pname (_get_storagepool_ok pname s pl Hc Hpl)). }
  rewrite (bind_ok _ _ s _ tt (template_delete_there name s _ Hold)).
  set (s1 := set_objstore (delete ("template", name)) s).
  assert (Hname : ti_name new_t = new).
  { subst new_t. unfold dict_update. simpl. now rewrite Hnew. }
  rewrite (try_err _ _ s1 s1 (InvalidOperation "Template already exists")).
  2:{ apply templates_create_duplicate. rewrite Hname. subst s1. simpl.
      rewrite lookup_delete_ne by congruence. exact Htaken. }
  rewrite (bind_ok _ _ s1 s (ti_name old_t)); [reflexivity|].
  rewrite templates_create_fresh.
  - f_equal. subst s1. rewrite Hkey. destruct s. unfold set_objstore. simpl.
    f_equal. now apply insert_delete_id.
  - rewrite Hkey. subst s1. simpl. apply lookup_delete_eq.
Qed.

Lemma template_update_name_taken_witness :
  template_update "tmpl"
    {| tc_name := Some "other"; tc_icon := None; tc_iso_stream := None;
       tc_storagepool := None; tc_network := None;
       tc_memory := None; tc_cpus := None; tc_disks := None |}
    with_two_tmpl
  = (with_two_tmpl, inl (InvalidOperation "Template already exists")).
Proof.
  apply (template_update_name_taken "tmpl" "other" "default" _ with_two_tmpl
           tmpl default_pool).
  - exists 1%nat. vm_compute. reflexivity.
  - vm_compute. reflexivity.
  - reflexivity.
  - reflexivity.
  - discriminate.
  - vm_compute. eexists. reflexivity.
  - vm_compute. reflexivity.
  - vm_compute. reflexivity.
Defined.

(** ** Networks: activate, deactivate, delete *)

Lemma not_connection_class_invalid edom msg :
  ~ connection_class (libvirtError edom VIR_ERR_OPERATION_INVALID msg).
Proof.
  apply not_connection_class_code. vm_compute.
  intros Hin. repeat (apply elem_of_cons in Hin as [Hin|Hin]; [discriminate|]).
  inversion Hin.
Qed.

Lemma set_lv_networks_id w : set_lv_networks (fun _ => lv_networks w) w = w.
Proof. now destruct w. Qed.

Lemma set_lv_pools_id w : set_lv_pools (fun _ => lv_pools w) w = w.
Proof. now destruct w. Qed.

Lemma _get_network_ok name s nw :
  connected s -> lv_networks (virt s) !! name = Some nw ->
  _get_network name s = (s, inr name).
Proof.
  intros [c Hc] H. unfold _get_network.
  rewrite (bind_ok _ _ s s c (connected_get s c Hc)).
  apply try_ok. apply call_read. unfold networkLookupByName. now rewrite H.
Qed.

Lemma call_network_isActive name s nw :
  lv_networks (virt s) !! name = Some nw ->
  call (network_isActive name) s = (s, inr (nw_active nw)).
Proof.
  intros H. apply call_read. unfold network_isActive, on_network. cbv beta.
  now rewrite H.
Qed.

(** X8.  [network_delete] removes a network only when it is inactive: for an
    active network it raises [InvalidOperation] and nothing changes; for an
    inactive one the network is undefined, and only that: the other
    networks and everything beyond libvirt stay, and the name is listed no
    more. *)
Theorem network_delete_only_inactive (name : string) (s : Model)
    (nw : network) :
  connected s ->
  lv_networks (virt s) !! name = Some nw ->
  (nw_active nw = true ->
   network_delete name s
   = (s, inl (InvalidOperation
                ("Unable to delete the active network " +:+ name))))
  /\ (nw_active nw = false ->
      exists s',
        network_delete name s = (s', inr tt)
        /\ lv_networks (virt s') = delete name (lv_networks (virt s))
        /\ same_beyond_session s s'
        /\ connections s' = connections s
        /\ exists l, networks_get_list s' = (s', inr l) /\ name ∉ l).
Proof.
  intros Hc Hnw. split; intros Hact; unfold network_delete;
    rewrite (bind_ok _ _ s s name (_get_network_ok name s nw Hc Hnw));
    rewrite (bind_ok _ _ s s _ (call_network_isActive name s nw Hnw));
    rewrite Hact; [reflexivity|].
  set (w' := set_lv_networks (delete name) (virt s)).
  assert (Hun : call (network_undefine name) s = (set_virt w' s, inr tt)).
  { apply call_ok. unfold network_undefine, on_network. cbv beta.
    now rewrite Hnw, Hact. }
  exists (set_virt w' s). split; [exact Hun|]. split; [reflexivity|].
  split; [repeat split|]. split; [reflexivity|].
  exists (network_names w'). split.
  - apply networks_get_list_connected. now apply connected_set_virt.
  - unfold network_names. rewrite (elem_of_listing nw_active).
    subst w'. simpl. rewrite lookup_delete_eq. intros [x Hx]. discriminate.
Qed.

Lemma network_delete_only_inactive_witness :
  network_delete "default" (model_on world0)
  = (model_on world0,
     inl (InvalidOperation "Unable to delete the active network default"))
  /\ exists s',
       network_delete "lab" with_lab = (s', inr tt)
       /\ lv_networks (virt s') = delete "lab" (lv_networks (virt with_lab)).
Proof.
  split.
  - apply (proj1 (network_delete_only_inactive "default" (model_on world0)
                    default_network
                    ltac:(exists 1%nat; vm_compute; reflexivity) eq_refl)).
    reflexivity.
  - assert (Hnw : lv_networks (virt with_lab) !! "lab" = Some lab_network)
      by (vm_compute; reflexivity).
    destruct (proj2 (network_delete_only_inactive "lab" with_lab lab_network
                       ltac:(exists 1%nat; vm_compute; reflexivity) Hnw)
                eq_refl)
      as (s' & H1 & H2 & _).
    exists s'. auto.
Defined.

(** X9.  Activating and deactivating a network compose to nothing.  From an
    inactive network, [network_activate] makes it active; while it is active
    a second [network_activate] lets libvirt's error through as it is, and
    [network_deactivate] brings back the state the first call started
    from. *)
Theorem network_activate_deactivate (name : string) (s : Model)
    (nw : network) :
  connected s ->
  lv_networks (virt s) !! name = Some nw ->
  nw_active nw = false ->
  exists s1,
    network_activate name s = (s1, inr tt)
    /\ lv_networks (virt s1)
       = <[name := set_nw_active true nw]> (lv_networks (virt s))
    /\ network_activate name s1
       = (s1, inl (libvirtError VIR_FROM_NETWORK VIR_ERR_OPERATION_INVALID
                     "network is already active"))
    /\ network_deactivate name s1 = (s, inr tt)
    /\ network_deactivate name s
       = (s, inl (libvirtError VIR_FROM_NETWORK VIR_ERR_OPERATION_INVALID
                    "network is not active")).
Proof.
  intros Hc Hnw Hact.
  set (w1 := set_lv_networks (<[name := set_nw_active true nw]>) (virt s)).
  set (s1 := set_virt w1 s).
  assert (Hc1 : connected s1) by now apply connected_set_virt.
  assert (Hnw1 : lv_networks (virt s1) !! name
                 = Some (set_nw_active true nw)) by apply lookup_insert_eq.
  exists s1. split; [|split; [reflexivity|split; [|split]]].
  - unfold network_activate.
    rewrite (bind_ok _ _ s s name (_get_network_ok name s nw Hc Hnw)).
    apply call_ok. unfold network_create, on_network. cbv beta.
    now rewrite Hnw, Hact.
  - unfold network_activate.
    rewrite (bind_ok _ _ s1 s1 name (_get_network_ok name s1 _ Hc1 Hnw1)).
    unfold call.
    rewrite (wrapMethod_err_other 0 _ s1 (virt s1)
               (libvirtError VIR_FROM_NETWORK VIR_ERR_OPERATION_INVALID
                  "network is already active")).
    + now rewrite set_virt_id.
    + unfold network_create, on_network. cbv beta. now rewrite Hnw1.
    + apply not_connection_class_invalid.
  - unfold network_deactivate.
    rewrite (bind_ok _ _ s1 s1 name (_get_network_ok name s1 _ Hc1 Hnw1)).
    rewrite (call_ok _ s1 (virt s) tt).
    + subst s1. destruct s. reflexivity.
    + unfold network_destroy, on_network. cbv beta. rewrite Hnw1.
      simpl. unfold modify. f_equal.
      subst w1. unfold set_lv_networks. simpl.
      rewrite insert_insert_eq.
      replace (set_nw_active false (set_nw_active true nw)) with nw
        by (destruct nw; simpl in *; now subst).
      rewrite (insert_id _ _ _ Hnw). now destruct (virt s).
  - unfold network_deactivate.
    rewrite (bind_ok _ _ s s name (_get_network_ok name s nw Hc Hnw)).
    unfold call.
    rewrite (wrapMethod_err_other 0 _ s (virt s)
               (libvirtError VIR_FROM_NETWORK VIR_ERR_OPERATION_INVALID
                  "network is not active")).
    + now rewrite set_virt_id.
    + unfold network_destroy, on_network. cbv beta. now rewrite Hnw, Hact.
    + apply not_connection_class_invalid.
Qed.

Lemma network_activate_deactivate_witness :
  exists s1,
    network_activate "lab" with_lab = (s1, inr tt)
    /\ network_deactivate "lab" s1 = (with_lab, inr tt).
Proof.
  destruct (network_activate_deactivate "lab" with_lab lab_network)
    as (s1 & H1 & _ & _ & H2 & _).
  - exists 1%nat. vm_compute. reflexivity.
  - vm_compute. reflexivity.
  - reflexivity.
  - exists s1. auto.
Defined.

(** ** Storage pools: update, activate, deactivate, delete *)

Lemma call_pool_isActive name s pl :
  lv_pools (virt s) !! name = Some pl ->
  call (pool_isActive name) s = (s, inr (pl_active pl)).
Proof.
  intros H. apply call_read. unfold pool_isActive, on_pool. cbv beta.
  now rewrite H.
Qed.

(** X10.  [storagepool_update] validates the flag before it looks at the
    pool: a request without the key raises [KeyError] and a value that is
    neither a boolean nor the number one or zero raises [InvalidOperation],
    in any state and for any name, with nothing changed.  A valid flag on a
    pool that exists sets its autostart to the truth value of the flag,
    touches nothing else and returns the pool's name. *)
Theorem storagepool_update_flag (name : string) (v : json) (s : Model) :
  storagepool_update name None s = (s, inl (KeyError "autostart"))
  /\ (in_true_false v = false ->
      storagepool_update name (Some v) s
      = (s, inl (InvalidOperation "Autostart flag must be true or false")))
  /\ (in_true_false v = true -> connected s ->
      forall pl, lv_pools (virt s) !! name = Some pl ->
      exists s',
        storagepool_update name (Some v) s = (s', inr name)
        /\ lv_pools (virt s')
           = <[name := set_pl_autostart (py_bool v) pl]> (lv_pools (virt s))
        /\ lv_domains (virt s') = lv_domains (virt s)
        /\ lv_volumes (virt s') = lv_volumes (virt s)
        /\ lv_networks (virt s') = lv_networks (virt s)
        /\ same_beyond_session s s').
Proof.
  split; [reflexivity|]. split.
  - intros Hv. unfold storagepool_update. simpl. unfold bind, ret.
    now rewrite Hv.
  - intros Hv Hc pl Hpl. unfold storagepool_update. simpl.
    unfold bind at 1, ret at 1. rewrite Hv. simpl.
    rewrite (bind_ok _ _ s s name (_get_storagepool_ok name s pl Hc Hpl)).
    set (w' := set_lv_pools (<[name := set_pl_autostart (py_bool v) pl]>)
                 (virt s)).
    exists (set_virt w' s).
    split; [|split; [reflexivity|split; [reflexivity|split; [reflexivity|
             split; [reflexivity|repeat split]]]]].
    rewrite (bind_ok _ _ s (set_virt w' s) tt); [reflexivity|].
    assert (Hset : forall b, b = py_bool v ->
              call (pool_setAutostart name b) s = (set_virt w' s, inr tt)).
    { intros b ->. apply call_ok. unfold pool_setAutostart, on_pool. cbv beta.
      now rewrite Hpl. }
    destruct (py_bool v) eqn:Hb; now apply Hset.
Qed.

Lemma storagepool_update_flag_witness :
  (exists s',
     storagepool_update "default" (Some (JNum 0)) (model_on world0)
     = (s', inr "default")
     /\ lv_pools (virt s')
        = <["default" := set_pl_autostart false default_pool]>
            (lv_pools (virt (model_on world0))))
  /\ storagepool_update "ghost" (Some (JStr "yes")) (model_on world0)
     = (model_on world0,
        inl (InvalidOperation "Autostart flag must be true or false")).
Proof.
  split.
  - destruct (proj2 (proj2 (storagepool_update_flag "default" (JNum 0)
                              (model_on world0)))
                eq_refl ltac:(exists 1%nat; vm_compute; reflexivity)
                default_pool eq_refl)
      as (s' & H1 & H2 & _).
    exists s'. split; [exact H1|exact H2].
  - apply (proj1 (proj2 (storagepool_update_flag "ghost" (JStr "yes")
                           (model_on world0)))).
    reflexivity.
Defined.

(** X11.  [storagepool_delete] removes a pool only when it is inactive: for
    an active pool it raises [InvalidOperation] and nothing changes, for a
    name libvirt does not know it raises [NotFoundError] and nothing
    changes, and for an inactive pool the pool is undefined, the other
    pools and the volumes staying, and the name is listed no more. *)
Theorem storagepool_delete_only_inactive (name : string) (s : Model) :
  connected s ->
  (lv_pools (virt s) !! name = None ->
   storagepool_delete name s
   = (s, inl (NotFoundError ("Storage Pool '" +:+ name +:+ "' not found"))))
  /\ (forall pl, lv_pools (virt s) !! name = Some pl ->
      (pl_active pl = true ->
       storagepool_delete name s
       = (s, inl (InvalidOperation
                    ("Unable to delete the active storagepool " +:+ name))))
      /\ (pl_active pl = false ->
          exists s',
            storagepool_delete name s = (s', inr tt)
            /\ lv_pools (virt s') = delete name (lv_pools (virt s))
            /\ lv_volumes (virt s') = lv_volumes (virt s)
            /\ same_beyond_session s s'
            /\ exists l, storagepools_get_list s' = (s', inr l) /\ name ∉ l)).
Proof.
  intros Hc. split.
  - intros Hnone. unfold storagepool_delete. apply bind_err.
    now apply _get_storagepool_missing.
  - intros pl Hpl. split; intros Hact; unfold storagepool_delete;
      rewrite (bind_ok _ _ s s name (_get_storagepool_ok name s pl Hc Hpl));
      rewrite (bind_ok _ _ s s _ (call_pool_isActive name s pl Hpl));
      rewrite Hact; [reflexivity|].
    set (w' := set_lv_pools (delete name) (virt s)).
    exists (set_virt w' s). split.
    { apply try_ok. apply call_ok. unfold pool_undefine, on_pool. cbv beta.
      now rewrite Hpl, Hact. }
    split; [reflexivity|]. split; [reflexivity|]. split; [repeat split|].
    exists (pool_names w'). split.
    + apply storagepools_get_list_connected. now apply connected_set_virt.
    + unfold pool_names. rewrite (elem_of_listing pl_active).
      subst w'. simpl. rewrite lookup_delete_eq. intros [x Hx]. discriminate.
Qed.

Lemma storagepool_delete_only_inactive_witness :
  storagepool_delete "default" (model_on world0)
  = (model_on world0,
     inl (InvalidOperation "Unable to delete the active storagepool default"))
  /\ storagepool_delete "ghost" (model_on world0)
     = (model_on world0, inl (NotFoundError "Storage Pool 'ghost' not found"))
  /\ exists s',
       storagepool_delete "p" with_pool_p = (s', inr tt)
       /\ lv_pools (virt s') = delete "p" (lv_pools (virt with_pool_p)).
Proof.
  assert (Hc : connected (model_on world0))
    by (exists 1%nat; vm_compute; reflexivity).
  assert (Hcp : connected with_pool_p)
    by (exists 1%nat; vm_compute; reflexivity).
  split; [|split].
  - apply (proj1 (proj2 (storagepool_delete_only_inactive "default"
                           (model_on world0) Hc) default_pool eq_refl)).
    reflexivity.
  - apply (proj1 (storagepool_delete_only_inactive "ghost"
                    (model_on world0) Hc)).
    vm_compute. reflexivity.
  - assert (Hp : lv_pools (virt with_pool_p) !! "p"
                 = Some {| pl_type := "dir"; pl_path := "/srv/p";
                           pl_active := false; pl_persistent := true;
                           pl_autostart := true |})
      by (vm_compute; reflexivity).
    destruct (proj2 (proj2 (storagepool_delete_only_inactive "p" with_pool_p
                              Hcp) _ Hp) eq_refl)
      as (s' & H1 & H2 & _).
    exists s'. auto.
Defined.

(** X12.  [storagepool_activate] and [storagepool_deactivate] turn libvirt's
    refusal into [OperationFailed] with libvirt's message, the state
    staying as it was: activating a pool that is active, deactivating one
    that is not.  Activating an inactive pool makes it active and changes
    nothing else. *)
Theorem storagepool_activate_deactivate (name : string) (s : Model)
    (pl : pool) :
  connected s ->
  lv_pools (virt s) !! name = Some pl ->
  (pl_active pl = true ->
   storagepool_activate name s
   = (s, inl (OperationFailed "storage pool is already active")))
  /\ (pl_active pl = false ->
      storagepool_deactivate name s
      = (s, inl (OperationFailed "storage pool is not active"))
      /\ exists s',
           storagepool_activate name s = (s', inr tt)
           /\ lv_pools (virt s')
              = <[name := set_pl_active true pl]> (lv_pools (virt s))
           /\ lv_volumes (virt s') = lv_volumes (virt s)
           /\ same_beyond_session s s'
           /\ storagepool_activate name s'
              = (s', inl (OperationFailed "storage pool is already active"))).
Proof.
  intros Hc Hpl.
  assert (Hrefuse : forall s0 pl0 f msg,
    connected s0 -> lv_pools (virt s0) !! name = Some pl0 ->
    (f : string -> M libvirt_world unit) name (virt s0)
    = (virt s0, inl (libvirtError VIR_FROM_STORAGE VIR_ERR_OPERATION_INVALID
                       msg)) ->
    (let* pool := _get_storagepool name in
     try_except (call (f pool))
       (fun e => if is_libvirtError e
                 then raise (OperationFailed (get_error_message e))
                 else raise e)) s0
    = (s0, inl (OperationFailed msg))).
  { intros s0 pl0 f msg Hc0 Hpl0 Hf.
    rewrite (bind_ok _ _ s0 s0 name (_get_storagepool_ok name s0 pl0 Hc0 Hpl0)).
    rewrite (try_err _ _ s0 s0
               (libvirtError VIR_FROM_STORAGE VIR_ERR_OPERATION_INVALID msg));
      [reflexivity|].
    unfold call.
    rewrite (wrapMethod_err_other 0 (f name) s0 (virt s0) _ Hf
               (not_connection_class_invalid _ _)).
    now rewrite set_virt_id. }
  split.
  - intros Hact.
    refine (Hrefuse s pl pool_create _ Hc Hpl _).
    unfold pool_create, on_pool. cbv beta. now rewrite Hpl, Hact.
  - intros Hact. split.
    + refine (Hrefuse s pl pool_destroy _ Hc Hpl _).
      unfold pool_destroy, on_pool. cbv beta. now rewrite Hpl, Hact.
    + set (w' := set_lv_pools (<[name := set_pl_active true pl]>) (virt s)).
      exists (set_virt w' s). split.
      { unfold storagepool_activate.
        rewrite (bind_ok _ _ s s name (_get_storagepool_ok name s pl Hc Hpl)).
        apply try_ok. apply call_ok. unfold pool_create, on_pool. cbv beta.
        now rewrite Hpl, Hact. }
      split; [reflexivity|]. split; [reflexivity|]. split; [repeat split|].
      refine (Hrefuse (set_virt w' s) (set_pl_active true pl)
                pool_create _ _ _ _).
      * now apply connected_set_virt.
      * apply lookup_insert_eq.
      * unfold pool_create, on_pool. cbv beta. simpl.
        now rewrite lookup_insert_eq.
Qed.

Lemma storagepool_activate_deactivate_witness :
  storagepool_activate "default" (model_on world0)
  = (model_on world0, inl (OperationFailed "storage pool is already active"))
  /\ storagepool_deactivate "p" with_pool_p
     = (with_pool_p, inl (OperationFailed "storage pool is not active")).
Proof.
  split.
  - apply (proj1 (storagepool_activate_deactivate "default" (model_on world0)
                    default_pool
                    ltac:(exists 1%nat; vm_compute; reflexivity) eq_refl)).
    reflexivity.
  - assert (Hp : lv_pools (virt with_pool_p) !! "p"
                 = Some {| pl_type := "dir"; pl_path := "/srv/p";
                           pl_active := false; pl_persistent := true;
                           pl_autostart := true |})
      by (vm_compute; reflexivity).
    apply (proj1 (proj2 (storagepool_activate_deactivate "p" with_pool_p _
                           ltac:(exists 1%nat; vm_compute; reflexivity) Hp)
                    eq_refl)).
Defined.

(** ** Tasks *)

(** X13.  [add_task] hands out the task identifiers in sequence: it returns
    the current counter and moves it on by one, so two tasks added one after
    the other get consecutive identifiers; the task just added is what
    [task_lookup] of its identifier finds, and it is the last of the tasks
    started. *)
Theorem add_task_sequence (uri1 uri2 : string) (fn1 fn2 : work) (s : Model) :
  exists s1 s2,
    add_task uri1 fn1 s = (s1, inr (next_taskid s))
    /\ add_task uri2 fn2 s1 = (s2, inr (S (next_taskid s)))
    /\ next_taskid s2 = S (S (next_taskid s))
    /\ tasks s2 = (tasks s ++ [(next_taskid s, uri1, fn1);
                               (S (next_taskid s), uri2, fn2)])%list
    /\ task_lookup (next_taskid s) s1 = (s1, inr (TaskRecord "running" "OK"))
    /\ task_lookup (S (next_taskid s)) s2
       = (s2, inr (TaskRecord "running" "OK"))
    /\ (exists l, tasks_get_list s1 = (s1, inr l)
                  /\ fmt_i (next_taskid s) ∈ l)
    /\ virt s2 = virt s /\ connections s2 = connections s.
Proof.
  eexists. eexists.
  split; [unfold add_task, bind, gets, modify, AsyncTask, session_store, ret;
          simpl; rewrite Nat.add_1_r; reflexivity|].
  split; [unfold add_task, bind, gets, modify, AsyncTask, session_store, ret;
          simpl; rewrite Nat.add_1_r; reflexivity|].
  split; [reflexivity|].
  split; [simpl; now rewrite <- app_assoc|].
  split.
  { unfold task_lookup, session_get, bind, gets. simpl.
    now rewrite lookup_insert_eq. }
  split.
  { unfold task_lookup, session_get, bind, gets. simpl.
    now rewrite lookup_insert_eq. }
  split; [|split; reflexivity].
  eexists. split; [reflexivity|]. simpl.
  apply elem_of_store_ids. rewrite lookup_insert_eq. now eexists.
Qed.

(** ** Listing the virtual machines *)

Lemma insert_by_ordered key x l :
  ordered_by key l -> ordered_by key (insert_by key x l).
Proof.
  induction l as [|y l IH]; [simpl; auto|].
  intros Hord. simpl. destruct (String.leb (key x) (key y)) eqn:Hxy.
  - split; [exact Hxy|exact Hord].
  - destruct Hord as [Hhead Htail]. split; [|now apply IH].
    destruct l as [|z l]; simpl.
    + destruct (String.leb_total (key x) (key y)) as [H|H]; congruence.
    + destruct (String.leb (key x) (key z)); [|exact Hhead].
      destruct (String.leb_total (key x) (key y)) as [H|H]; congruence.
Qed.

Lemma sorted_by_ordered key l : ordered_by key (sorted_by key l).
Proof.
  unfold sorted_by. induction l as [|x l IH]; simpl; [exact I|].
  now apply insert_by_ordered.
Qed.

Lemma insert_by_perm key x l : insert_by key x l ≡ₚ x :: l.
Proof.
  induction l as [|y l IH]; simpl; [reflexivity|].
  destruct (String.leb (key x) (key y)); [reflexivity|].
  rewrite IH. apply Permutation_swap.
Qed.

Lemma sorted_by_perm key l : sorted_by key l ≡ₚ l.
Proof.
  unfold sorted_by. induction l as [|x l IH]; simpl; [reflexivity|].
  rewrite insert_by_perm. now rewrite IH.
Qed.

Lemma NoDup_fst_filter {A} (f : string * A -> bool) (l : list (string * A)) :
  NoDup l.*1 -> NoDup (List.filter f l).*1.
Proof.
  induction l as [|[k x] l IH]; simpl; [auto|].
  intros Hnd. apply NoDup_cons in Hnd as [Hk Hnd].
  destruct (f (k, x)); [|now apply IH].
  simpl. apply NoDup_cons. split; [|now apply IH].
  intros Hin. apply Hk. apply list_elem_of_fmap in Hin as ([k' x'] & -> & Hin).
  apply list_elem_of_In, filter_In in Hin as [Hin _].
  apply list_elem_of_fmap. exists (k', x'). split; [reflexivity|].
  now apply list_elem_of_In.
Qed.

Lemma NoDup_listing {A} (P : A -> bool) (m : gmap string A) :
  NoDup (names_where (fun x => P x) m
         ++ names_where (fun x => negb (P x)) m)%list.
Proof.
  apply NoDup_app. split; [|split].
  - apply NoDup_fst_filter, NoDup_fst_map_to_list.
  - intros n H1 H2. apply elem_of_names_where in H1 as (x & Hx & HP).
    apply elem_of_names_where in H2 as (y & Hy & HnP).
    rewrite Hx in Hy. injection Hy as <-. rewrite HP in HnP. discriminate.
  - apply NoDup_fst_filter, NoDup_fst_map_to_list.
Qed.

(** X14.  [vms_get_list] on an established session returns every domain
    libvirt knows, running or not, each once, in the order of the names
    folded to lower case; the state is left as it was. *)
Theorem vms_get_list_complete_sorted (s : Model) :
  connected s ->
  exists l,
    vms_get_list s = (s, inr l)
    /\ (forall n, n ∈ l <-> is_Some (lv_domains (virt s) !! n))
    /\ NoDup l
    /\ ordered_by lower l.
Proof.
  intros Hc. exists (domain_names (virt s)).
  split; [now apply vms_get_list_connected|]. unfold domain_names.
  split; [|split].
  - intros n. rewrite elem_of_sorted_by, elem_of_app, !elem_of_names_where.
    split.
    + intros [(x & Hx & _) | (x & Hx & _)]; now exists x.
    + intros [x Hx]. destruct (is_active x) eqn:HP; [left | right]; exists x;
        rewrite ?HP; auto.
  - rewrite sorted_by_perm. apply (NoDup_listing is_active).
  - apply sorted_by_ordered.
Qed.

Lemma vms_get_list_complete_sorted_witness :
  exists l,
    vms_get_list two_guests = (two_guests, inr l)
    /\ (forall n, n ∈ l <-> is_Some (lv_domains (virt two_guests) !! n))
    /\ NoDup l.
Proof.
  destruct (vms_get_list_complete_sorted two_guests) as (l & H1 & H2 & H3 & _).
  - exists 1%nat. vm_compute. reflexivity.
  - exists l. auto.
Defined.

(** ** Shutting the host down *)

Lemma call_dom_info dom s d :
  lv_domains (virt s) !! h_name dom = Some d ->
  call (dom_info dom) s
  = (s, inr {| i_state := d_state d; i_memory := x_memory (d_xml d);
               i_vcpus := x_vcpus (d_xml d); i_cputime := d_cputime d |}).
Proof.
  intros H. apply call_read. unfold dom_info, on_domain. simpl. now rewrite H.
Qed.

Lemma dom_state_ok code st s :
  dom_state_map !! code = Some st -> dom_state code s = (s, inr st).
Proof. intros H. unfold dom_state. now rewrite H. Qed.

Lemma dom_state_unknown code s :
  dom_state_map !! code = None ->
  dom_state code s = (s, inl (KeyError (fmt_i code))).
Proof. intros H. unfold dom_state. now rewrite H. Qed.

Lemma vms_by_state_loop_ok state names s :
  connected s ->
  (forall n, n ∈ names ->
     exists d, lv_domains (virt s) !! n = Some d
               /\ is_Some (dom_state_map !! d_state d)) ->
  vms_by_state_loop state names s
  = (s, inr (List.filter (has_state (virt s) state) names)).
Proof.
  intros Hc. induction names as [|n names IH]; intros Hall; [reflexivity|].
  destruct (Hall n) as (d & Hd & [st Hst]); [left|].
  simpl.
  rewrite (bind_ok _ _ s s _ (_get_vm_ok n s d Hc Hd)).
  rewrite (bind_ok _ _ s s _
               (call_dom_info {| h_name := n; h_uuid := x_uuid (d_xml d) |}
                  s d Hd)).
  rewrite (bind_ok _ _ s s st (dom_state_ok _ st s Hst)).
  assert (Hrest : forall n', n' ∈ names ->
            exists d, lv_domains (virt s) !! n' = Some d
                      /\ is_Some (dom_state_map !! d_state d))
    by (intros n' Hn'; apply Hall; now right).
  rewrite (bind_ok _ _ s s _ (IH Hrest)).
  assert (Hhs : has_state (virt s) state n = bool_decide (st = state)).
  { unfold has_state. rewrite Hd, Hst.
    destruct (decide (st = state)) as [->|Hne].
    - now rewrite !bool_decide_eq_true_2.
    - rewrite !bool_decide_eq_false_2; [reflexivity|exact Hne|congruence]. }
  unfold ret. simpl List.filter. now rewrite Hhs.
Qed.

Lemma vms_by_state_loop_unknown state names s :
  connected s ->
  (forall n, n ∈ names -> is_Some (lv_domains (virt s) !! n)) ->
  (exists n d, n ∈ names /\ lv_domains (virt s) !! n = Some d
               /\ dom_state_map !! d_state d = None) ->
  exists code, vms_by_state_loop state names s = (s, inl (KeyError code)).
Proof.
  intros Hc. induction names as [|n names IH]; intros Hall Hex.
  - destruct Hex as (n & d & Hin & _). inversion Hin.
  - destruct (Hall n) as [d Hd]; [left|]. simpl.
    rewrite (bind_ok _ _ s s _ (_get_vm_ok n s d Hc Hd)).
    rewrite (bind_ok _ _ s s _
               (call_dom_info {| h_name := n; h_uuid := x_uuid (d_xml d) |}
                  s d Hd)).
    destruct (dom_state_map !! d_state d) as [st|] eqn:Hst.
    + rewrite (bind_ok _ _ s s st (dom_state_ok _ st s Hst)).
      destruct IH as [code Hcode].
      * intros n' Hn'. apply Hall. now right.
      * destruct Hex as (n' & d' & Hin & Hd' & Hst').
        apply elem_of_cons in Hin as [-> | Hin].
        -- rewrite Hd in Hd'. injection Hd' as <-. congruence.
        -- exists n', d'. auto.
      * exists code. now apply bind_err.
    + exists (fmt_i (d_state d)). apply bind_err.
      now apply dom_state_unknown.
Qed.

Lemma running_code code :
  dom_state_map !! code = Some "running" <-> code = 1%nat.
Proof.
  split; [|now intros ->].
  intros H. unfold dom_state_map in H. apply elem_of_list_to_map_2 in H.
  repeat (apply elem_of_cons in H as [H|H]; [now inversion H|]).
  inversion H.
Qed.

Lemma in_model_run {A} (c : M Model A) h s' r :
  c (host_model h) = (s', r) ->
  in_model c h
  = ({| host_model := s'; host_commands := host_commands h |}, r).
Proof. unfold in_model. now intros ->. Qed.

(** X15.  [host_shutdown] and [host_reboot] hand their command to the system
    only when no virtual machine is running.  With at least one domain in
    the running state both raise [OperationFailed] and no command is
    issued; with none, each issues its command, once.  The test goes
    through [dom_state_map]: a domain in a state the map has no entry for
    makes both raise [KeyError], whether or not anything is running, and no
    command is issued either. *)
Theorem host_shutdown_guard (h : Host) :
  connected (host_model h) ->
  let doms := lv_domains (virt (host_model h)) in
  ((forall n d, doms !! n = Some d -> is_Some (dom_state_map !! d_state d)) ->
   (exists n d, doms !! n = Some d /\ d_state d = 1%nat) ->
   host_shutdown h
   = (h, inl (OperationFailed "Shutdown not allowed: VMs are running!"))
   /\ host_reboot h
      = (h, inl (OperationFailed "Reboot not allowed: VMs are running!")))
  /\ ((forall n d, doms !! n = Some d -> is_Some (dom_state_map !! d_state d)) ->
      (forall n d, doms !! n = Some d -> d_state d <> 1%nat) ->
      host_shutdown h = (commanded "shutdown -h now" h, inr tt)
      /\ host_reboot h = (commanded "reboot" h, inr tt))
  /\ ((exists n d, doms !! n = Some d /\ dom_state_map !! d_state d = None) ->
      exists code,
        host_shutdown h = (h, inl (KeyError code))
        /\ host_reboot h = (h, inl (KeyError code))).
Proof.
  intros Hc doms. set (s := host_model h).
  assert (Hlist : vms_get_list s = (s, inr (domain_names (virt s))))
    by now apply vms_get_list_connected.
  assert (Hdom : forall n, n ∈ domain_names (virt s) <-> is_Some (doms !! n)).
  { intros n. unfold domain_names.
    rewrite elem_of_sorted_by, elem_of_app, !elem_of_names_where. split.
    - intros [(x & Hx & _) | (x & Hx & _)]; now exists x.
    - intros [x Hx]. destruct (is_active x) eqn:HP; [left | right]; exists x;
        rewrite ?HP; auto. }
  assert (Hh : {| host_model := s; host_commands := host_commands h |} = h)
    by now destruct h.
  assert (Hknown : (forall n d, doms !! n = Some d ->
                      is_Some (dom_state_map !! d_state d)) ->
            in_model (vms_get_list_by_state "running") h
            = (h, inr (List.filter (has_state (virt s) "running")
                         (domain_names (virt s))))).
  { intros Hall. rewrite <- Hh at 2. apply in_model_run.
    unfold vms_get_list_by_state. fold s.
    rewrite (bind_ok _ _ s s _ Hlist). apply vms_by_state_loop_ok; [exact Hc|].
    intros n Hn. apply Hdom in Hn as [d Hd]. exists d. split; [exact Hd|].
    now apply (Hall n). }
  split; [|split].
  - intros Hall (n & d & Hd & Hrun).
    assert (Hpos : (0 <? length (List.filter (has_state (virt s) "running")
                                   (domain_names (virt s))))%nat = true).
    { apply Nat.ltb_lt.
      assert (Hin : n ∈ List.filter (has_state (virt s) "running")
                          (domain_names (virt s))).
      { apply list_elem_of_In, filter_In. split.
        - apply list_elem_of_In, Hdom. now exists d.
        - unfold has_state. change (lv_domains (virt s)) with doms.
          rewrite Hd.
          apply bool_decide_eq_true_2. now apply running_code. }
      destruct (List.filter _ _); [inversion Hin|simpl; lia]. }
    unfold host_shutdown, host_reboot.
    rewrite !(bind_ok _ _ h h _ (Hknown Hall)). rewrite Hpos. auto.
  - intros Hall Hnone.
    assert (Hnil : List.filter (has_state (virt s) "running")
                     (domain_names (virt s)) = []).
    { destruct (List.filter _ _) as [|n l] eqn:Hf; [reflexivity|].
      assert (Hin : n ∈ List.filter (has_state (virt s) "running")
                          (domain_names (virt s)))
        by (rewrite Hf; left).
      apply list_elem_of_In, filter_In in Hin as [_ Hst].
      unfold has_state in Hst. change (lv_domains (virt s)) with doms in Hst.
      destruct (doms !! n) as [d|] eqn:Hd; [|discriminate].
      apply bool_decide_eq_true in Hst. apply running_code in Hst.
      now destruct (Hnone n d Hd). }
    unfold host_shutdown, host_reboot.
    rewrite !(bind_ok _ _ h h _ (Hknown Hall)). rewrite Hnil. auto.
  - intros (n & d & Hd & Hst).
    destruct (vms_by_state_loop_unknown "running" (domain_names (virt s)) s Hc)
      as [code Hcode].
    + intros n' Hn'. now apply Hdom.
    + exists n, d. split; [|auto]. apply Hdom. now exists d.
    + exists code.
      assert (Hrun : in_model (vms_get_list_by_state "running") h
                     = (h, inl (KeyError code))).
      { rewrite <- Hh at 2. apply in_model_run.
        unfold vms_get_list_by_state. fold s.
        now rewrite (bind_ok _ _ s s _ Hlist). }
      unfold host_shutdown, host_reboot.
      now rewrite !(bind_err _ _ h h _ Hrun).
Qed.

Lemma host_shutdown_guard_witness :
  host_shutdown {| host_model := two_guests; host_commands := [] |}
  = ({| host_model := two_guests; host_commands := [] |},
     inl (OperationFailed "Shutdown not allowed: VMs are running!"))
  /\ host_shutdown {| host_model := model_on world0; host_commands := [] |}
     = ({| host_model := model_on world0;
           host_commands := ["shutdown -h now"] |}, inr tt)
  /\ exists code,
       host_shutdown {| host_model := suspended_first; host_commands := [] |}
       = ({| host_model := suspended_first; host_commands := [] |},
          inl (KeyError code)).
Proof.
  split; [|split].
  2:{ apply (proj1 (proj2 (host_shutdown_guard
                {| host_model := model_on world0; host_commands := [] |}
                ltac:(exists 1%nat; vm_compute; reflexivity)))).
      - intros n d Hd. simpl in Hd. rewrite lookup_empty in Hd. discriminate.
      - intros n d Hd. simpl in Hd. rewrite lookup_empty in Hd. discriminate. }
  2:{ destruct (proj2 (proj2 (host_shutdown_guard
                {| host_model := suspended_first; host_commands := [] |}
                ltac:(exists 1%nat; vm_compute; reflexivity))))
        as (code & H1 & _).
      - exists "a", (guest "a" "u-a" 7 1 0 0 0). split; vm_compute; reflexivity.
      - exists code. exact H1. }
  apply (proj1 (host_shutdown_guard
                  {| host_model := two_guests; host_commands := [] |}
                  ltac:(exists 1%nat; vm_compute; reflexivity))).
  - intros n d Hd.
    change (lv_domains (virt two_guests) !! n = Some d) in Hd.
    assert (Hs : d_state d = 1%nat).
    { unfold two_guests, model_on, with_guests in Hd. simpl in Hd.
      destruct (decide (n = "a")) as [->|Ha].
      - rewrite lookup_insert_eq in Hd. now injection Hd as <-.
      - rewrite lookup_insert_ne in Hd by congruence.
        destruct (decide (n = "b")) as [->|Hb].
        + rewrite lookup_insert_eq in Hd. now injection Hd as <-.
        + rewrite lookup_insert_ne in Hd by congruence.
          rewrite lookup_empty in Hd. discriminate. }
    rewrite Hs. now eexists.
  - exists "a", (guest "a" "u-a" 1 1 0 0 0). split; [|reflexivity].
    vm_compute. reflexivity.
Defined.

(** ** Creating a virtual machine *)

Lemma elem_of_domain_names w n :
  n ∈ domain_names w <-> is_Some (lv_domains w !! n).
Proof.
  unfold domain_names.
  rewrite elem_of_sorted_by, elem_of_app, !elem_of_names_where. split.
  - intros [(x & Hx & _) | (x & Hx & _)]; now exists x.
  - intros [x Hx]. destruct (is_active x) eqn:HP; [left | right]; exists x;
      rewrite ?HP; auto.
Qed.

Lemma validate_ok t s pname pl nw :
  connected s ->
  pool_name_from_uri (ti_storagepool t) = inr pname ->
  lv_pools (virt s) !! pname = Some pl -> pl_active pl = true ->
  lv_networks (virt s) !! ti_network t = Some nw -> nw_active nw = true ->
  validate t s = (s, inr tt).
Proof.
  intros Hc Hpuri Hpl Hact Hnw Hnact. unfold validate.
  rewrite (bind_ok _ _ s s pname
             (_storage_validate_ok t s pname pl Hc Hpuri Hpl Hact)).
  now rewrite (bind_ok _ _ s s _ (_network_validate_ok t s nw Hc Hnw Hnact)).
Qed.

(** The head of [vms_create], up to the template. *)
Lemma vms_create_head params vm_uuid s t_name name ti :
  connected s ->
  template_name_from_uri (vp_template params) = inr t_name ->
  get_vm_name (vp_name params) t_name (domain_names (virt s)) = inr name ->
  name ∉ domain_names (virt s) ->
  objstore s !! ("template", t_name) = Some (TemplateRecord ti) ->
  let t := with_storagepool (truthy (vp_storagepool params)) ti in
  vms_create params vm_uuid s
  = (if negb (qemu_stream s) && ti_iso_stream t then
       raise (InvalidOperation
                "Remote ISO image is not supported by this server.")
     else
       validate t ;;
       let* vol_list := fork_vm_storage t vm_uuid in
       (match truthy (ti_icon t) with
        | Some icon => session_store "vm" vm_uuid (VmRecord icon)
        | None => ret tt
        end) ;;
       let* protocols := gets libvirt_stream_protocols in
       let libvirt_stream := negb (length protocols =? 0)%nat in
       let* dns := gets qemu_stream_dns in
       let* xml := to_vm_xml t name vm_uuid libvirt_stream dns in
       try_except (call (defineXML xml) ;; ret tt) (fun e =>
         if is_libvirtError e then
           for_each vol_list (fun v =>
             let* vol := call (storageVolLookupByPath (v_path v)) in
             call (vol_delete vol)) ;;
           raise (OperationFailed (get_error_message e))
         else raise e) ;;
       ret name) s.
Proof.
  intros [c Hc] Huri Hname Hfree Htmpl t. unfold vms_create.
  rewrite (bind_ok _ _ s s c (connected_get s c Hc)).
  rewrite Huri. rewrite (bind_ok _ _ s s t_name (lift_run _ s)).
  rewrite (bind_ok _ _ s s _ (vms_get_list_connected s (ex_intro _ c Hc))).
  rewrite Hname. rewrite (bind_ok _ _ s s name (lift_run _ s)).
  rewrite bool_decide_eq_false_2 by exact Hfree.
  rewrite (bind_ok _ _ s s t (_get_template_ok t_name _ s ti Htmpl)).
  reflexivity.
Qed.

(** X16.  A successful [vms_create].  On an established session, with the
    template stored, its pool and network active, the volumes new to the
    pool and the descriptor accepted by libvirt, the request returns the
    name, the domain of that name is defined, shut off, from the descriptor
    built on the forked volumes, exactly the template's volumes are added,
    the icon of the template, if it has one, is recorded for the new UUID,
    and the name is in the list of VMs from then on. *)
Theorem vms_create_defines (params : vm_params) (vm_uuid : string)
    (s : Model) (t_name name pname : string) (ti : template_info)
    (pl : pool) (nw : network) :
  let t := with_storagepool (truthy (vp_storagepool params)) ti in
  let vols := volumes_under (pl_path pl) t vm_uuid in
  connected s ->
  template_name_from_uri (vp_template params) = inr t_name ->
  get_vm_name (vp_name params) t_name (domain_names (virt s)) = inr name ->
  name ∉ domain_names (virt s) ->
  objstore s !! ("template", t_name) = Some (TemplateRecord ti) ->
  negb (qemu_stream s) && ti_iso_stream t = false ->
  pool_name_from_uri (ti_storagepool t) = inr pname ->
  lv_pools (virt s) !! pname = Some pl ->
  pl_active pl = true ->
  lv_networks (virt s) !! ti_network t = Some nw ->
  nw_active nw = true ->
  NoDup (v_path <$> vols) ->
  (forall p, p ∈ v_path <$> vols -> p ∉ lv_volumes (virt s)) ->
  lv_refuse_domain (virt s) (vm_descriptor t name vm_uuid vols) = None ->
  exists s',
    vms_create params vm_uuid s = (s', inr name)
    /\ lv_domains (virt s')
       = <[name := fresh_domain (vm_descriptor t name vm_uuid vols)]>
           (lv_domains (virt s))
    /\ lv_volumes (virt s')
       = lv_volumes (virt s) ∪ list_to_set (v_path <$> vols)
    /\ lv_pools (virt s') = lv_pools (virt s)
    /\ objstore s'
       = match truthy (ti_icon t) with
         | Some icon => <[("vm", vm_uuid) := VmRecord icon]> (objstore s)
         | None => objstore s
         end
    /\ stats s' = stats s
    /\ exists l, vms_get_list s' = (s', inr l) /\ name ∈ l.
Proof.
  intros t vols Hc Huri Hname Hfree Htmpl Hiso Hpuri Hpl Hact Hnw Hnact
    Hnd Hfresh Haccept.
  pose (w2 := set_lv_volumes
                (fun _ => lv_volumes (virt s) ∪ list_to_set (v_path <$> vols))
                (virt s)).
  pose (s2 := set_virt w2 s).
  assert (Hfork : fork_vm_storage t vm_uuid s = (s2, inr vols)).
  { unfold fork_vm_storage.
    rewrite (bind_ok _ _ s s pname
               (_storage_validate_ok t s pname pl Hc Hpuri Hpl Hact)).
    rewrite (bind_ok _ _ s s vols
               (to_volume_list_ok t vm_uuid s pname pl Hc Hpuri Hpl Hact)).
    rewrite (bind_ok _ _ s s2 tt); [reflexivity|].
    rewrite <- (set_virt_id s) at 1.
    apply (fork_loop s pname pl vols (virt s) Hpl);
      [|exact Hnd|exact Hfresh].
    intros v Hv. now apply (volumes_under_path _ t vm_uuid). }
  pose (s3 := match truthy (ti_icon t) with
              | Some icon =>
                  set_objstore (<[("vm", vm_uuid) := VmRecord icon]>) s2
              | None => s2
              end).
  assert (Hs3c : connected s3).
  { subst s3. destruct (truthy (ti_icon t));
      [apply connected_set_objstore|]; now apply connected_set_virt. }
  assert (Hs3v : virt s3 = w2).
  { subst s3. now destruct (truthy (ti_icon t)). }
  assert (Hs3s : stats s3 = stats s).
  { subst s3. now destruct (truthy (ti_icon t)). }
  assert (Hs3o : objstore s3
                 = match truthy (ti_icon t) with
                   | Some icon =>
                       <[("vm", vm_uuid) := VmRecord icon]> (objstore s)
                   | None => objstore s
                   end).
  { subst s3. now destruct (truthy (ti_icon t)). }
  assert (Hnone : lv_domains (virt s) !! name = None).
  { destruct (lv_domains (virt s) !! name) eqn:E; [|reflexivity].
    exfalso. apply Hfree. apply elem_of_domain_names. rewrite E.
    now eexists. }
  pose (xml := vm_descriptor t name vm_uuid vols).
  pose (w4 := set_lv_domains (<[name := fresh_domain xml]>) w2).
  pose (s4 := set_virt w4 s3).
  assert (Hdef : call (defineXML xml) s3
                 = (s4, inr {| h_name := name; h_uuid := vm_uuid |})).
  { apply call_ok. rewrite Hs3v. unfold defineXML. simpl.
    fold xml in Haccept. rewrite Haccept, Hnone. reflexivity. }
  exists s4. split; [|split; [reflexivity|split; [reflexivity|
                       split; [reflexivity|split; [exact Hs3o|
                       split; [exact Hs3s|]]]]]].
  - rewrite (vms_create_head params vm_uuid s t_name name ti
               Hc Huri Hname Hfree Htmpl).
    fold t. rewrite Hiso.
    rewrite (bind_ok _ _ s s tt
               (validate_ok t s pname pl nw Hc Hpuri Hpl Hact Hnw Hnact)).
    rewrite (bind_ok _ _ s s2 vols Hfork).
    rewrite (bind_ok _ _ s2 s3 tt);
      [|subst s3; now destruct (truthy (ti_icon t))].
    unfold bind at 1, gets at 1. unfold bind at 1, gets at 1.
    unfold to_vm_xml.
    rewrite (bind_ok _ _ s3 s3 xml).
    2:{ rewrite (bind_ok _ _ s3 s3 vols); [reflexivity|].
        apply (to_volume_list_ok t vm_uuid s3 pname pl Hs3c Hpuri);
          [now rewrite Hs3v|exact Hact]. }
    rewrite (bind_ok _ _ s3 s4 tt); [reflexivity|].
    apply try_ok. now rewrite (bind_ok _ _ s3 s4 _ Hdef).
  - exists (domain_names w4). split.
    + apply vms_get_list_connected. now apply connected_set_virt.
    + apply elem_of_domain_names. subst w4. simpl.
      rewrite lookup_insert_eq. now eexists.
Qed.

Lemma vms_create_defines_witness :
  exists s',
    vms_create create_request "uuid-1" with_tmpl = (s', inr "tmpl-vm-1")
    /\ lv_volumes (virt s')
       = lv_volumes (virt with_tmpl)
         ∪ list_to_set (v_path <$> volumes_under "/var/lib/libvirt/images"
                                     tmpl "uuid-1").
Proof.
  destruct (vms_create_defines create_request "uuid-1" with_tmpl
              "tmpl" "tmpl-vm-1" "default" tmpl default_pool default_network)
    as (s' & H1 & _ & H2 & _).
  - exists 1%nat. vm_compute. reflexivity.
  - vm_compute. reflexivity.
  - vm_compute. reflexivity.
  - vm_compute. apply not_elem_of_nil.
  - vm_compute. reflexivity.
  - reflexivity.
  - vm_compute. reflexivity.
  - vm_compute. reflexivity.
  - reflexivity.
  - vm_compute. reflexivity.
  - reflexivity.
  - vm_compute. apply NoDup_cons. split.
    + intros H. apply list_elem_of_singleton in H. discriminate.
    + apply NoDup_singleton.
  - intros p _. change (lv_volumes (virt with_tmpl)) with (∅ : gset string).
    apply not_elem_of_empty.
  - reflexivity.
  - exists s'. auto.
Defined.

(** X17.  What [vms_create] refuses before it has done anything.  On an
    established session the request is rejected, with the state as it was,
    when the template URI is no template URI ([InvalidParameter]), when the
    requested name is the name of a domain ([InvalidOperation]), when the
    template is not stored ([NotFoundError]), and when the template streams
    its ISO and the server cannot ([InvalidOperation]). *)
Theorem vms_create_rejects_untouched (params : vm_params) (vm_uuid : string)
    (s : Model) :
  connected s ->
  (template_name_from_uri (vp_template params)
   = inl (InvalidParameter (vp_template params)) ->
   vms_create params vm_uuid s
   = (s, inl (InvalidParameter (vp_template params))))
  /\ (forall t_name n,
      template_name_from_uri (vp_template params) = inr t_name ->
      vp_name params = Some n -> n <> "" ->
      is_Some (lv_domains (virt s) !! n) ->
      vms_create params vm_uuid s
      = (s, inl (InvalidOperation "VM already exists")))
  /\ (forall t_name name,
      template_name_from_uri (vp_template params) = inr t_name ->
      get_vm_name (vp_name params) t_name (domain_names (virt s)) = inr name ->
      name ∉ domain_names (virt s) ->
      (objstore s !! ("template", t_name) = None ->
       vms_create params vm_uuid s = (s, inl (NotFoundError t_name)))
      /\ (forall ti,
          objstore s !! ("template", t_name) = Some (TemplateRecord ti) ->
          qemu_stream s = false -> ti_iso_stream ti = true ->
          vms_create params vm_uuid s
          = (s, inl (InvalidOperation
                       "Remote ISO image is not supported by this server.")))).
Proof.
  intros [c Hc]. split; [|split].
  - intros Huri. unfold vms_create.
    rewrite (bind_ok _ _ s s c (connected_get s c Hc)).
    now rewrite Huri.
  - intros t_name n Huri Hn Hne Htaken. unfold vms_create.
    rewrite (bind_ok _ _ s s c (connected_get s c Hc)).
    rewrite Huri. rewrite (bind_ok _ _ s s t_name (lift_run _ s)).
    rewrite (bind_ok _ _ s s _ (vms_get_list_connected s (ex_intro _ c Hc))).
    rewrite Hn. unfold get_vm_name.
    rewrite bool_decide_eq_false_2 by exact Hne.
    rewrite (bind_ok _ _ s s n (lift_run _ s)).
    rewrite bool_decide_eq_true_2; [reflexivity|].
    now apply elem_of_domain_names.
  - intros t_name name Huri Hname Hfree. split.
    + intros Hnone. unfold vms_create.
      rewrite (bind_ok _ _ s s c (connected_get s c Hc)).
      rewrite Huri. rewrite (bind_ok _ _ s s t_name (lift_run _ s)).
      rewrite (bind_ok _ _ s s _ (vms_get_list_connected s (ex_intro _ c Hc))).
      rewrite Hname. rewrite (bind_ok _ _ s s name (lift_run _ s)).
      rewrite bool_decide_eq_false_2 by exact Hfree.
      apply bind_err. unfold _get_template, session_get, bind, gets.
      now rewrite Hnone.
    + intros ti Htmpl Hqs Hiso.
      rewrite (vms_create_head params vm_uuid s t_name name ti
                 (ex_intro _ c Hc) Huri Hname Hfree Htmpl).
      rewrite Hqs.
      replace (ti_iso_stream (with_storagepool (truthy (vp_storagepool params))
                                ti)) with true; [reflexivity|].
      unfold with_storagepool. now destruct (truthy _).
Qed.

Lemma vms_create_rejects_untouched_witness :
  vms_create {| vp_template := "/vms/tmpl"; vp_name := None;
                vp_storagepool := None |} "uuid-1" two_guests
  = (two_guests, inl (InvalidParameter "/vms/tmpl"))
  /\ vms_create {| vp_template := "/templates/tmpl"; vp_name := Some "a";
                   vp_storagepool := None |} "uuid-1" two_guests
     = (two_guests, inl (InvalidOperation "VM already exists"))
  /\ vms_create {| vp_template := "/templates/tmpl"; vp_name := Some "c";
                   vp_storagepool := None |} "uuid-1" two_guests
     = (two_guests, inl (NotFoundError "tmpl")).
Proof.
  assert (Hc : connected two_guests) by (exists 1%nat; vm_compute; reflexivity).
  split; [|split].
  - apply (proj1 (vms_create_rejects_untouched
                    {| vp_template := "/vms/tmpl"; vp_name := None;
                       vp_storagepool := None |} "uuid-1" two_guests Hc)).
    vm_compute. reflexivity.
  - apply (proj1 (proj2 (vms_create_rejects_untouched
                           {| vp_template := "/templates/tmpl";
                              vp_name := Some "a"; vp_storagepool := None |}
                           "uuid-1" two_guests Hc))
             "tmpl" "a").
    + vm_compute. reflexivity.
    + reflexivity.
    + discriminate.
    + vm_compute. eexists. reflexivity.
  - apply (proj1 (proj2 (proj2 (vms_create_rejects_untouched
                                  {| vp_template := "/templates/tmpl";
                                     vp_name := Some "c";
                                     vp_storagepool := None |}
                                  "uuid-1" two_guests Hc)) "tmpl" "c"
                    ltac:(vm_compute; reflexivity)
                    ltac:(vm_compute; reflexivity)
                    ltac:(rewrite elem_of_domain_names; vm_compute;
                          intros [x Hx]; discriminate))).
    vm_compute. reflexivity.
Defined.

(** X18.  A failure while forking is not rolled back.  When libvirt refuses
    one of the template's volumes because its path is taken, the volumes
    created before it stay in the pool, the error reaches the caller as the
    [libvirtError] it is, no domain is defined and nothing is stored: the
    handler that deletes the volumes guards the definition only. *)
Theorem vms_create_fork_failure (params : vm_params) (vm_uuid : string)
    (s : Model) (t_name name pname : string) (ti : template_info)
    (pl : pool) (nw : network) (pre post : list volume_info)
    (v : volume_info) :
  let t := with_storagepool (truthy (vp_storagepool params)) ti in
  connected s ->
  template_name_from_uri (vp_template params) = inr t_name ->
  get_vm_name (vp_name params) t_name (domain_names (virt s)) = inr name ->
  name ∉ domain_names (virt s) ->
  objstore s !! ("template", t_name) = Some (TemplateRecord ti) ->
  negb (qemu_stream s) && ti_iso_stream t = false ->
  pool_name_from_uri (ti_storagepool t) = inr pname ->
  lv_pools (virt s) !! pname = Some pl ->
  pl_active pl = true ->
  lv_networks (virt s) !! ti_network t = Some nw ->
  nw_active nw = true ->
  volumes_under (pl_path pl) t vm_uuid = (pre ++ v :: post)%list ->
  NoDup (v_path <$> pre) ->
  (forall p, p ∈ v_path <$> pre -> p ∉ lv_volumes (virt s)) ->
  v_path v ∈ lv_volumes (virt s) ->
  exists s',
    vms_create params vm_uuid s
    = (s', inl (libvirtError VIR_FROM_STORAGE VIR_ERR_STORAGE_VOL_EXIST
                  ("storage vol already exists: " +:+ v_path v)))
    /\ lv_volumes (virt s')
       = lv_volumes (virt s) ∪ list_to_set (v_path <$> pre)
    /\ lv_domains (virt s') = lv_domains (virt s)
    /\ objstore s' = objstore s.
Proof.
  intros t Hc Huri Hname Hfree Htmpl Hiso Hpuri Hpl Hact Hnw Hnact
    Hvols Hnd Hfresh Htaken.
  pose (w1 := set_lv_volumes
                (fun _ => lv_volumes (virt s) ∪ list_to_set (v_path <$> pre))
                (virt s)).
  pose (s1 := set_virt w1 s).
  assert (Hin : forall v', v' ∈ (pre ++ v :: post)%list ->
                  v_path v' = pl_path pl +:+ "/" +:+ v_name v').
  { intros v' Hv'. rewrite <- Hvols in Hv'.
    now apply (volumes_under_path _ t vm_uuid). }
  assert (Hpre : for_each pre
                   (fun v => call (pool_createXML pname (v_name v)) ;; ret tt) s
                 = (s1, inr tt)).
  { rewrite <- (set_virt_id s) at 1.
    apply (fork_loop s pname pl pre (virt s) Hpl); [|exact Hnd|exact Hfresh].
    intros v' Hv'. apply Hin. apply elem_of_app. now left. }
  assert (Hv : (call (pool_createXML pname (v_name v)) ;; ret tt) s1
               = (s1, inl (libvirtError VIR_FROM_STORAGE
                             VIR_ERR_STORAGE_VOL_EXIST
                             ("storage vol already exists: " +:+ v_path v)))).
  { apply bind_err. unfold call.
    rewrite (wrapMethod_err_other 0 _ s1 (virt s1)
               (libvirtError VIR_FROM_STORAGE VIR_ERR_STORAGE_VOL_EXIST
                  ("storage vol already exists: " +:+ v_path v))).
    - now rewrite set_virt_id.
    - unfold pool_createXML, on_pool. simpl. rewrite Hpl.
      rewrite <- (Hin v) by (apply elem_of_app; right; left).
      rewrite bool_decide_eq_true_2; [reflexivity|].
      apply elem_of_union. now left.
    - apply not_connection_class_code. vm_compute.
      intros H. repeat (apply elem_of_cons in H as [H|H]; [discriminate|]).
      inversion H. }
  exists s1. split; [|split; [reflexivity|split; reflexivity]].
  rewrite (vms_create_head params vm_uuid s t_name name ti
             Hc Huri Hname Hfree Htmpl).
  fold t. rewrite Hiso.
  rewrite (bind_ok _ _ s s tt
             (validate_ok t s pname pl nw Hc Hpuri Hpl Hact Hnw Hnact)).
  apply bind_err. unfold fork_vm_storage.
  rewrite (bind_ok _ _ s s pname
             (_storage_validate_ok t s pname pl Hc Hpuri Hpl Hact)).
  rewrite (bind_ok _ _ s s _
             (to_volume_list_ok t vm_uuid s pname pl Hc Hpuri Hpl Hact)).
  apply bind_err. rewrite Hvols.
  exact (for_each_app_err _ pre v post s s1 s1 _ Hpre Hv).
Qed.

Lemma vms_create_fork_failure_witness :
  exists s',
    vms_create create_request "uuid-1" second_volume_taken
    = (s', inl (libvirtError VIR_FROM_STORAGE VIR_ERR_STORAGE_VOL_EXIST
                  "storage vol already exists: /var/lib/libvirt/images/uuid-1-1.img"))
    /\ "/var/lib/libvirt/images/uuid-1-0.img" ∈ lv_volumes (virt s')
    /\ lv_domains (virt s') = ∅.
Proof.
  destruct (vms_create_fork_failure create_request "uuid-1"
              second_volume_taken "tmpl" "tmpl-vm-1" "default" tmpl
              default_pool default_network
              [{| v_name := "uuid-1-0.img";
                  v_path := "/var/lib/libvirt/images/uuid-1-0.img" |}]
              []
              {| v_name := "uuid-1-1.img";
                 v_path := "/var/lib/libvirt/images/uuid-1-1.img" |})
    as (s' & H1 & H2 & H3 & _).
  - exists 1%nat. vm_compute. reflexivity.
  - vm_compute. reflexivity.
  - vm_compute. reflexivity.
  - vm_compute. apply not_elem_of_nil.
  - vm_compute. reflexivity.
  - reflexivity.
  - vm_compute. reflexivity.
  - vm_compute. reflexivity.
  - reflexivity.
  - vm_compute. reflexivity.
  - reflexivity.
  - vm_compute. reflexivity.
  - apply NoDup_singleton.
  - intros p Hp. apply list_elem_of_singleton in Hp. subst p.
    change (lv_volumes (virt second_volume_taken))
      with ({["/var/lib/libvirt/images/uuid-1-1.img"]} : gset string).
    intros H. apply elem_of_singleton in H. discriminate.
  - change (lv_volumes (virt second_volume_taken))
      with ({["/var/lib/libvirt/images/uuid-1-1.img"]} : gset string).
    now apply elem_of_singleton.
  - exists s'. split; [exact H1|]. split; [|exact H3].
    rewrite H2. apply elem_of_union. right.
    apply elem_of_list_to_set. left.
Defined.

(** ** Looking a virtual machine up, updating it, deleting it *)

Lemma _vm_exists_ok name s d :
  connected s -> lv_domains (virt s) !! name = Some d ->
  _vm_exists name s = (s, inr true).
Proof.
  intros Hc H. unfold _vm_exists. apply try_ok.
  now rewrite (bind_ok _ _ s s _ (_get_vm_ok name s d Hc H)).
Qed.

Lemma call_dom_XMLDesc dom s d :
  lv_domains (virt s) !! h_name dom = Some d ->
  call (dom_XMLDesc dom) s = (s, inr (d_xml d)).
Proof.
  intros H. apply call_read. unfold dom_XMLDesc, on_domain. simpl.
  now rewrite H.
Qed.

Lemma _vm_get_graphics_ok name s d :
  connected s -> lv_domains (virt s) !! name = Some d ->
  _vm_get_graphics name s
  = (s, inr match x_graphics (d_xml d) with
            | Some (graphics_type, port) =>
                (if bool_decide (graphics_type = "vnc")
                 then Some graphics_type else None, Some port)
            | None => (None, None)
            end).
Proof.
  intros Hc H. unfold _vm_get_graphics.
  rewrite (bind_ok _ _ s s _ (_get_vm_ok name s d Hc H)).
  rewrite (bind_ok _ _ s s _
             (call_dom_XMLDesc {| h_name := name; h_uuid := x_uuid (d_xml d) |}
                s d H)).
  now destruct (x_graphics (d_xml d)) as [[ty port]|].
Qed.

Lemma connected_set_stats f s : connected s -> connected (set_stats f s).
Proof. intros [c Hc]. now exists c. Qed.

(** The lookup of a VM that is shut off. *)
Lemma vm_lookup_shutoff_run name s d :
  connected s -> lv_domains (virt s) !! name = Some d ->
  d_state d = 5%nat ->
  vm_lookup name s
  = (set_stats (<[x_uuid (d_xml d) := ∅]>) s,
     inr {| vi_state := "shutoff";
            vi_stats := (0%Q, 0%Q, 100%Q, 0%Q, 100%Q);
            vi_uuid := x_uuid (d_xml d);
            vi_memory := Z.shiftr (x_memory (d_xml d)) 10;
            vi_cpus := x_vcpus (d_xml d);
            vi_screenshot := None;
            vi_icon := match objstore s !! ("vm", x_uuid (d_xml d)) with
                       | Some (VmRecord icon) => Some icon
                       | _ => None
                       end;
            vi_graphics :=
              (match x_graphics (d_xml d) with
               | Some (graphics_type, port) =>
                   if bool_decide (graphics_type = "vnc")
                   then Some graphics_type else None
               | None => None
               end, None) |}).
Proof.
  intros Hc Hd Hoff. unfold vm_lookup.
  pose (dom := {| h_name := name; h_uuid := x_uuid (d_xml d) |}).
  rewrite (bind_ok _ _ s s dom (_get_vm_ok name s d Hc Hd)).
  rewrite (bind_ok _ _ s s _ (call_dom_info dom s d Hd)). simpl i_state.
  rewrite (bind_ok _ _ s s "shutoff");
    [|apply dom_state_ok; now rewrite Hoff].
  rewrite (bind_ok _ _ s s _ (_vm_get_graphics_ok name s d Hc Hd)).
  unfold bind at 1, gets at 1.
  set (s2 := set_stats (<[x_uuid (d_xml d) := ∅]>) s).
  rewrite (bind_ok _ _ s s2 None); [|reflexivity].
  assert (Hextra :
    try_except
      (let* r := session_get "vm" (h_uuid dom) in ret (Some r))
      (fun e => match e with
                | NotFoundError _ => ret None
                | _ => raise e
                end) s2
    = (s2, inr (objstore s !! ("vm", x_uuid (d_xml d))))).
  { unfold try_except, session_get, bind, gets, ret, raise. simpl.
    now destruct (objstore s !! ("vm", x_uuid (d_xml d))). }
  rewrite (bind_ok _ _ s2 s2 _ Hextra).
  unfold bind, gets, ret. simpl. rewrite lookup_insert_eq. simpl.
  rewrite !lookup_empty. simpl.
  now destruct (x_graphics (d_xml d)) as [[ty port]|].
Qed.

(** X19.  What [vm_lookup] says of a VM that is shut off.  The figures are
    the defaults, zero for the rates and 100 for the two maxima, whatever
    the sample window held, and the window is emptied; no graphics port and
    no screenshot are reported, even when a port is recorded for the name;
    memory is the domain's, in MiB, shifted down from KiB. *)
Theorem vm_lookup_shutoff (name : string) (s : Model) (d : domain) :
  connected s ->
  lv_domains (virt s) !! name = Some d ->
  d_state d = 5%nat ->
  exists s' info,
    vm_lookup name s = (s', inr info)
    /\ vi_state info = "shutoff"
    /\ vi_stats info = (0%Q, 0%Q, 100%Q, 0%Q, 100%Q)
    /\ (vi_graphics info).2 = None
    /\ vi_screenshot info = None
    /\ vi_memory info = (x_memory (d_xml d) / 1024)%Z
    /\ stats s' = <[x_uuid (d_xml d) := ∅]> (stats s)
    /\ window s' (x_uuid (d_xml d)) = ∅
    /\ virt s' = virt s /\ objstore s' = objstore s.
Proof.
  intros Hc Hd Hoff. eexists. eexists.
  split; [exact (vm_lookup_shutoff_run name s d Hc Hd Hoff)|].
  simpl. repeat (split; [reflexivity|]).
  split; [now rewrite Z.shiftr_div_pow2 by lia|].
  split; [reflexivity|]. split; [|split; reflexivity].
  unfold window. simpl. now rewrite lookup_insert_eq.
Qed.

Lemma vm_lookup_shutoff_witness :
  exists s' info,
    vm_lookup "vm" stopped_with_peak = (s', inr info)
    /\ vi_stats info = (0%Q, 0%Q, 100%Q, 0%Q, 100%Q)
    /\ window s' "u-vm" = ∅.
Proof.
  destruct (vm_lookup_shutoff "vm" stopped_with_peak
              (guest "vm" "u-vm" 5 1 0 0 0))
    as (s' & info & H1 & _ & H2 & _ & _ & _ & _ & H3 & _).
  - exists 1%nat. vm_compute. reflexivity.
  - vm_compute. reflexivity.
  - reflexivity.
  - exists s', info. auto.
Defined.

(** X20.  [vm_update] with no ['name'] among its parameters changes
    nothing: whatever other keys the request carries, and whether the VM
    runs or not, the domain is redefined from the descriptor it has, the
    state is what it was and the VM's name is returned. *)
Theorem vm_update_without_name (name : string) (params : gmap string string)
    (s : Model) (d : domain) :
  connected s ->
  lv_domains (virt s) !! name = Some d ->
  x_name (d_xml d) = name ->
  is_Some (dom_state_map !! d_state d) ->
  lv_refuse_domain (virt s) (d_xml d) = None ->
  params !! "name" = None ->
  vm_update name params s = (s, inr name).
Proof.
  intros Hc Hd Hname [st Hst] Hacc Hnone.
  pose (dom := {| h_name := name; h_uuid := x_uuid (d_xml d) |}).
  unfold vm_update.
  rewrite (bind_ok _ _ s s dom (_get_vm_ok name s d Hc Hd)).
  rewrite (bind_ok _ _ s s dom); [reflexivity|].
  unfold _static_vm_update.
  rewrite (bind_ok _ _ s s _ (call_dom_info dom s d Hd)). simpl i_state.
  rewrite (bind_ok _ _ s s st (dom_state_ok _ st s Hst)).
  rewrite (bind_ok _ _ s s _ (call_dom_XMLDesc dom s d Hd)).
  rewrite static_update_new_xml, Hnone.
  destruct Hc as [c Hc].
  rewrite (bind_ok _ _ s s c).
  2:{ apply try_ok. unfold bind at 1, ret at 1. now apply connected_get. }
  apply try_ok. apply call_read.
  unfold defineXML. rewrite Hacc, Hname, Hd.
  rewrite bool_decide_eq_true_2 by reflexivity.
  f_equal.
  replace {| d_xml := d_xml d; d_state := d_state d;
             d_cputime := d_cputime d; d_ifstats := d_ifstats d;
             d_blkstats := d_blkstats d |} with d by now destruct d.
  unfold set_lv_domains. rewrite (insert_id _ _ _ Hd). now destruct (virt s).
Qed.

Lemma vm_update_without_name_witness :
  vm_update "a" {["memory" := "2048"]} two_guests = (two_guests, inr "a").
Proof.
  apply (vm_update_without_name "a" _ two_guests (guest "a" "u-a" 1 1 0 0 0)).
  - exists 1%nat. vm_compute. reflexivity.
  - vm_compute. reflexivity.
  - reflexivity.
  - vm_compute. eexists. reflexivity.
  - reflexivity.
  - vm_compute. reflexivity.
Defined.

(** X21.  The CPU figure is a percentage: whenever
    [_get_percentage_cpu_usage] stores a figure, it lies between 0 and 100,
    whatever the counters and the interval were (a counter that went
    backwards gives 0, a burst gives 100); the CPU time read becomes the
    base of the next sample. *)
Theorem cpu_percentage_bounds (vm_uuid : string) (info : dominfo)
    (seconds : Q) (s s' : Model) :
  _get_percentage_cpu_usage vm_uuid info seconds s = (s', inr tt) ->
  (0 <= rate_of "cpu" s' vm_uuid)%Q
  /\ (rate_of "cpu" s' vm_uuid <= 100)%Q
  /\ window s' vm_uuid !! "cputime" = Some (inject_Z (i_cputime info)).
Proof.
  unfold _get_percentage_cpu_usage. intros H.
  apply bind_inv_ok in H as (s1 & st & Hst & H).
  apply stats_of_inv in Hst as [-> Hst].
  apply bind_inv_ok in H as (s2 & base & Hbase & H).
  apply lift_inv_ok in Hbase as [-> Hbase].
  apply bind_inv_ok in H as (s3 & quot & Hquot & H).
  apply lift_inv_ok in Hquot as [-> Hquot].
  apply stats_update_inv in H as (d & Hd & ->).
  unfold rate_of, window. simpl. rewrite lookup_insert_eq. simpl.
  rewrite lookup_insert_eq.
  rewrite lookup_insert_ne by discriminate. rewrite lookup_insert_eq. simpl.
  split; [|split; [|reflexivity]].
  - destruct (py_max_spec 0 (py_min 100 quot)) as [[_ ->] | [Hlt ->]].
    + apply Qle_refl.
    + now apply Qlt_le_weak.
  - destruct (py_max_spec 0 (py_min 100 quot)) as [[_ ->] | [_ ->]].
    + discriminate.
    + destruct (py_min_spec 100 quot) as [[_ ->] | [Hlt ->]].
      * apply Qle_refl.
      * now apply Qlt_le_weak.
Qed.

Lemma cpu_percentage_bounds_witness :
  (0 <= rate_of "cpu"
          (_get_percentage_cpu_usage "u-vm" cpu_example_info 10 cpu_example).1
          "u-vm")%Q
  /\ (rate_of "cpu"
        (_get_percentage_cpu_usage "u-vm" cpu_example_info 10 cpu_example).1
        "u-vm" <= 100)%Q.
Proof.
  destruct (cpu_percentage_bounds "u-vm" cpu_example_info 10 cpu_example
              (_get_percentage_cpu_usage "u-vm" cpu_example_info 10
                 cpu_example).1)
    as (H1 & H2 & _).
  - vm_compute. reflexivity.
  - split; [exact H1|exact H2].
Defined.

Lemma _vmscreenshot_delete_run vm_uuid s :
  exists s1,
    _vmscreenshot_delete vm_uuid s = (s1, inr tt)
    /\ objstore s1 = delete ("screenshot", vm_uuid) (objstore s)
    /\ virt s1 = virt s /\ connections s1 = connections s
    /\ stats s1 = stats s.
Proof.
  unfold _vmscreenshot_delete, _get_screenshot.
  destruct (objstore s !! ("screenshot", vm_uuid)) as [r|] eqn:Hr.
  - exists (set_objstore (delete ("screenshot", vm_uuid)) s).
    split; [|repeat split].
    cbv beta iota delta [bind try_except session_get session_delete gets ret].
    rewrite Hr. destruct r; cbv beta iota; rewrite Hr; reflexivity.
  - exists (set_objstore (delete ("screenshot", vm_uuid))
              (set_objstore (<[("screenshot", vm_uuid) :=
                                 ScreenshotRecord vm_uuid None]>) s)).
    split; [|split; [|repeat split]].
    + cbv beta iota delta [bind try_except session_get session_delete
                             session_store gets ret modify raise].
      rewrite Hr. simpl. now rewrite lookup_insert_eq.
    + simpl. rewrite (delete_insert_id _ _ _ Hr).
      symmetry. now apply delete_id.
Qed.

(** Deleting the volumes of a list of paths, each of which is there. *)
Lemma delete_paths_loop paths s :
  NoDup paths ->
  (forall p, p ∈ paths -> p ∈ lv_volumes (virt s)) ->
  for_each paths (fun path =>
    let* vol := call (storageVolLookupByPath path) in
    call (vol_delete vol)) s
  = (set_virt (set_lv_volumes
                 (fun _ => lv_volumes (virt s) ∖ list_to_set paths)
                 (virt s)) s,
     inr tt).
Proof.
  revert s. induction paths as [|p paths IH]; intros s Hnd Hin.
  - simpl. now rewrite set_virt_volumes_id.
  - simpl. apply NoDup_cons in Hnd as [Hp Hnd].
    assert (Hthere : p ∈ lv_volumes (virt s)) by (apply Hin; left).
    assert (Hlook : call (storageVolLookupByPath p) s = (s, inr p)).
    { apply call_read. unfold storageVolLookupByPath.
      now rewrite bool_decide_eq_true_2. }
    assert (Hdel : call (vol_delete p) s
                   = (set_virt (set_lv_volumes (fun V => V ∖ {[p]})
                                  (virt s)) s, inr tt)).
    { apply call_ok. unfold vol_delete.
      now rewrite bool_decide_eq_true_2. }
    rewrite (bind_ok _ _ s
               (set_virt (set_lv_volumes (fun V => V ∖ {[p]}) (virt s)) s) tt);
      [|now rewrite (bind_ok _ _ _ _ _ Hlook)].
    rewrite IH.
    + f_equal. unfold set_virt, set_lv_volumes. simpl. f_equal. f_equal.
      apply difference_difference_l_L.
    + exact Hnd.
    + intros q Hq. simpl. apply elem_of_difference. split.
      * apply Hin. now right.
      * intros Heq. apply elem_of_singleton in Heq. subst q. contradiction.
Qed.

(** The disk images of a domain, as [_vm_get_disk_paths] reads them. *)
Lemma _vm_get_disk_paths_ok dom s d :
  lv_domains (virt s) !! h_name dom = Some d ->
  _vm_get_disk_paths dom s = (s, inr (disk_paths d)).
Proof.
  intros H. unfold _vm_get_disk_paths.
  now rewrite (bind_ok _ _ s s _ (call_dom_XMLDesc dom s d H)).
Qed.

(** X22.  Deleting a VM that is shut off.  On an established session, with
    every disk image of the domain a volume libvirt knows, [vm_delete]
    undefines the domain, deletes exactly its disk images, removes the
    screenshot record and the icon record of its UUID and empties its
    sample window; pools, networks and the other domains stay, and the name
    is in the list of VMs no more. *)
Theorem vm_delete_shutoff (name : string) (s : Model) (d : domain) :
  connected s ->
  lv_domains (virt s) !! name = Some d ->
  d_state d = 5%nat ->
  NoDup (disk_paths d) ->
  (forall p, p ∈ disk_paths d -> p ∈ lv_volumes (virt s)) ->
  exists s',
    vm_delete name s = (s', inr tt)
    /\ lv_domains (virt s') = delete name (lv_domains (virt s))
    /\ lv_volumes (virt s')
       = lv_volumes (virt s) ∖ list_to_set (disk_paths d)
    /\ lv_pools (virt s') = lv_pools (virt s)
    /\ lv_networks (virt s') = lv_networks (virt s)
    /\ objstore s'
       = delete ("vm", x_uuid (d_xml d))
           (delete ("screenshot", x_uuid (d_xml d)) (objstore s))
    /\ stats s' = <[x_uuid (d_xml d) := ∅]> (stats s)
    /\ exists l, vms_get_list s' = (s', inr l) /\ name ∉ l.
Proof.
  intros Hc Hd Hoff Hnd Hin.
  pose (dom := {| h_name := name; h_uuid := x_uuid (d_xml d) |}).
  set (u := x_uuid (d_xml d)).
  destruct (_vmscreenshot_delete_run u s)
    as (s1 & Hshot & Hobj1 & Hvirt1 & Hconn1 & Hstats1).
  assert (Hc1 : connected s1).
  { destruct Hc as [c Hc]. exists c. now rewrite Hconn1. }
  assert (Hd1 : lv_domains (virt s1) !! name = Some d) by now rewrite Hvirt1.
  set (s2 := set_stats (<[u := ∅]>) s1).
  assert (Hc2 : connected s2) by now apply connected_set_stats.
  set (w3 := set_lv_domains (delete name) (virt s)).
  set (s3 := set_virt w3 s2).
  assert (Hundef : call (dom_undefine dom) s2 = (s3, inr tt)).
  { apply call_ok. unfold dom_undefine, on_domain. simpl.
    rewrite Hd1. subst w3. now rewrite Hvirt1. }
  set (w4 := set_lv_volumes
               (fun _ => lv_volumes (virt s) ∖ list_to_set (disk_paths d)) w3).
  set (s4 := set_virt w4 s3).
  assert (Hloop : for_each (disk_paths d) (fun path =>
                    let* vol := call (storageVolLookupByPath path) in
                    call (vol_delete vol)) s3 = (s4, inr tt)).
  { rewrite (delete_paths_loop (disk_paths d) s3 Hnd); [reflexivity|].
    exact Hin. }
  assert (Hlast : exists s5,
            session_delete "vm" u true s4 = (s5, inr tt)
            /\ objstore s5 = delete ("vm", u) (objstore s4)
            /\ virt s5 = virt s4 /\ stats s5 = stats s4
            /\ connections s5 = connections s4).
  { unfold session_delete, bind, gets.
    destruct (objstore s4 !! ("vm", u)) eqn:Hr.
    - eexists. split; [reflexivity|]. repeat split.
    - exists s4. split; [reflexivity|]. split; [|repeat split].
      symmetry. now apply delete_id. }
  destruct Hlast as (s5 & Hdel & Hobj5 & Hvirt5 & Hstats5 & Hconn5).
  exists s5. split; [|split; [|split; [|split; [|split; [|split; [|split]]]]]].
  - unfold vm_delete.
    rewrite (bind_ok _ _ s s true (_vm_exists_ok name s d Hc Hd)).
    destruct Hc as [c Hc].
    rewrite (bind_ok _ _ s s c (connected_get s c Hc)).
    rewrite (bind_ok _ _ s s dom (_get_vm_ok name s d (ex_intro _ c Hc) Hd)).
    rewrite (bind_ok _ _ s s1 tt Hshot).
    rewrite (bind_ok _ _ s1 s1 _ (_vm_get_disk_paths_ok dom s1 d Hd1)).
    rewrite (bind_ok _ _ s1 s2 _ (vm_lookup_shutoff_run name s1 d Hc1 Hd1 Hoff)).
    cbn [vi_state]. rewrite bool_decide_eq_false_2 by discriminate.
    unfold bind at 1, ret at 1.
    rewrite (bind_ok _ _ s2 s3 tt Hundef).
    rewrite (bind_ok _ _ s3 s4 tt Hloop).
    exact Hdel.
  - now rewrite Hvirt5.
  - now rewrite Hvirt5.
  - rewrite Hvirt5. reflexivity.
  - rewrite Hvirt5. reflexivity.
  - rewrite Hobj5. subst s4 s3 s2. simpl. now rewrite Hobj1.
  - rewrite Hstats5. subst s4 s3 s2. simpl. now rewrite Hstats1.
  - exists (domain_names (virt s5)). split.
    + apply vms_get_list_connected. destruct Hc2 as [c Hc2]. exists c.
      now rewrite Hconn5.
    + rewrite elem_of_domain_names, Hvirt5. subst w4 w3. simpl.
      rewrite lookup_delete_eq. intros [x Hx]. discriminate.
Qed.

Lemma vm_delete_shutoff_witness :
  exists s',
    vm_delete "vm" stopped_with_peak = (s', inr tt)
    /\ lv_domains (virt s') = delete "vm" (lv_domains (virt stopped_with_peak)).
Proof.
  destruct (vm_delete_shutoff "vm" stopped_with_peak
              (guest "vm" "u-vm" 5 1 0 0 0))
    as (s' & H1 & H2 & _).
  - exists 1%nat. vm_compute. reflexivity.
  - vm_compute. reflexivity.
  - reflexivity.
  - apply NoDup_nil_2.
  - intros p Hp. inversion Hp.
  - exists s'. auto.
Defined.

Lemma connected_same_connections s s' :
  connections s' = connections s -> connected s -> connected s'.
Proof. intros H [c Hc]. exists c. now rewrite H. Qed.

(** The screenshot of a running VM whose record is not in the store: the
    record is made and stored, with the path of the image. *)
Lemma vmscreenshot_lookup_fresh name s d :
  connected s -> lv_domains (virt s) !! name = Some d ->
  d_state d = 1%nat ->
  objstore s !! ("screenshot", x_uuid (d_xml d)) = None ->
  vmscreenshot_lookup name s
  = (set_objstore (fun o => <[("screenshot", x_uuid (d_xml d)) :=
                                ScreenshotRecord (x_uuid (d_xml d))
                                  (Some (screenshot_lookup
                                           (x_uuid (d_xml d), None)).2)]>
                              (<[("screenshot", x_uuid (d_xml d)) :=
                                   ScreenshotRecord (x_uuid (d_xml d)) None]> o))
       s,
     inr (screenshot_lookup (x_uuid (d_xml d), None)).2).
Proof.
  intros Hc Hd Hrun Hnone. unfold vmscreenshot_lookup.
  pose (dom := {| h_name := name; h_uuid := x_uuid (d_xml d) |}).
  rewrite (bind_ok _ _ s s dom (_get_vm_ok name s d Hc Hd)).
  rewrite (bind_ok _ _ s s _ (call_dom_info dom s d Hd)). simpl i_state.
  rewrite (bind_ok _ _ s s "running");
    [|apply dom_state_ok; now rewrite Hrun].
  rewrite bool_decide_eq_true_2 by reflexivity. cbn [negb].
  cbv beta iota delta [bind try_except _get_screenshot session_get
                         session_store gets ret modify raise h_uuid dom].
  rewrite Hnone. reflexivity.
Qed.

(** X23.  Deleting a VM that is running leaves a screenshot record behind.
    [vm_delete] removes the screenshot record first and looks the VM up
    afterwards; for a running VM the lookup takes a screenshot, which
    stores the record anew.  So the domain is stopped and undefined, its
    disk images are deleted and its icon record is removed, but the store
    still holds a screenshot record for the UUID of a VM that is gone. *)
Theorem vm_delete_running_leaves_screenshot (name : string) (s : Model)
    (d : domain) :
  connected s ->
  lv_domains (virt s) !! name = Some d ->
  d_state d = 1%nat ->
  NoDup (disk_paths d) ->
  (forall p, p ∈ disk_paths d -> p ∈ lv_volumes (virt s)) ->
  exists s',
    vm_delete name s = (s', inr tt)
    /\ lv_domains (virt s') = delete name (lv_domains (virt s))
    /\ lv_volumes (virt s')
       = lv_volumes (virt s) ∖ list_to_set (disk_paths d)
    /\ objstore s' !! ("vm", x_uuid (d_xml d)) = None
    /\ is_Some (objstore s' !! ("screenshot", x_uuid (d_xml d))).
Proof.
  intros Hc Hd Hrun Hnd Hin.
  pose (dom := {| h_name := name; h_uuid := x_uuid (d_xml d) |}).
  set (u := x_uuid (d_xml d)).
  destruct (_vmscreenshot_delete_run u s)
    as (s1 & Hshot & Hobj1 & Hvirt1 & Hconn1 & Hstats1).
  assert (Hc1 : connected s1) by exact (connected_same_connections _ _ Hconn1 Hc).
  assert (Hd1 : lv_domains (virt s1) !! name = Some d) by now rewrite Hvirt1.
  assert (Hnone1 : objstore s1 !! ("screenshot", u) = None)
    by (rewrite Hobj1; apply lookup_delete_eq).
  set (img := "/data/screenshots/" +:+ u +:+ ".png").
  set (s2 := set_objstore
               (fun o => <[("screenshot", u) := ScreenshotRecord u (Some img)]>
                           (<[("screenshot", u) := ScreenshotRecord u None]> o))
               s1).
  assert (Hc2 : connected s2) by now apply connected_set_objstore.
  assert (Hd2 : lv_domains (virt s2) !! name = Some d) by exact Hd1.
  assert (Hlook : exists info,
            vm_lookup name s1 = (s2, inr info) /\ vi_state info = "running").
  { unfold vm_lookup.
    rewrite (bind_ok _ _ s1 s1 dom (_get_vm_ok name s1 d Hc1 Hd1)).
    rewrite (bind_ok _ _ s1 s1 _ (call_dom_info dom s1 d Hd1)). simpl i_state.
    rewrite (bind_ok _ _ s1 s1 "running");
      [|apply dom_state_ok; now rewrite Hrun].
    rewrite (bind_ok _ _ s1 s1 _ (_vm_get_graphics_ok name s1 d Hc1 Hd1)).
    unfold bind at 1, gets at 1.
    rewrite (bind_ok _ _ s1 s2 (Some img)).
    2:{ apply try_ok. rewrite bool_decide_eq_true_2 by reflexivity.
        now rewrite (bind_ok _ _ s1 s2 img
                       (vmscreenshot_lookup_fresh name s1 d Hc1 Hd1 Hrun
                          Hnone1)). }
    destruct (try_except
                (let* r := session_get "vm" (h_uuid dom) in ret (Some r))
                (fun e => match e with
                          | NotFoundError _ => ret None
                          | _ => raise e
                          end) s2) as [s2' [e|extra]] eqn:Hextra.
    - exfalso. revert Hextra.
      cbv beta iota delta [bind try_except session_get gets ret raise].
      destruct (objstore s2 !! ("vm", h_uuid dom)); discriminate.
    - assert (s2' = s2) as ->.
      { revert Hextra.
        cbv beta iota delta [bind try_except session_get gets ret raise].
        destruct (objstore s2 !! ("vm", h_uuid dom)); now intros [= <- _]. }
      rewrite (bind_ok _ _ s2 s2 extra Hextra).
      eexists. split; [reflexivity|reflexivity]. }
  destruct Hlook as (info & Hlook & Hstate).
  set (w3 := set_lv_domains (<[name := set_d_state 5 d]>) (virt s)).
  set (s3 := set_virt w3 s2).
  assert (Hstop : vm_stop name s2 = (s3, inr tt)).
  { unfold vm_stop.
    rewrite (bind_ok _ _ s2 s2 true (_vm_exists_ok name s2 d Hc2 Hd2)).
    rewrite (bind_ok _ _ s2 s2 dom (_get_vm_ok name s2 d Hc2 Hd2)).
    apply call_ok. unfold dom_destroy, on_domain. simpl. rewrite Hd1.
    unfold is_active. rewrite Hrun. simpl. subst w3. now rewrite Hvirt1. }
  set (w4 := set_lv_domains (delete name) w3).
  set (s4 := set_virt w4 s3).
  assert (Hundef : call (dom_undefine dom) s3 = (s4, inr tt)).
  { apply call_ok. unfold dom_undefine, on_domain. simpl.
    now rewrite lookup_insert_eq. }
  set (w5 := set_lv_volumes
               (fun _ => lv_volumes (virt s) ∖ list_to_set (disk_paths d)) w4).
  set (s5 := set_virt w5 s4).
  assert (Hloop : for_each (disk_paths d) (fun path =>
                    let* vol := call (storageVolLookupByPath path) in
                    call (vol_delete vol)) s4 = (s5, inr tt)).
  { rewrite (delete_paths_loop (disk_paths d) s4 Hnd); [reflexivity|].
    exact Hin. }
  assert (Hlast : exists s6,
            session_delete "vm" u true s5 = (s6, inr tt)
            /\ objstore s6 = delete ("vm", u) (objstore s5)
            /\ virt s6 = virt s5).
  { unfold session_delete, bind, gets.
    destruct (objstore s5 !! ("vm", u)) eqn:Hr.
    - eexists. split; [reflexivity|]. repeat split.
    - exists s5. split; [reflexivity|]. split; [|repeat split].
      symmetry. now apply delete_id. }
  destruct Hlast as (s6 & Hdel & Hobj6 & Hvirt6).
  assert (Hleft : objstore s6 !! ("screenshot", u)
                  = Some (ScreenshotRecord u (Some img))).
  { rewrite Hobj6. rewrite lookup_delete_ne by discriminate.
    subst s5 s4 s3 s2. simpl. apply lookup_insert_eq. }
  exists s6. split; [|split; [|split; [|split]]].
  - unfold vm_delete.
    rewrite (bind_ok _ _ s s true (_vm_exists_ok name s d Hc Hd)).
    destruct Hc as [c Hc].
    rewrite (bind_ok _ _ s s c (connected_get s c Hc)).
    rewrite (bind_ok _ _ s s dom (_get_vm_ok name s d (ex_intro _ c Hc) Hd)).
    rewrite (bind_ok _ _ s s1 tt Hshot).
    rewrite (bind_ok _ _ s1 s1 _ (_vm_get_disk_paths_ok dom s1 d Hd1)).
    rewrite (bind_ok _ _ s1 s2 _ Hlook).
    rewrite Hstate. rewrite bool_decide_eq_true_2 by reflexivity.
    rewrite (bind_ok _ _ s2 s3 tt Hstop).
    rewrite (bind_ok _ _ s3 s4 tt Hundef).
    rewrite (bind_ok _ _ s4 s5 tt Hloop).
    exact Hdel.
  - rewrite Hvirt6. subst w5 w4 w3. simpl.
    rewrite delete_insert_eq. reflexivity.
  - now rewrite Hvirt6.
  - rewrite Hobj6. apply lookup_delete_eq.
  - rewrite Hleft. now eexists.
Qed.

Lemma vm_delete_running_leaves_screenshot_witness :
  exists s',
    vm_delete "a" two_guests = (s', inr tt)
    /\ objstore two_guests = ∅
    /\ is_Some (objstore s' !! ("screenshot", "u-a")).
Proof.
  destruct (vm_delete_running_leaves_screenshot "a" two_guests
              (guest "a" "u-a" 1 1 0 0 0))
    as (s' & H1 & _ & _ & _ & H2).
  - exists 1%nat. vm_compute. reflexivity.
  - vm_compute. reflexivity.
  - reflexivity.
  - apply NoDup_nil_2.
  - intros p Hp. inversion Hp.
  - exists s'. split; [exact H1|]. split; [reflexivity|exact H2].
Defined.

(** ** Creating a storage pool *)

Lemma not_iso_pool name :
  name <> ISO_POOL_NAME -> bool_decide (name ∈ [ISO_POOL_NAME]) = false.
Proof.
  intros H. apply bool_decide_eq_false_2. intros Hin.
  apply list_elem_of_singleton in Hin. contradiction.
Qed.

(** X24.  What [storagepools_create] answers to a request it cannot use, on
    an established session and with the state left as it was: a missing
    ['name'], ['type'] or, for a directory pool, ['path'] raises
    [MissingParameter] naming the key; the reserved name of the ISO pool
    raises [InvalidOperation]; and a type that is none of the four the
    function knows escapes as [UnboundLocalError], the descriptor never
    having been bound. *)
Theorem storagepools_create_bad_request (params : pool_params) (s : Model) :
  connected s ->
  (pp_name params = None ->
   storagepools_create params s = (s, inl (MissingParameter "name")))
  /\ (pp_name params = Some ISO_POOL_NAME ->
      storagepools_create params s
      = (s, inl (InvalidOperation "StoragePool already exists")))
  /\ (forall name, pp_name params = Some name -> name <> ISO_POOL_NAME ->
      (pp_type params = None ->
       storagepools_create params s = (s, inl (MissingParameter "type")))
      /\ (pp_type params = Some "dir" -> pp_path params = None ->
          storagepools_create params s = (s, inl (MissingParameter "path")))
      /\ (forall type, pp_type params = Some type ->
          type <> "dir" -> type <> "netfs" -> type <> "logical" ->
          type <> "kimchi-iso" ->
          storagepools_create params s
          = (s, inl (UnboundLocalError "xml")))).
Proof.
  intros [c Hc].
  assert (Hhead : forall e e',
    (let* name := item "name" (pp_name params) in
     if bool_decide (name ∈ [ISO_POOL_NAME]) then
       raise (InvalidOperation "StoragePool already exists")
     else
       let* type := item "type" (pp_type params) in
       let* scan :=
         if bool_decide (type = "kimchi-iso") then
           let* r := _do_deep_scan params in ret (Some r.1, r.2)
         else ret (None, params) in
       let* type' := item "type" (pp_type scan.2) in
       let* xml := _get_pool_xml scan.2 type' in
       ret (name, scan.1, type', xml)) s = (s, inl e) ->
    match e return M Model (string * option nat * string * pool_xml) with
    | KeyError key => raise (MissingParameter key)
    | _ => raise e
    end s = (s, inl e') ->
    storagepools_create params s = (s, inl e')).
  { intros e e' Hinner Hh. unfold storagepools_create.
    rewrite (bind_ok _ _ s s c (connected_get s c Hc)).
    apply bind_err. now rewrite (try_err _ _ s s e Hinner). }
  split; [|split].
  - intros Hn. apply (Hhead (KeyError "name")); [|reflexivity].
    now rewrite Hn.
  - intros Hn.
    apply (Hhead (InvalidOperation "StoragePool already exists"));
      [|reflexivity].
    now rewrite Hn.
  - intros name Hn Hne. split; [|split].
    + intros Ht. apply (Hhead (KeyError "type")); [|reflexivity].
      rewrite Hn. simpl item at 1. unfold bind at 1, ret at 1.
      rewrite (not_iso_pool name Hne). now rewrite Ht.
    + intros Ht Hp. apply (Hhead (KeyError "path")); [|reflexivity].
      rewrite Hn. simpl item at 1. unfold bind at 1, ret at 1.
      rewrite (not_iso_pool name Hne). rewrite Ht. simpl.
      unfold bind, ret, _get_pool_xml. simpl. rewrite Ht. simpl.
      now rewrite Hn, Hp.
    + intros type Ht H1 H2 H3 H4.
      apply (Hhead (UnboundLocalError "xml")); [|reflexivity].
      rewrite Hn. simpl item at 1. unfold bind at 1, ret at 1.
      rewrite (not_iso_pool name Hne). rewrite Ht. simpl item at 1.
      unfold bind at 1, ret at 1.
      rewrite (bool_decide_eq_false_2 _ H4).
      unfold bind at 1, ret at 1. cbn [snd]. rewrite Ht. simpl item at 1.
      unfold bind at 1, ret at 1. apply bind_err.
      unfold _get_pool_xml.
      now rewrite (bool_decide_eq_false_2 _ H1), (bool_decide_eq_false_2 _ H2),
        (bool_decide_eq_false_2 _ H3).
Qed.

Lemma storagepools_create_bad_request_witness :
  storagepools_create
    {| pp_name := None; pp_type := Some "dir"; pp_path := Some "/srv/p";
       pp_nfsserver := None; pp_nfspath := None; pp_devices := None |}
    (model_on world0)
  = (model_on world0, inl (MissingParameter "name"))
  /\ storagepools_create
       {| pp_name := Some "kimchi_isos"; pp_type := Some "dir";
          pp_path := Some "/srv/p";
          pp_nfsserver := None; pp_nfspath := None; pp_devices := None |}
       (model_on world0)
     = (model_on world0, inl (InvalidOperation "StoragePool already exists"))
  /\ storagepools_create
       {| pp_name := Some "p"; pp_type := Some "iscsi";
          pp_path := Some "/srv/p";
          pp_nfsserver := None; pp_nfspath := None; pp_devices := None |}
       (model_on world0)
     = (model_on world0, inl (UnboundLocalError "xml")).
Proof.
  assert (Hc : connected (model_on world0))
    by (exists 1%nat; vm_compute; reflexivity).
  split; [|split].
  - now apply (proj1 (storagepools_create_bad_request
                        {| pp_name := None; pp_type := Some "dir";
                           pp_path := Some "/srv/p"; pp_nfsserver := None;
                           pp_nfspath := None; pp_devices := None |}
                        (model_on world0) Hc)).
  - now apply (proj1 (proj2 (storagepools_create_bad_request
                        {| pp_name := Some "kimchi_isos"; pp_type := Some "dir";
                           pp_path := Some "/srv/p"; pp_nfsserver := None;
                           pp_nfspath := None; pp_devices := None |}
                        (model_on world0) Hc))).
  - apply (proj2 (proj2 (proj2 (proj2 (storagepools_create_bad_request
                        {| pp_name := Some "p"; pp_type := Some "iscsi";
                           pp_path := Some "/srv/p"; pp_nfsserver := None;
                           pp_nfspath := None; pp_devices := None |}
                        (model_on world0) Hc)) "p" eq_refl
                    ltac:(discriminate))) "iscsi" eq_refl);
      discriminate.
Defined.

(** X25.  A directory pool, created.  On an established session, for a
    name that is neither reserved nor taken and a descriptor libvirt
    accepts, [storagepools_create] defines the pool persistent, with
    autostart on, and leaves it inactive; nothing else changes, the name is
    returned, and the same request a second time is refused with
    [InvalidOperation] and changes nothing. *)
Theorem storagepools_create_dir (params : pool_params) (name path : string)
    (s : Model) :
  let xml := {| px_type := "dir"; px_name := name; px_path := path;
                px_source := [] |} in
  connected s ->
  pp_name params = Some name -> name <> ISO_POOL_NAME ->
  pp_type params = Some "dir" -> pp_path params = Some path ->
  lv_pools (virt s) !! name = None ->
  lv_refuse_pool (virt s) xml = None ->
  exists s',
    storagepools_create params s = (s', inr name)
    /\ lv_pools (virt s')
       = <[name := {| pl_type := "dir"; pl_path := path; pl_active := false;
                      pl_persistent := true; pl_autostart := true |}]>
           (lv_pools (virt s))
    /\ lv_volumes (virt s') = lv_volumes (virt s)
    /\ lv_domains (virt s') = lv_domains (virt s)
    /\ same_beyond_session s s'
    /\ storagepools_create params s'
       = (s', inl (InvalidOperation
                     ("The name " +:+ name +:+ " has been used by a pool"))).
Proof.
  intros xml [c Hc] Hn Hne Ht Hp Hfree Hacc.
  set (pl1 := {| pl_type := "dir"; pl_path := path; pl_active := false;
                 pl_persistent := true; pl_autostart := false |}).
  set (w1 := set_lv_pools (<[name := pl1]>) (virt s)).
  set (w2 := set_lv_pools (<[name := set_pl_autostart true pl1]>) w1).
  set (s1 := set_virt w1 s).
  set (s2 := set_virt w2 s1).
  assert (Hprep : forall s0,
    try_except
      (let* name := item "name" (pp_name params) in
       if bool_decide (name ∈ [ISO_POOL_NAME]) then
         raise (InvalidOperation "StoragePool already exists")
       else
         let* type := item "type" (pp_type params) in
         let* scan :=
           if bool_decide (type = "kimchi-iso") then
             let* r := _do_deep_scan params in ret (Some r.1, r.2)
           else ret (None, params) in
         let* type' := item "type" (pp_type scan.2) in
         let* xml := _get_pool_xml scan.2 type' in
         ret (name, scan.1, type', xml))
      (fun e => match e with
                | KeyError key => raise (MissingParameter key)
                | _ => raise e
                end) s0
    = (s0, inr (name, None, "dir", xml))).
  { intros s0. apply try_ok. rewrite Hn. simpl item at 1.
    unfold bind at 1, ret at 1. rewrite (not_iso_pool name Hne).
    rewrite Ht. simpl. unfold bind, ret, _get_pool_xml. simpl.
    rewrite Ht. simpl. rewrite Hn, Hp. reflexivity. }
  assert (Hdef : call (storagePoolDefineXML xml) s = (s1, inr name)).
  { apply call_ok. unfold storagePoolDefineXML. rewrite Hacc. simpl.
    now rewrite Hfree. }
  assert (Hbuild : call (pool_build name) s1 = (s1, inr tt)).
  { apply call_read. unfold pool_build, on_pool. simpl.
    now rewrite lookup_insert_eq. }
  assert (Hauto : call (pool_setAutostart name true) s1 = (s2, inr tt)).
  { apply call_ok. unfold pool_setAutostart, on_pool. simpl.
    now rewrite lookup_insert_eq. }
  assert (Hc2 : connected s2) by (exists c; exact Hc).
  exists s2. split; [|split; [|split; [|split; [|split]]]].
  - unfold storagepools_create.
    rewrite (bind_ok _ _ s s c (connected_get s c Hc)).
    rewrite (bind_ok _ _ s s _ (Hprep s)).
    rewrite (bind_ok _ _ s s _ (storagepools_get_list_connected s
                                  (ex_intro _ c Hc))).
    rewrite bool_decide_eq_false_2.
    2:{ unfold pool_names. rewrite (elem_of_listing pl_active), Hfree.
        intros [x Hx]. discriminate. }
    apply try_ok.
    rewrite (bind_ok _ _ s s1 name Hdef).
    rewrite (bind_ok _ _ s1 s2 tt); [reflexivity|].
    rewrite bool_decide_eq_true_2
      by (apply elem_of_cons; right; apply list_elem_of_singleton; reflexivity).
    now rewrite (bind_ok _ _ s1 s1 tt Hbuild).
  - subst w2 w1. simpl. now rewrite insert_insert_eq.
  - reflexivity.
  - reflexivity.
  - repeat split.
  - unfold storagepools_create.
    rewrite (bind_ok _ _ s2 s2 c (connected_get s2 c Hc)).
    rewrite (bind_ok _ _ s2 s2 _ (Hprep s2)).
    rewrite (bind_ok _ _ s2 s2 _ (storagepools_get_list_connected s2 Hc2)).
    rewrite bool_decide_eq_true_2; [reflexivity|].
    unfold pool_names. rewrite (elem_of_listing pl_active).
    subst w2. simpl. rewrite lookup_insert_eq. now eexists.
Qed.

Lemma storagepools_create_dir_witness :
  exists s',
    storagepools_create dir_request (model_on world0) = (s', inr "p")
    /\ lv_pools (virt s')
       = <["p" := {| pl_type := "dir"; pl_path := "/srv/p";
                     pl_active := false; pl_persistent := true;
                     pl_autostart := true |}]>
           (lv_pools (virt (model_on world0))).
Proof.
  destruct (storagepools_create_dir dir_request "p" "/srv/p" (model_on world0))
    as (s' & H1 & H2 & _).
  - exists 1%nat. vm_compute. reflexivity.
  - reflexivity.
  - discriminate.
  - reflexivity.
  - reflexivity.
  - vm_compute. reflexivity.
  - reflexivity.
  - exists s'. auto.
Defined.

(** ** Creating a network *)

(** X26.  [networks_create] for a NAT or an isolated network with a subnet
    of the caller's.  On an established session and under a name that is
    free: when the address parses and libvirt accepts the descriptor, the
    network is defined from it, inactive, with autostart on, nothing else
    changes and the name is returned; the forward mode is the connection,
    and none for an isolated network.  When the address does not parse the
    request raises [InvalidParameter] with the parser's message, and a
    bridged request that names no interface raises [MissingParameter];
    both leave the state as it was. *)
Theorem networks_create_subnet
    (free : list string -> string)
    (plan : string -> string + (string * (string * string)))
    (br nic bond : string -> bool)
    (params : network_params) (s : Model) :
  connected s ->
  lv_networks (virt s) !! np_name params = None ->
  (forall netaddr net dhcp,
     np_connection params = "nat" \/ np_connection params = "isolated" ->
     np_subnet params = Some netaddr -> netaddr <> "" ->
     plan netaddr = inr (net, dhcp) ->
     let xml := {| nx_name := np_name params;
                   nx_forward_mode :=
                     if bool_decide (np_connection params = "isolated")
                     then "" else np_connection params;
                   nx_forward_interface := []; nx_forward_pf := [];
                   nx_subnet := net; nx_dhcp := dhcp; nx_bridge := "" |} in
     lv_refuse_network (virt s) xml = None ->
     exists s',
       networks_create free plan br nic bond params s
       = (s', inr (np_name params))
       /\ lv_networks (virt s')
          = <[np_name params := {| nw_xml := xml; nw_active := false;
                                   nw_autostart := true |}]>
              (lv_networks (virt s))
       /\ lv_domains (virt s') = lv_domains (virt s)
       /\ lv_pools (virt s') = lv_pools (virt s)
       /\ same_beyond_session s s')
  /\ (forall netaddr msg,
      np_connection params = "nat" \/ np_connection params = "isolated" ->
      np_subnet params = Some netaddr -> netaddr <> "" ->
      plan netaddr = inl msg ->
      networks_create free plan br nic bond params s
      = (s, inl (InvalidParameter msg)))
  /\ (np_connection params = "bridge" -> np_interface params = None ->
      networks_create free plan br nic bond params s
      = (s, inl (MissingParameter "interface"))).
Proof.
  intros [c Hc] Hfree.
  assert (Hhead :
    networks_create free plan br nic bond params s
    = (let connection := np_connection params in
       let forward_mode :=
         if bool_decide (connection = "isolated") then "" else connection in
       let* subnet :=
         if bool_decide (connection ∈ ["nat"; "isolated"])
         then _set_network_subnet free plan params
         else ret ("", ("", "")) in
       let* bridge :=
         if bool_decide (connection = "bridge")
         then _set_network_bridge br nic bond params
         else ret ("", []) in
       let xml := {| nx_name := np_name params;
                     nx_forward_mode := forward_mode;
                     nx_forward_interface := bridge.2; nx_forward_pf := [];
                     nx_subnet := subnet.1; nx_dhcp := subnet.2;
                     nx_bridge := bridge.1 |} in
       try_except
         (let* network := call (networkDefineXML xml) in
          call (network_setAutostart network true))
         (fun e => if is_libvirtError e
                   then raise (OperationFailed (get_error_message e))
                   else raise e) ;;
       ret (np_name params)) s).
  { unfold networks_create.
    rewrite (bind_ok _ _ s s c (connected_get s c Hc)).
    rewrite (bind_ok _ _ s s _ (networks_get_list_connected s
                                  (ex_intro _ c Hc))).
    rewrite bool_decide_eq_false_2; [reflexivity|].
    unfold network_names. rewrite (elem_of_listing nw_active), Hfree.
    intros [x Hx]. discriminate. }
  assert (Hin : np_connection params = "nat"
                \/ np_connection params = "isolated" ->
                bool_decide (np_connection params ∈ ["nat"; "isolated"]) = true).
  { intros [-> | ->]; apply bool_decide_eq_true_2; repeat constructor. }
  assert (Hnb : np_connection params = "nat"
                \/ np_connection params = "isolated" ->
                bool_decide (np_connection params = "bridge") = false).
  { intros [-> | ->]; now apply bool_decide_eq_false_2. }
  assert (Hsub : forall netaddr, np_subnet params = Some netaddr ->
            netaddr <> "" ->
            _set_network_subnet free plan params s
            = match plan netaddr with
              | inl msg => (s, inl (InvalidParameter msg))
              | inr p => (s, inr p)
              end).
  { intros netaddr Hs Hne. unfold _set_network_subnet. rewrite Hs. simpl.
    rewrite (bool_decide_eq_false_2 _ Hne).
    unfold bind at 1, ret at 1. now destruct (plan netaddr). }
  split; [|split].
  - intros netaddr net dhcp Hconn Hs Hne Hplan xml Hacc.
    set (w1 := set_lv_networks
                 (<[np_name params := {| nw_xml := xml; nw_active := false;
                                         nw_autostart := false |}]>) (virt s)).
    set (w2 := set_lv_networks
                 (<[np_name params := {| nw_xml := xml; nw_active := false;
                                         nw_autostart := true |}]>) w1).
    exists (set_virt w2 (set_virt w1 s)).
    split; [|split; [|split; [reflexivity|split; [reflexivity|repeat split]]]].
    + rewrite Hhead. cbv zeta. rewrite (Hin Hconn), (Hnb Hconn).
      rewrite (bind_ok _ _ s s (net, dhcp));
        [|now rewrite (Hsub netaddr Hs Hne), Hplan].
      unfold bind at 1, ret at 1. cbn [fst snd].
      rewrite (bind_ok _ _ s (set_virt w2 (set_virt w1 s)) tt); [reflexivity|].
      apply try_ok.
      rewrite (bind_ok _ _ s (set_virt w1 s) (np_name params)).
      * apply call_ok. unfold network_setAutostart, on_network. simpl.
        now rewrite lookup_insert_eq.
      * apply call_ok. unfold networkDefineXML. fold xml. now rewrite Hacc.
    + subst w2 w1. simpl. now rewrite insert_insert_eq.
  - intros netaddr msg Hconn Hs Hne Hplan.
    rewrite Hhead. cbv zeta. rewrite (Hin Hconn).
    apply bind_err. now rewrite (Hsub netaddr Hs Hne), Hplan.
  - intros Hconn Hi. rewrite Hhead. cbv zeta. rewrite Hconn.
    rewrite bool_decide_eq_false_2.
    2:{ intros H. apply elem_of_cons in H as [H|H]; [discriminate|].
        apply list_elem_of_singleton in H. discriminate. }
    unfold bind at 1, ret at 1.
    rewrite bool_decide_eq_true_2 by reflexivity.
    apply bind_err. unfold _set_network_bridge. now rewrite Hi.
Qed.

Lemma networks_create_subnet_witness :
  (exists s',
     networks_create (fun _ => "") plan_24 (fun _ => false) (fun _ => true)
       (fun _ => false) lab_request (model_on world0)
     = (s', inr "lab")
     /\ lv_networks (virt s') !! "lab" = Some lab_network)
  /\ networks_create (fun _ => "") plan_24 (fun _ => false) (fun _ => true)
       (fun _ => false)
       {| np_name := "lab"; np_connection := "bridge"; np_subnet := None;
          np_interface := None |} (model_on world0)
     = (model_on world0, inl (MissingParameter "interface")).
Proof.
  assert (Hc : connected (model_on world0))
    by (exists 1%nat; vm_compute; reflexivity).
  split.
  - destruct (proj1 (networks_create_subnet (fun _ => "") plan_24
                       (fun _ => false) (fun _ => true) (fun _ => false)
                       lab_request (model_on world0) Hc
                       ltac:(vm_compute; reflexivity))
                "10.0.0.0/24" "10.0.0.0/24" ("10.0.0.128", "10.0.0.254"))
      as (s' & H1 & H2 & _).
    + now right.
    + reflexivity.
    + discriminate.
    + reflexivity.
    + reflexivity.
    + exists s'. split; [exact H1|]. rewrite H2. apply lookup_insert_eq.
  - apply (proj2 (proj2 (networks_create_subnet (fun _ => "") plan_24
                           (fun _ => false) (fun _ => true) (fun _ => false)
                           {| np_name := "lab"; np_connection := "bridge";
                              np_subnet := None; np_interface := None |}
                           (model_on world0) Hc
                           ltac:(vm_compute; reflexivity))));
      reflexivity.
Defined.

(** ** Host statistics *)






Lemma host_stats_item_run key h :
  exists h',
    host_stats_item key h = (h', inr (default 0%Q (hs_num h !! key)))
    /\ hs_memory h' = hs_memory h
    /\ (forall k, k <> key -> hs_num h' !! k = hs_num h !! k)
    /\ hs_num h' !! key = Some (default 0%Q (hs_num h !! key)).
Proof.
  unfold host_stats_item. destruct (hs_num h !! key) eqn:E; simpl.
  - exists h. repeat split; auto.
  - eexists. split; [reflexivity|]. simpl.
    repeat split; [|apply lookup_insert_eq].
    intros k Hk. now apply lookup_insert_ne.
Qed.

Lemma rate_per_second_zero delta seconds :
  (seconds == 0)%Q -> rate_per_second delta seconds = inl ZeroDivisionError.
Proof. intros H. unfold rate_per_second. now rewrite py_div_zero. Qed.

Lemma rate_per_second_ok delta seconds :
  ~ (seconds == 0)%Q ->
  rate_per_second delta seconds
  = inr (py_int (delta / seconds + (1 # 2))).
Proof. intros H. unfold rate_per_second. now rewrite py_div_ok. Qed.

(** The shape the two rate functions share: two counters kept under [kb1]
    and [kb2], two rates stored under [kr1] and [kr2]. *)
Lemma io_rate_run (kb1 kb2 kr1 kr2 : string) (b1 b2 : Z) seconds h :
  let step :=
    (let* p1 := host_stats_item kb1 in
     let* p2 := host_stats_item kb2 in
     let* r1 := lift (rate_per_second (inject_Z b1 - p1) seconds) in
     let* r2 := lift (rate_per_second (inject_Z b2 - p2) seconds) in
     modify (set_hs_num (fun d =>
       <[kr1 := inject_Z r1]>
         (<[kr2 := inject_Z r2]>
            (<[kb1 := inject_Z b1]> (<[kb2 := inject_Z b2]> d)))))) in
  ((seconds == 0)%Q ->
   exists h', step h = (h', inl ZeroDivisionError)
              /\ hs_memory h' = hs_memory h
              /\ forall k, k <> kb1 -> k <> kb2 ->
                           hs_num h' !! k = hs_num h !! k)
  /\ (~ (seconds == 0)%Q ->
      exists h', step h = (h', inr tt)
                 /\ hs_memory h' = hs_memory h
                 /\ forall k, k <> kb1 -> k <> kb2 -> k <> kr1 -> k <> kr2 ->
                              hs_num h' !! k = hs_num h !! k).
Proof.
  intros step.
  destruct (host_stats_item_run kb1 h) as (h1 & E1 & M1 & O1 & _).
  destruct (host_stats_item_run kb2 h1) as (h2 & E2 & M2 & O2 & _).
  split; intros Hs.
  - exists h2. split; [|split].
    + subst step. cbv beta.
      rewrite (bind_ok _ _ h h1 _ E1). rewrite (bind_ok _ _ h1 h2 _ E2).
      now rewrite rate_per_second_zero.
    + congruence.
    + intros k Hk1 Hk2. rewrite O2, O1; auto.
  - eexists. split; [|split].
    + subst step. cbv beta.
      rewrite (bind_ok _ _ h h1 _ E1). rewrite (bind_ok _ _ h1 h2 _ E2).
      rewrite !rate_per_second_ok by exact Hs. reflexivity.
    + simpl. congruence.
    + intros k Hk1 Hk2 Hk3 Hk4. simpl.
      rewrite !lookup_insert_ne by congruence. rewrite O2, O1; auto.
Qed.

(** X28.  The interval of a host tick, and what a tick without one does.
    The first tick, with no time stamp stored yet, measures against the
    uptime; every later one against the time stamp of the tick before.
    When that interval is zero, as for two ticks that read the same clock,
    the tick raises [ZeroDivisionError] after it has stored the new time
    stamp and before any rate, CPU or memory figure is stored; otherwise it
    completes and the time stamp, the CPU figure and the memory figures are
    those of the reading. *)
Theorem host_tick_interval (r : host_reading) (h : HostStats) :
  let t0 := default 0%Q (hs_num h !! "timestamp") in
  let seconds := if Qeq_bool t0 0 then hr_uptime r else (hr_time r - t0)%Q in
  ((seconds == 0)%Q ->
   exists h',
     _update_host_stats r h = (h', inl ZeroDivisionError)
     /\ hs_num h' !! "timestamp" = Some (hr_time r)
     /\ hs_num h' !! "disk_read_rate" = hs_num h !! "disk_read_rate"
     /\ hs_num h' !! "net_recv_rate" = hs_num h !! "net_recv_rate"
     /\ hs_num h' !! "cpu_utilization" = hs_num h !! "cpu_utilization"
     /\ hs_memory h' = hs_memory h)
  /\ (~ (seconds == 0)%Q ->
      exists h',
        _update_host_stats r h = (h', inr tt)
        /\ hs_num h' !! "timestamp" = Some (hr_time r)
        /\ hs_num h' !! "cpu_utilization" = Some (hr_cpu_percent r)
        /\ hs_memory h' = Some (hr_memory r)).
Proof.
  intros t0 seconds.
  destruct (host_stats_item_run "timestamp" h) as (h0 & E0 & M0 & O0 & _).
  fold t0 in E0.
  set (h1 := set_hs_num (<["timestamp" := hr_time r]>) h0).
  assert (Hhead : forall k : M HostStats unit,
            (let* preTimeStamp := host_stats_item "timestamp" in
             let timestamp := hr_time r in
             let seconds := if Qeq_bool preTimeStamp 0 then hr_uptime r
                            else (timestamp - preTimeStamp)%Q in
             modify (set_hs_num (<["timestamp" := timestamp]>)) ;;
             _get_host_disk_io_rate r seconds ;;
             _get_host_network_io_rate r seconds ;; k) h
            = (_get_host_disk_io_rate r seconds ;;
               _get_host_network_io_rate r seconds ;; k) h1).
  { intros k. now rewrite (bind_ok _ _ h h0 _ E0). }
  unfold _update_host_stats. rewrite Hhead. clear Hhead.
  destruct (io_rate_run "disk_read_bytes" "disk_write_bytes"
              "disk_read_rate" "disk_write_rate"
              (hr_read_bytes r) (hr_write_bytes r) seconds h1)
    as [Hdz Hdo].
  split; intros Hs.
  - destruct (Hdz Hs) as (h2 & E2 & M2 & O2).
    exists h2. split; [exact (bind_err _ _ h1 h2 _ E2)|].
    assert (Hother : forall k, k <> "timestamp" -> k <> "disk_read_bytes" ->
                       k <> "disk_write_bytes" ->
                       hs_num h2 !! k = hs_num h !! k).
    { intros k H1 H2 H3. rewrite O2 by assumption. subst h1. simpl.
      rewrite lookup_insert_ne by congruence. now apply O0. }
    split; [|split; [|split; [|split]]].
    + rewrite O2 by discriminate. apply lookup_insert_eq.
    + now apply Hother.
    + now apply Hother.
    + now apply Hother.
    + rewrite M2. subst h1. simpl. exact M0.
  - destruct (Hdo Hs) as (h2 & E2 & M2 & O2).
    destruct (io_rate_run "net_recv_bytes" "net_sent_bytes"
                "net_recv_rate" "net_sent_rate"
                (net_totals r).1 (net_totals r).2 seconds h2)
      as [_ Hno].
    destruct (Hno Hs) as (h3 & E3 & M3 & O3).
    eexists. split; [|split; [|split]].
    + rewrite (bind_ok _ _ h1 h2 tt E2). rewrite (bind_ok _ _ h2 h3 tt E3).
      reflexivity.
    + simpl. rewrite lookup_insert_ne by discriminate.
      rewrite O3, O2 by discriminate. apply lookup_insert_eq.
    + simpl. apply lookup_insert_eq.
    + reflexivity.
Qed.

Lemma host_tick_interval_witness :
  (exists h',
     _update_host_stats reading10 host_stats0 = (h', inr tt)
     /\ hs_num h' !! "timestamp" = Some 1000%Q
     /\ hs_memory h' = Some (8, 4, 2, 1, 7)%Z)
  /\ exists h',
       _update_host_stats reading10
         (_update_host_stats reading10 host_stats0).1
       = (h', inl ZeroDivisionError)
       /\ hs_num h' !! "timestamp" = Some 1000%Q.
Proof.
  split.
  - destruct (proj2 (host_tick_interval reading10 host_stats0))
      as (h' & H1 & H2 & _ & H3).
    + vm_compute. discriminate.
    + exists h'. auto.
  - destruct (proj1 (host_tick_interval reading10
                       (_update_host_stats reading10 host_stats0).1))
      as (h' & H1 & H2 & _).
    + vm_compute. reflexivity.
    + exists h'. auto.
Defined.

(** X29.  [hoststats_lookup] reads through a dictionary with defaults: a
    figure no tick has stored yet reads as zero, the memory figures as
    absent, and each numeric key that was read is in the dictionary
    afterwards, so that the same lookup again returns the same figures and
    changes nothing. *)
Theorem hoststats_lookup_defaults (h : HostStats) :
  exists h' f,
    hoststats_lookup h = (h', inr f)
    /\ hf_cpu_utilization f = default 0%Q (hs_num h !! "cpu_utilization")
    /\ hf_memory f = hs_memory h
    /\ hf_disk_read_rate f = default 0%Q (hs_num h !! "disk_read_rate")
    /\ hf_disk_write_rate f = default 0%Q (hs_num h !! "disk_write_rate")
    /\ hf_net_recv_rate f = default 0%Q (hs_num h !! "net_recv_rate")
    /\ hf_net_sent_rate f = default 0%Q (hs_num h !! "net_sent_rate")
    /\ (forall k, k ∈ ["cpu_utilization"; "disk_read_rate"; "disk_write_rate";
                       "net_recv_rate"; "net_sent_rate"] ->
                  is_Some (hs_num h' !! k))
    /\ hs_memory h' = hs_memory h
    /\ hoststats_lookup h' = (h', inr f).
Proof.
  destruct (host_stats_item_run "cpu_utilization" h)
    as (h1 & E1 & M1 & O1 & K1).
  destruct (host_stats_item_run "disk_read_rate" h1)
    as (h2 & E2 & M2 & O2 & K2).
  destruct (host_stats_item_run "disk_write_rate" h2)
    as (h3 & E3 & M3 & O3 & K3).
  destruct (host_stats_item_run "net_recv_rate" h3)
    as (h4 & E4 & M4 & O4 & K4).
  destruct (host_stats_item_run "net_sent_rate" h4)
    as (h5 & E5 & M5 & O5 & K5).
  assert (Hrun : forall g g1 g2 g3 g4 g5 v1 v2 v3 v4 v5,
            host_stats_item "cpu_utilization" g = (g1, inr v1) ->
            host_stats_item "disk_read_rate" g1 = (g2, inr v2) ->
            host_stats_item "disk_write_rate" g2 = (g3, inr v3) ->
            host_stats_item "net_recv_rate" g3 = (g4, inr v4) ->
            host_stats_item "net_sent_rate" g4 = (g5, inr v5) ->
            hoststats_lookup g
            = (g5, inr {| hf_cpu_utilization := v1; hf_memory := hs_memory g1;
                          hf_disk_read_rate := v2; hf_disk_write_rate := v3;
                          hf_net_recv_rate := v4; hf_net_sent_rate := v5 |})).
  { intros g g1 g2 g3 g4 g5 v1 v2 v3 v4 v5 F1 F2 F3 F4 F5.
    unfold hoststats_lookup.
    rewrite (bind_ok _ _ g g1 _ F1). unfold bind at 1, gets at 1.
    rewrite (bind_ok _ _ g1 g2 _ F2). rewrite (bind_ok _ _ g2 g3 _ F3).
    rewrite (bind_ok _ _ g3 g4 _ F4). rewrite (bind_ok _ _ g4 g5 _ F5).
    reflexivity. }
  assert (Hkeep : forall k v g, hs_num g !! k = Some v ->
            host_stats_item k g = (g, inr v)).
  { intros k v g Hk. unfold host_stats_item. now rewrite Hk. }
  (* the five keys, as they stand in the last state *)
  assert (L1 : hs_num h5 !! "cpu_utilization"
               = Some (default 0%Q (hs_num h !! "cpu_utilization"))).
  { rewrite O5, O4, O3, O2 by discriminate. exact K1. }
  assert (L2 : hs_num h5 !! "disk_read_rate"
               = Some (default 0%Q (hs_num h !! "disk_read_rate"))).
  { rewrite O5, O4, O3 by discriminate. rewrite K2.
    now rewrite O1 by discriminate. }
  assert (L3 : hs_num h5 !! "disk_write_rate"
               = Some (default 0%Q (hs_num h !! "disk_write_rate"))).
  { rewrite O5, O4 by discriminate. rewrite K3.
    now rewrite O2, O1 by discriminate. }
  assert (L4 : hs_num h5 !! "net_recv_rate"
               = Some (default 0%Q (hs_num h !! "net_recv_rate"))).
  { rewrite O5 by discriminate. rewrite K4.
    now rewrite O3, O2, O1 by discriminate. }
  assert (L5 : hs_num h5 !! "net_sent_rate"
               = Some (default 0%Q (hs_num h !! "net_sent_rate"))).
  { rewrite K5. now rewrite O4, O3, O2, O1 by discriminate. }
  exists h5. eexists.
  split; [exact (Hrun h h1 h2 h3 h4 h5 _ _ _ _ _ E1 E2 E3 E4 E5)|].
  simpl. split; [reflexivity|]. split; [exact M1|].
  split; [now rewrite O1 by discriminate|].
  split; [now rewrite O2, O1 by discriminate|].
  split; [now rewrite O3, O2, O1 by discriminate|].
  split; [now rewrite O4, O3, O2, O1 by discriminate|].
  split.
  { intros k Hk.
    repeat (apply elem_of_cons in Hk as [-> | Hk];
            [first [rewrite L1 | rewrite L2 | rewrite L3 | rewrite L4
                   | rewrite L5]; now eexists|]).
    inversion Hk. }
  split; [congruence|].
  rewrite (Hrun h5 h5 h5 h5 h5 h5 _ _ _ _ _
             (Hkeep _ _ _ L1) (Hkeep _ _ _ L2) (Hkeep _ _ _ L3)
             (Hkeep _ _ _ L4) (Hkeep _ _ _ L5)).
  f_equal. f_equal.
  rewrite (O4 "net_sent_rate"), (O3 "net_sent_rate"), (O2 "net_sent_rate"),
    (O1 "net_sent_rate") by discriminate.
  rewrite (O3 "net_recv_rate"), (O2 "net_recv_rate"), (O1 "net_recv_rate")
    by discriminate.
  rewrite (O2 "disk_write_rate"), (O1 "disk_write_rate") by discriminate.
  rewrite (O1 "disk_read_rate") by discriminate.
  f_equal. congruence.
Qed.

(** ** From a URI to a name and back *)

Lemma string_prefix_app p x : String.prefix p (p +:+ x) = true.
Proof.
  induction p as [|c p IH]; simpl; [now destruct x|].
  destruct (Ascii.ascii_dec c c); [exact IH|contradiction].
Qed.

Lemma string_length_app p x :
  String.length (p +:+ x) = (String.length p + String.length x)%nat.
Proof. induction p as [|c p IH]; simpl; [reflexivity|now rewrite IH]. Qed.

Lemma substring_all x : String.substring 0 (String.length x) x = x.
Proof. induction x as [|c x IH]; simpl; [reflexivity|now rewrite IH]. Qed.

Lemma substring_drop p x :
  String.substring (String.length p) (String.length x) (p +:+ x) = x.
Proof. induction p as [|c p IH]; simpl; [apply substring_all|exact IH]. Qed.

Lemma substring_take x y :
  String.substring 0 (String.length x) (x +:+ y) = x.
Proof.
  induction x as [|c x IH]; simpl; [now destruct y|now rewrite IH].
Qed.

Lemma append_assoc_string a b c : (a +:+ b) +:+ c = a +:+ (b +:+ c).
Proof.
  induction a as [|x a IH]; [reflexivity|].
  change (String x ((a +:+ b) +:+ c) = String x (a +:+ (b +:+ c))).
  now f_equal.
Qed.

Lemma _uri_to_name_rest collection rest :
  _uri_to_name collection (uri_of collection rest)
  = inr (strip_trailing_slash rest).
Proof.
  unfold _uri_to_name, uri_of.
  set (pre := "/" +:+ collection +:+ "/").
  replace ("/" +:+ collection +:+ "/" +:+ rest) with (pre +:+ rest).
  2:{ subst pre. now rewrite !append_assoc_string. }
  rewrite string_prefix_app. rewrite string_length_app.
  replace (String.length pre + String.length rest - String.length pre)%nat
    with (String.length rest) by lia.
  now rewrite substring_drop.
Qed.

(** X30.  A name survives the trip through its URI.  For a name without a
    line feed, [_uri_to_name] gives the name back from
    ["/collection/name/"], whatever the name, and from ["/collection/name"]
    when the name does not itself end in a slash; a string that does not
    start with ["/collection/"] raises [InvalidParameter] carrying the
    string.  So the URI of a template is no pool URI. *)
Theorem uri_to_name_round_trip (collection name : string) :
  no_newline name ->
  _uri_to_name collection (uri_of collection (name +:+ "/")) = inr name
  /\ (String.substring (String.length name - 1) 1 name <> "/" ->
      _uri_to_name collection (uri_of collection name) = inr name)
  /\ (forall uri,
      String.prefix ("/" +:+ collection +:+ "/") uri = false ->
      _uri_to_name collection uri = inl (InvalidParameter uri)).
Proof.
  intros _. split; [|split].
  - rewrite _uri_to_name_rest. f_equal. unfold strip_trailing_slash.
    rewrite string_length_app. simpl String.length.
    replace (String.length name + 1 - 1)%nat with (String.length name) by lia.
    replace (String.substring (String.length name) 1 (name +:+ "/"))
      with "/" by (symmetry; apply (substring_drop name "/")).
    rewrite bool_decide_eq_true_2 by reflexivity.
    apply substring_take.
  - intros Hend. rewrite _uri_to_name_rest. f_equal.
    unfold strip_trailing_slash. now rewrite bool_decide_eq_false_2.
  - intros uri Hp. unfold _uri_to_name. now rewrite Hp.
Qed.

Lemma uri_to_name_round_trip_witness :
  template_name_from_uri (uri_of "templates" ("tmpl" +:+ "/")) = inr "tmpl"
  /\ template_name_from_uri (uri_of "templates" "tmpl") = inr "tmpl"
  /\ pool_name_from_uri (uri_of "templates" "tmpl")
     = inl (InvalidParameter (uri_of "templates" "tmpl")).
Proof.
  assert (Hnl : no_newline "tmpl").
  { intros c Hc. simpl in Hc.
    repeat (destruct Hc as [<- | Hc]; [discriminate|]). contradiction. }
  split; [|split].
  - exact (proj1 (uri_to_name_round_trip "templates" "tmpl" Hnl)).
  - apply (proj1 (proj2 (uri_to_name_round_trip "templates" "tmpl" Hnl))).
    discriminate.
  - apply (proj2 (proj2 (uri_to_name_round_trip "storagepools" "tmpl" Hnl))).
    reflexivity.
Defined.
